(** * ThumbnailGo: the thumbnail controller, embedded and verified

    The sources hold several revisions of the thumbnail controller.
    Each revision that the properties below talk about is embedded in a
    module of its own:

    - [Fallbacks]  : the revision with [generateImageWithFallbacks], the
                     hoisted [let thumbnail] and the recovery write
                     (src/unnamed/part_000);
    - [Controller] : src/server/controllers/ThumbnailController.ts
                     (three attempts on one provider, plain 500 on failure);
    - [Retry]      : the first revision of src/unnamed/part_001
                     (three attempts, the last error rethrown);
    - [Picsum]     : the second revision of src/unnamed/part_001
                     (three attempts, then a stock image);
    - [Legacy]     : src/unnamed/part_002 (one attempt).

    Asynchronous code is sequential here: every [await] is a bind of the
    handler monad [M], an exception is the [Throw] result, and what the
    outside world answers (the document store, the image providers, the
    file system, the upload service) is read from an [Env].  Calls to
    [console.log] are not modelled. *)

From Stdlib Require Import ZArith Lia Strings.Ascii.
From stdpp Require Import gmap strings pretty list.

Open Scope string_scope.
Open Scope list_scope.
Open Scope Z_scope.

(** ** The JavaScript the controllers rely on *)

Module Js.

(** The double-quote character of the template literals. *)
Definition dquote : string := String (ascii_of_nat 34) EmptyString.

(** Values a JSON body field can take before the handler looks at its
    type. *)
Inductive value : Type :=
| JUndefined
| JNull
| JBool (b : bool)
| JNumber (n : Z)
| JString (s : string).

Definition nonempty (s : string) : bool :=
  match s with EmptyString => false | String _ _ => true end.

(** Truthiness of an optional string ([undefined] or a string). *)
Definition truthy (o : option string) : bool :=
  match o with Some s => nonempty s | None => false end.

(** [x || d] on an optional string. *)
Definition or_default (o : option string) (d : string) : string :=
  match o with
  | Some s => if nonempty s then s else d
  | None => d
  end.

(** [`${x}`] on an optional string. *)
Definition interpolate (o : option string) : string :=
  match o with Some s => s | None => "undefined" end.

(** Strings are the UTF-8 encoding of the JavaScript strings, one
    [ascii] per byte.

    [String.prototype.trim] strips the code points of WhiteSpace and
    LineTerminator: U+0009 to U+000D and U+0020, one byte each; U+00A0,
    two bytes; U+1680, U+2000 to U+200A, U+2028, U+2029, U+202F, U+205F,
    U+3000 and U+FEFF, three bytes each. *)
Definition isByte (a : ascii) (n : nat) : bool :=
  Nat.eqb (nat_of_ascii a) n.

Definition isSpace2 (a b : ascii) : bool := isByte a 194 && isByte b 160.

Definition isSpace3 (a b c : ascii) : bool :=
  (isByte a 225 && isByte b 154 && isByte c 128)
  || (isByte a 226 && isByte b 128
      && (Nat.leb 128 (nat_of_ascii c) && Nat.leb (nat_of_ascii c) 138
          || isByte c 168 || isByte c 169 || isByte c 175))
  || (isByte a 226 && isByte b 129 && isByte c 159)
  || (isByte a 227 && isByte b 128 && isByte c 128)
  || (isByte a 239 && isByte b 187 && isByte c 191).

Fixpoint trimStart (s : string) : string :=
  match s with
  | EmptyString => EmptyString
  | String a s1 =>
      if Ascii.is_space a then trimStart s1
      else
        match s1 with
        | EmptyString => s
        | String b s2 =>
            if isSpace2 a b then trimStart s2
            else
              match s2 with
              | EmptyString => s
              | String c s3 => if isSpace3 a b c then trimStart s3 else s
              end
        end
  end.

(** The same on the reversed string: the bytes of a code point come
    last byte first. *)
Fixpoint trimStartReversed (s : string) : string :=
  match s with
  | EmptyString => EmptyString
  | String c s1 =>
      if Ascii.is_space c then trimStartReversed s1
      else
        match s1 with
        | EmptyString => s
        | String b s2 =>
            if isSpace2 b c then trimStartReversed s2
            else
              match s2 with
              | EmptyString => s
              | String a s3 =>
                  if isSpace3 a b c then trimStartReversed s3 else s
              end
        end
  end.

Definition trimEnd (s : string) : string :=
  String.rev (trimStartReversed (String.rev s)).

Definition trim (s : string) : string := trimEnd (trimStart s).

(** [typeof v === "string" && v.trim() ? v.trim() : d] *)
Definition clean (v : value) (d : string) : string :=
  match v with
  | JString s => if nonempty (trim s) then trim s else d
  | _ => d
  end.

(** Reading [literal[key]] on an object literal walks the prototype
    chain: a key that is not an own property of the literal but names a
    member of [Object.prototype] yields that member, not [undefined]. *)
Definition objectPrototypeKeys : list string :=
  [ "constructor"; "__defineGetter__"; "__defineSetter__";
    "hasOwnProperty"; "__lookupGetter__"; "__lookupSetter__";
    "isPrototypeOf"; "propertyIsEnumerable"; "toString"; "valueOf";
    "__proto__"; "toLocaleString" ].

Inductive property (A : Type) : Type :=
| Own (a : A)
| Inherited (key : string)
| Undefined.
Arguments Own {A} a.
Arguments Inherited {A} key.
Arguments Undefined {A}.

Definition get {A : Type} (literal : gmap string A) (key : string)
  : property A :=
  match literal !! key with
  | Some a => Own a
  | None =>
      if bool_decide (key ∈ objectPrototypeKeys) then Inherited key
      else Undefined
  end.

(** What Node prints for a member of [Object.prototype] inside a
    template literal: the functions print as native code, and
    [__proto__] is [Object.prototype] itself. *)
Definition inheritedText (key : string) : string :=
  if bool_decide (key = "__proto__") then "[object Object]"
  else "function "
       +:+ (if bool_decide (key = "constructor") then "Object" else key)
       +:+ "() { [native code] }".

(** Truthiness of a string-valued property read. *)
Definition truthyProperty (p : property string) : bool :=
  match p with
  | Own s => nonempty s
  | Inherited _ => true
  | Undefined => false
  end.

(** [`${literal[key]}`] *)
Definition interpolateProperty (p : property string) : string :=
  match p with
  | Own s => s
  | Inherited k => inheritedText k
  | Undefined => "undefined"
  end.

(** [`${literal[key] || d}`] *)
Definition propertyOr (p : property string) (d : string) : string :=
  if truthyProperty p then interpolateProperty p else d.

(** [s.split("x")] *)
Fixpoint split_go (sep : ascii) (cur : string) (s : string) : list string :=
  match s with
  | EmptyString => [String.rev cur]
  | String a s' =>
      if bool_decide (a = sep) then String.rev cur :: split_go sep EmptyString s'
      else split_go sep (String a cur) s'
  end.

Definition split (sep : ascii) (s : string) : list string :=
  split_go sep EmptyString s.

(** [Number(s)] on strings of decimal digits (the empty string is 0);
    anything else the tables never hold and is [NaN], here [None]. *)
Fixpoint digits (acc : Z) (s : string) : option Z :=
  match s with
  | EmptyString => Some acc
  | String a s' =>
      match Ascii.is_nat a with
      | Some d => digits (10 * acc + Z.of_nat d) s'
      | None => None
      end
  end.

Definition Number (s : string) : option Z := digits 0 s.

End Js.

Import Js.

(** ** Data model *)

(** The persisted record ([models/Thumbnail.js] documents).  [image_url]
    and [error] are [None] while unset. *)
Record Thumbnail : Type := {
  _id : string;
  userId : string;
  title : string;
  prompt_used : string;
  style : string;
  aspect_ratio : string;
  color_scheme : string;
  text_overlay : bool;
  isGenerating : bool;
  image_url : option string;
  error : option string
}.

(** [thumbnail.image_url = v] *)
Definition assign_image_url (v : string) (t : Thumbnail) : Thumbnail :=
  {| _id := _id t; userId := userId t; title := title t;
     prompt_used := prompt_used t; style := style t;
     aspect_ratio := aspect_ratio t; color_scheme := color_scheme t;
     text_overlay := text_overlay t; isGenerating := isGenerating t;
     image_url := Some v; error := error t |}.

(** [thumbnail.isGenerating = b] *)
Definition assign_isGenerating (b : bool) (t : Thumbnail) : Thumbnail :=
  {| _id := _id t; userId := userId t; title := title t;
     prompt_used := prompt_used t; style := style t;
     aspect_ratio := aspect_ratio t; color_scheme := color_scheme t;
     text_overlay := text_overlay t; isGenerating := b;
     image_url := image_url t; error := error t |}.

(** [thumbnail.error = v] *)
Definition assign_error (v : string) (t : Thumbnail) : Thumbnail :=
  {| _id := _id t; userId := userId t; title := title t;
     prompt_used := prompt_used t; style := style t;
     aspect_ratio := aspect_ratio t; color_scheme := color_scheme t;
     text_overlay := text_overlay t; isGenerating := isGenerating t;
     image_url := image_url t; error := Some v |}.

(** [req.session], [req.body], [req.params] *)
Module Session.
Record t : Type := { userId : option string }.
End Session.

Module Body.
Record t : Type := {
  title : option string;
  prompt : option string;
  style : value;
  aspect_ratio : value;
  color_scheme : value;
  text_overlay : option bool
}.
End Body.

Module Request.
Record t : Type := {
  session : option Session.t;
  body : Body.t;
  id : string
}.
End Request.

(** [const { userId } = req.session || {}] *)
Definition sessionUserId (req : Request.t) : option string :=
  match Request.session req with
  | Some s => Session.userId s
  | None => None
  end.

(** What [res.status(..).json(..)] sends. *)
Module Response.
Record t : Type := {
  status : Z;
  message : string;
  thumbnail : option Thumbnail;
  error : option string
}.
End Response.

(** A thrown [Error]. *)
Record Error : Type := { message : string }.

Definition Bytes : Type := list Byte.byte.

(** ** Effects *)

(** Everything the handlers do to the outside world, in order. *)
Inductive Event : Type :=
| DbCreate (doc : Thumbnail)
| DbSave (doc : Thumbnail)
| DbDelete (id : string)
| Sleep (ms : Z)
| HttpGet (host : string) (width height : option Z) (timeout : option Z)
| FsMkdir (dir : string)
| FsWrite (path : string)
| FsUnlink (path : string)
| Upload (path : string) (folder : option string).

#[global] Instance Thumbnail_eq_dec : EqDecision Thumbnail.
Proof. solve_decision. Defined.

#[global] Instance Event_eq_dec : EqDecision Event.
Proof. solve_decision. Defined.

(** The outbound calls: image providers and the upload service. *)
Definition outbound (e : Event) : bool :=
  match e with
  | HttpGet _ _ _ _ | Upload _ _ => true
  | _ => false
  end.

(** [store] is the collection, keyed by [_id]; [files] the local disk;
    [thumbnail] the document object the running handler holds. *)
Record State : Type := {
  store : gmap string Thumbnail;
  files : gset string;
  trace : list Event;
  thumbnail : option Thumbnail
}.

(** What the collaborators answer during one request. *)
Record Env : Type := {
  objectId : string;              (* the _id given to a created document *)
  create_error : option Error;    (* Thumbnail.create rejects *)
  axios : nat -> Error + Bytes;   (* outcome of the i-th axios.get *)
  clock : Z;                      (* Date.now() when the file is named *)
  mkdir_error : option Error;
  write_error : option Error;
  upload_result : Error + string; (* uploadResult.secure_url *)
  save_error : option Error;      (* the completion save rejects *)
  unlink_error : option Error;
  recovery_save_error : option Error; (* the save of the catch block rejects *)
  delete_error : option Error     (* the delete query rejects *)
}.

Inductive Result (A : Type) : Type :=
| Ok (a : A)
| Throw (e : Error).
Arguments Ok {A} a.
Arguments Throw {A} e.

Definition M (A : Type) : Type := State -> Result A * State.

Definition ret {A : Type} (a : A) : M A := fun s => (Ok a, s).

Definition throw {A : Type} (e : Error) : M A := fun s => (Throw e, s).

Definition bind {A B : Type} (m : M A) (k : A -> M B) : M B :=
  fun s =>
    match m s with
    | (Ok a, s') => k a s'
    | (Throw e, s') => (Throw e, s')
    end.

(** [try { m } catch (error) { h error }] *)
Definition try_catch {A : Type} (m : M A) (h : Error -> M A) : M A :=
  fun s =>
    match m s with
    | (Ok a, s') => (Ok a, s')
    | (Throw e, s') => h e s'
    end.

Notation "x <- m ;; k" := (bind m (fun x => k))
  (at level 100, m at next level, right associativity).
Notation "m ;;; k" := (bind m (fun _ => k))
  (at level 100, right associativity).

Definition emit (e : Event) : M unit :=
  fun s => (Ok tt, {| store := store s; files := files s;
                      trace := trace s ++ [e]; thumbnail := thumbnail s |}).

Definition set_store (m : gmap string Thumbnail) : M unit :=
  fun s => (Ok tt, {| store := m; files := files s;
                      trace := trace s; thumbnail := thumbnail s |}).

Definition set_files (f : gset string) : M unit :=
  fun s => (Ok tt, {| store := store s; files := f;
                      trace := trace s; thumbnail := thumbnail s |}).

Definition set_thumbnail (t : option Thumbnail) : M unit :=
  fun s => (Ok tt, {| store := store s; files := files s;
                      trace := trace s; thumbnail := t |}).

Definition get_state : M State := fun s => (Ok s, s).

(** Rejects with [e] when the collaborator fails. *)
Definition may_fail (o : option Error) : M unit :=
  match o with Some e => throw e | None => ret tt end.

(** ** Collaborators *)

(** Modelled from the spec: the Record Store.  [models/Thumbnail.js] and
    the document-store driver are not among the sources; the spec gives
    create, update-in-place (save) and owner-scoped delete on one
    document per request, keyed by a unique [_id]: a create whose id is
    taken is rejected. *)
Definition Thumbnail_create (env : Env)
    (userId title prompt_used style aspect_ratio color_scheme : string)
    (text_overlay isGenerating : bool) : M Thumbnail :=
  may_fail (create_error env) ;;;
  s <- get_state ;;
  match store s !! objectId env with
  | Some _ => throw {| message := "E11000 duplicate key error" |}
  | None =>
      let doc :=
        {| _id := objectId env; userId := userId; title := title;
           prompt_used := prompt_used; style := style;
           aspect_ratio := aspect_ratio; color_scheme := color_scheme;
           text_overlay := text_overlay; isGenerating := isGenerating;
           image_url := None; error := None |} in
      set_store (<[objectId env := doc]> (store s)) ;;;
      emit (DbCreate doc) ;;;
      ret doc
  end.

(** Modelled from the spec: [doc.save()] of the Record Store writes the
    document object over the stored one. *)
Definition save (failure : option Error) (doc : Thumbnail) : M unit :=
  may_fail failure ;;;
  s <- get_state ;;
  set_store (<[_id doc := doc]> (store s)) ;;;
  emit (DbSave doc).

(** Modelled from the spec: [Thumbnail.findOneAndDelete({ _id, userId })]
    of the Record Store, an equality filter on id and owner.  A filter
    whose owner is [undefined] matches no document, since every stored
    document has an owner. *)
Definition findOneAndDelete (env : Env) (id : string) (owner : option string)
  : M (option Thumbnail) :=
  may_fail (delete_error env) ;;;
  s <- get_state ;;
  match store s !! id with
  | Some doc =>
      if bool_decide (owner = Some (userId doc)) then
        set_store (delete id (store s)) ;;;
        emit (DbDelete id) ;;;
        ret (Some doc)
      else ret None
  | None => ret None
  end.

(** Modelled from the spec: [Thumbnail.findByIdAndDelete] of the Record
    Store, the unscoped lookup by id: of the object it is handed only
    [_id] takes part in the lookup. *)
Definition findByIdAndDelete (env : Env) (id : string) (owner : option string)
  : M (option Thumbnail) :=
  may_fail (delete_error env) ;;;
  s <- get_state ;;
  match store s !! id with
  | Some doc =>
      set_store (delete id (store s)) ;;;
      emit (DbDelete id) ;;;
      ret (Some doc)
  | None => ret None
  end.

(** [thumbnail.field = v] on the handler's document object. *)
Definition update_thumbnail (f : Thumbnail -> Thumbnail) : M unit :=
  s <- get_state ;;
  match thumbnail s with
  | Some doc => set_thumbnail (Some (f doc))
  | None => throw {| message := "Cannot set properties of undefined" |}
  end.

(** [await thumbnail.save()] *)
Definition save_thumbnail (failure : option Error) : M unit :=
  s <- get_state ;;
  match thumbnail s with
  | Some doc => save failure doc
  | None => throw {| message := "Cannot read properties of undefined" |}
  end.

(** [axios.get(url, { responseType: "arraybuffer", timeout })], the
    [i]-th of the request. *)
Definition axios_get (env : Env) (i : nat) (host : string)
    (width height : option Z) (timeout : option Z) : M Bytes :=
  emit (HttpGet host width height timeout) ;;;
  match axios env i with
  | inl e => throw e
  | inr data => ret data
  end.

(** [new Promise(resolve => setTimeout(resolve, ms))] *)
Definition sleep (ms : Z) : M unit := emit (Sleep ms).

(** [fs.mkdirSync("images", { recursive: true })] *)
Definition mkdirSync (env : Env) (dir : string) : M unit :=
  may_fail (mkdir_error env) ;;;
  emit (FsMkdir dir).

(** [fs.writeFileSync(filepath, finalBuffer)] *)
Definition writeFileSync (env : Env) (path : string) (data : Bytes) : M unit :=
  may_fail (write_error env) ;;;
  s <- get_state ;;
  set_files ({[path]} ∪ files s) ;;;
  emit (FsWrite path).

(** [fs.unlinkSync(filepath)] *)
Definition unlinkSync (env : Env) (path : string) : M unit :=
  may_fail (unlink_error env) ;;;
  s <- get_state ;;
  if bool_decide (path ∈ files s) then
    set_files (files s ∖ {[path]}) ;;;
    emit (FsUnlink path)
  else throw {| message := "ENOENT: no such file or directory" |}.

(** [cloudinary.uploader.upload(filepath, options)] *)
Definition upload (env : Env) (path : string) (folder : option string)
  : M string :=
  emit (Upload path folder) ;;;
  match upload_result env with
  | inl e => throw e
  | inr url => ret url
  end.

(** [path.join("images", `thumbnail-${Date.now()}.png`)] *)
Definition tempFilepath (env : Env) : string :=
  "images/" +:+ "thumbnail-" +:+ pretty (clock env) +:+ ".png".

(** ** src/unnamed/part_000: the revision with provider fallbacks *)

Module Fallbacks.

Definition stylePrompts : gmap string string :=
  list_to_map
    [ ("Bold & Graphic",
       "eye-catching thumbnail, bold typography, vibrant colors, dramatic lighting, high contrast");
      ("Tech/Futuristic",
       "futuristic thumbnail, glowing UI, cyber-tech aesthetic, neon accents");
      ("Minimalist", "minimalist thumbnail, clean layout, modern flat design");
      ("Photorealistic", "photorealistic thumbnail, DSLR lighting, sharp details");
      ("Illustrated", "illustrated thumbnail, cartoon/vector style, vibrant colors") ].

Definition colorSchemeDescriptions : gmap string string :=
  list_to_map
    [ ("vibrant", "vibrant energetic colors");
      ("sunset", "warm sunset tones");
      ("forest", "natural green tones");
      ("neon", "neon cyberpunk colors");
      ("purple", "purple magenta palette");
      ("monochrome", "black and white contrast");
      ("ocean", "cool blue teal tones");
      ("pastel", "soft pastel colors") ].

(** The BUILD PROMPT block of [generateThumbnail]. *)
Definition buildPrompt (cleanStyle cleanColor : string)
    (title user_prompt : option string) : string :=
  let prompt :=
    "Create a " +:+ propertyOr (get stylePrompts cleanStyle) "bold thumbnail" in
  let prompt :=
    if truthy title
    then prompt +:+ " for " +:+ dquote +:+ interpolate title +:+ dquote
    else prompt in
  let prompt :=
    if truthyProperty (get colorSchemeDescriptions cleanColor)
    then prompt +:+ ", "
           +:+ interpolateProperty (get colorSchemeDescriptions cleanColor)
    else prompt in
  let prompt :=
    if truthy user_prompt
    then prompt +:+ ". " +:+ interpolate user_prompt
    else prompt in
  prompt +:+ ". YouTube thumbnail, high CTR, 16:9 composition".

Record Dimensions : Type := { width : Z; height : Z }.

Definition aspectMap : gmap string Dimensions :=
  list_to_map
    [ ("16:9", {| width := 1024; height := 576 |});
      ("1:1", {| width := 1024; height := 1024 |});
      ("9:16", {| width := 576; height := 1024 |});
      ("4:3", {| width := 1024; height := 768 |}) ].

(** [aspectMap[cleanAspect] || { width: 1024, height: 576 }] *)
Definition dimensions (cleanAspect : string) : property Dimensions :=
  match get aspectMap cleanAspect with
  | Undefined => Own {| width := 1024; height := 576 |}
  | found => found
  end.

(** [const { width, height } = dimensions]: a member inherited from
    [Object.prototype] has neither property, both are [undefined]. *)
Definition destructure (d : property Dimensions) : option Z * option Z :=
  match d with
  | Own d => (Some (width d), Some (height d))
  | Inherited _ | Undefined => (None, None)
  end.

(** The [services] array: host and timeout of each closure. *)
Definition services : list (string * Z) :=
  [ ("pollinations.ai", 25000);
    ("picsum.photos", 10000);
    ("source.unsplash.com", 15000);
    ("via.placeholder.com", 5000) ].

(** The [for] loop of [generateImageWithFallbacks] from index [i] on;
    [rest] is [services.slice(i)] and [n] is [services.length]. *)
Fixpoint tryServices (env : Env) (width height : option Z)
    (n i : nat) (rest : list (string * Z)) : M Bytes :=
  match rest with
  | [] => throw {| message := "No image services available" |}
  | (host, timeout) :: rest' =>
      try_catch
        ((if bool_decide (0 < Z.of_nat i)
          then sleep (1000 * 2 ^ (Z.of_nat i - 1))
          else ret tt) ;;;
         axios_get env i host width height (Some timeout))
        (fun error =>
           if bool_decide (Z.of_nat i = Z.of_nat n - 1)
           then throw {| message := "All image services failed" |}
           else tryServices env width height n (S i) rest')
  end.

Definition generateImageWithFallbacks (env : Env) (prompt : string)
    (width height : option Z) : M Bytes :=
  tryServices env width height (length services) 0 services.

Definition unauthenticated : Response.t :=
  {| Response.status := 401;
     Response.message := "User not authenticated";
     Response.thumbnail := None;
     Response.error := None |}.

(** The [try] block of [generateThumbnail] once [userId] is known to
    be truthy. *)
Definition pipeline (env : Env) (req : Request.t) (userId : string)
  : M Response.t :=
  let b := Request.body req in
  let title := Body.title b in
  let user_prompt := Body.prompt b in
  let cleanStyle := clean (Body.style b) "Bold & Graphic" in
  let cleanAspect := clean (Body.aspect_ratio b) "16:9" in
  let cleanColor := clean (Body.color_scheme b) "vibrant" in
  doc <- Thumbnail_create env userId
           (or_default title EmptyString)
           (or_default user_prompt EmptyString)
           cleanStyle cleanAspect cleanColor
           (default true (Body.text_overlay b)) true ;;
  set_thumbnail (Some doc) ;;;
  let prompt := buildPrompt cleanStyle cleanColor title user_prompt in
  let '(width, height) := destructure (dimensions cleanAspect) in
  imageBuffer <- generateImageWithFallbacks env prompt width height ;;
  let filepath := tempFilepath env in
  mkdirSync env "images" ;;;
  writeFileSync env filepath imageBuffer ;;;
  secure_url <- upload env filepath (Some "thumbnails") ;;
  update_thumbnail (assign_image_url secure_url) ;;;
  update_thumbnail (assign_isGenerating false) ;;;
  save_thumbnail (save_error env) ;;;
  unlinkSync env filepath ;;;
  s <- get_state ;;
  ret {| Response.status := 200;
         Response.message := "Thumbnail generated successfully";
         Response.thumbnail := thumbnail s;
         Response.error := None |}.

(** The [catch] block of [generateThumbnail]. *)
Definition recover (env : Env) (error : Error) : M Response.t :=
  s <- get_state ;;
  (match thumbnail s with
   | Some _ =>
       update_thumbnail (assign_isGenerating false) ;;;
       update_thumbnail
         (assign_error (or_default (Some (message error)) "Generation failed")) ;;;
       try_catch (save_thumbnail (recovery_save_error env)) (fun _ => ret tt)
   | None => ret tt
   end) ;;;
  s <- get_state ;;
  ret {| Response.status := 500;
         Response.message := "Image generation failed but fallback used";
         Response.thumbnail := thumbnail s;
         Response.error := Some (message error) |}.

(** The [try] block of [generateThumbnail]. *)
Definition tryBlock (env : Env) (req : Request.t) : M Response.t :=
  match sessionUserId req with
  | Some userId =>
      if nonempty userId then pipeline env req userId
      else ret unauthenticated
  | None => ret unauthenticated
  end.

(** [let thumbnail; try { ... } catch (error) { ... }] *)
Definition generateThumbnail (env : Env) (req : Request.t) : M Response.t :=
  set_thumbnail None ;;;
  try_catch (tryBlock env req) (recover env).

Definition deleteThumbnail (env : Env) (req : Request.t) : M Response.t :=
  try_catch
    (let id := Request.id req in
     let userId := sessionUserId req in
     result <- findOneAndDelete env id userId ;;
     match result with
     | None =>
         ret {| Response.status := 404;
                Response.message := "Thumbnail not found";
                Response.thumbnail := None;
                Response.error := None |}
     | Some _ =>
         ret {| Response.status := 200;
                Response.message := "Thumbnail deleted successfully";
                Response.thumbnail := None;
                Response.error := None |}
     end)
    (fun error =>
       ret {| Response.status := 500;
              Response.message := message error;
              Response.thumbnail := None;
              Response.error := None |}).

End Fallbacks.

(** The TypeError of calling [.split] on a value that has none.  V8
    names the callee as its call printer renders it, string literals
    between double quotes whatever the source has. *)
Definition splitIsNotAFunction : Error :=
  {| message := "(aspectMap[cleanAspect] || " +:+ dquote +:+ "1024x576"
                  +:+ dquote +:+ ").split is not a function" |}.

(** ** src/server/controllers/ThumbnailController.ts *)

Module Controller.

Definition stylePrompts : gmap string string :=
  list_to_map
    [ ("Bold & Graphic",
       "eye-catching thumbnail, bold typography, vibrant colors, expressive facial reaction, dramatic lighting, high contrast, click-worthy composition, professional style");
      ("Tech/Futuristic",
       "futuristic thumbnail, sleek modern design, digital UI elements, glowing accents, holographic effects, cyber-tech aesthetic, sharp lighting, high-tech atmosphere");
      ("Minimalist",
       "minimalist thumbnail, clean layout, simple shapes, limited color palette, plenty of negative space, modern flat design, clear focal point");
      ("Photorealistic",
       "photorealistic thumbnail, ultra-realistic lighting, natural skin tones, candid moment, DSLR-style photography, lifestyle realism, shallow depth of field");
      ("Illustrated",
       "illustrated thumbnail, custom digital illustration, stylized characters, bold outlines, vibrant colors, creative cartoon or vector art style") ].

Definition colorSchemeDescriptions : gmap string string :=
  list_to_map
    [ ("vibrant",
       "vibrant and energetic colors, high saturation, bold contrasts, eye-catching palette");
      ("sunset",
       "warm sunset tones, orange pink and purple hues, soft gradients, cinematic glow");
      ("forest",
       "natural green tones, earthy colors, calm and organic palette, fresh atmosphere");
      ("neon",
       "neon glow effects, electric blues and pinks, cyberpunk lighting, high contrast glow");
      ("purple",
       "purple-dominant color palette, magenta and violet tones, modern and stylish mood");
      ("monochrome",
       "black and white color scheme, high contrast, dramatic lighting, timeless aesthetic");
      ("ocean",
       "cool blue and teal tones, aquatic color palette, fresh and clean atmosphere");
      ("pastel",
       "soft pastel colors, low saturation, gentle tones, calm and friendly aesthetic") ].

(** The BUILD PROMPT block of [generateThumbnail]. *)
Definition buildPrompt (cleanStyle cleanColor cleanAspect : string)
    (title user_prompt : option string) : string :=
  let prompt :=
    "Create a "
      +:+ propertyOr (get stylePrompts cleanStyle) "bold graphic thumbnail"
      +:+ " for: " +:+ dquote +:+ interpolate title +:+ dquote in
  let prompt :=
    if truthyProperty (get colorSchemeDescriptions cleanColor)
    then prompt +:+ " Use a "
           +:+ interpolateProperty (get colorSchemeDescriptions cleanColor)
           +:+ " color scheme."
    else prompt in
  let prompt :=
    if truthy user_prompt
    then prompt +:+ " Additional details: " +:+ interpolate user_prompt +:+ "."
    else prompt in
  prompt +:+ " Thumbnail " +:+ cleanAspect +:+ ", visually stunning, high CTR.".

Definition aspectMap : gmap string string :=
  list_to_map
    [ ("16:9", "1024x576");
      ("1:1", "1024x1024");
      ("9:16", "576x1024") ].

(** [(aspectMap[cleanAspect] || "1024x576").split("x").map(Number)],
    destructured as [[width, height]].  A member inherited from
    [Object.prototype] has no [split]: the call throws. *)
Definition dimensions (cleanAspect : string) : M (option Z * option Z) :=
  match get aspectMap cleanAspect with
  | Inherited _ => throw splitIsNotAFunction
  | found =>
      let numbers := Number <$> split "x" (propertyOr found "1024x576") in
      ret (mjoin (numbers !! 0%nat), mjoin (numbers !! 1%nat))
  end.

(** The retry loop: [remaining] iterations are left, the next one has
    index [attempt].  The result is [imageBuffer]. *)
Fixpoint attempts (env : Env) (width height : option Z)
    (remaining attempt : nat) : M (option Bytes) :=
  match remaining with
  | O => ret None
  | S remaining' =>
      try_catch
        (data <- axios_get env attempt "image.pollinations.ai"
                   width height (Some 45000) ;;
         ret (Some data))
        (fun err =>
           if bool_decide (attempt = 2%nat) then throw err
           else attempts env width height remaining' (S attempt))
  end.

Definition unauthenticated : Response.t :=
  {| Response.status := 401;
     Response.message := "User not authenticated";
     Response.thumbnail := None;
     Response.error := None |}.

(** The [try] block of [generateThumbnail] once [userId] is known to
    be truthy. *)
Definition pipeline (env : Env) (req : Request.t) (userId : string)
  : M Response.t :=
  let b := Request.body req in
  let title := Body.title b in
  let user_prompt := Body.prompt b in
  let cleanStyle := clean (Body.style b) "Bold & Graphic" in
  let cleanAspect := clean (Body.aspect_ratio b) "16:9" in
  let cleanColor := clean (Body.color_scheme b) "vibrant" in
  doc <- Thumbnail_create env userId
           (or_default title EmptyString)
           (or_default user_prompt EmptyString)
           cleanStyle cleanAspect cleanColor
           (default true (Body.text_overlay b)) true ;;
  set_thumbnail (Some doc) ;;;
  let prompt := buildPrompt cleanStyle cleanColor cleanAspect title user_prompt in
  wh <- dimensions cleanAspect ;;
  imageBuffer <- attempts env (fst wh) (snd wh) 3 0 ;;
  match imageBuffer with
  | None => throw {| message := "The first argument must be of type string or an instance of Buffer" |}
  | Some finalBuffer =>
      let filepath := tempFilepath env in
      mkdirSync env "images" ;;;
      writeFileSync env filepath finalBuffer ;;;
      secure_url <- upload env filepath None ;;
      update_thumbnail (assign_image_url secure_url) ;;;
      update_thumbnail (assign_isGenerating false) ;;;
      save_thumbnail (save_error env) ;;;
      unlinkSync env filepath ;;;
      s <- get_state ;;
      ret {| Response.status := 200;
             Response.message := "Thumbnail Generated";
             Response.thumbnail := thumbnail s;
             Response.error := None |}
  end.

(** The [try] block of [generateThumbnail]. *)
Definition tryBlock (env : Env) (req : Request.t) : M Response.t :=
  match sessionUserId req with
  | Some userId =>
      if nonempty userId then pipeline env req userId
      else ret unauthenticated
  | None => ret unauthenticated
  end.

Definition generateThumbnail (env : Env) (req : Request.t) : M Response.t :=
  set_thumbnail None ;;;
  try_catch (tryBlock env req)
    (fun error =>
       ret {| Response.status := 500;
              Response.message := message error;
              Response.thumbnail := None;
              Response.error := None |}).

End Controller.

(** ** The dimension lookup of the revisions with a string table

    [(aspectMap[cleanAspect] || "1024x576").split("x").map(Number)],
    destructured as [[width, height]]: the same statement in
    src/unnamed/part_001 (both revisions) and src/unnamed/part_002. *)
Definition splitDimensions (aspectMap : gmap string string)
    (cleanAspect : string) : M (option Z * option Z) :=
  match get aspectMap cleanAspect with
  | Inherited _ => throw splitIsNotAFunction
  | found =>
      let numbers := Number <$> split "x" (propertyOr found "1024x576") in
      ret (mjoin (numbers !! 0%nat), mjoin (numbers !! 1%nat))
  end.

(** The three entries of that table. *)
Definition stringAspectMap : gmap string string :=
  list_to_map
    [ ("16:9", "1024x576");
      ("1:1", "1024x1024");
      ("9:16", "576x1024") ].

(** The tail of every [try] block: stage the bytes in the transient
    file, upload it, complete the record, delete the file, answer 200
    with [message]. *)
Definition stageUploadComplete (env : Env) (finalBuffer : Bytes)
    (folder : option string) (message : string) : M Response.t :=
  let filepath := tempFilepath env in
  mkdirSync env "images" ;;;
  writeFileSync env filepath finalBuffer ;;;
  url <- upload env filepath folder ;;
  update_thumbnail (assign_image_url url) ;;;
  update_thumbnail (assign_isGenerating false) ;;;
  save_thumbnail (save_error env) ;;;
  unlinkSync env filepath ;;;
  s <- get_state ;;
  ret {| Response.status := 200;
         Response.message := message;
         Response.thumbnail := thumbnail s;
         Response.error := None |}.

(** [res.status(500).json({ message: error.message })] *)
Definition plain500 (error : Error) : M Response.t :=
  ret {| Response.status := 500;
         Response.message := message error;
         Response.thumbnail := None;
         Response.error := None |}.

(** ** src/unnamed/part_001, first revision *)

Module Retry.

Definition stylePrompts : gmap string string :=
  list_to_map
    [ ("Bold & Graphic",
       "eye-catching thumbnail, bold typography, vibrant colors, expressive facial reaction, dramatic lighting, high contrast, click-worthy composition");
      ("Tech/Futuristic",
       "futuristic thumbnail, sleek modern design, glowing UI, cyber-tech aesthetic");
      ("Minimalist",
       "minimalist thumbnail, clean layout, simple shapes, modern flat design");
      ("Photorealistic",
       "photorealistic thumbnail, ultra-real lighting, DSLR photo style");
      ("Illustrated",
       "illustrated thumbnail, stylized characters, cartoon/vector style") ].

Definition colorSchemeDescriptions : gmap string string :=
  list_to_map
    [ ("vibrant", "vibrant energetic colors, bold contrast");
      ("sunset", "warm sunset tones, orange pink purple");
      ("forest", "natural green earthy tones");
      ("neon", "neon glow, cyberpunk colors");
      ("purple", "purple magenta palette");
      ("monochrome", "black and white high contrast");
      ("ocean", "cool blue teal tones");
      ("pastel", "soft pastel colors") ].

(** The BUILD PROMPT block of [generateThumbnail]. *)
Definition buildPrompt (cleanStyle cleanColor cleanAspect : string)
    (title user_prompt : option string) : string :=
  let prompt :=
    "Create a "
      +:+ propertyOr (get stylePrompts cleanStyle) "bold thumbnail"
      +:+ " for: " +:+ dquote +:+ interpolate title +:+ dquote in
  let prompt :=
    if truthyProperty (get colorSchemeDescriptions cleanColor)
    then prompt +:+ " Use "
           +:+ interpolateProperty (get colorSchemeDescriptions cleanColor)
           +:+ "."
    else prompt in
  let prompt :=
    if truthy user_prompt
    then prompt +:+ " " +:+ interpolate user_prompt +:+ "."
    else prompt in
  prompt +:+ " Aspect ratio " +:+ cleanAspect +:+ ", high CTR, YouTube thumbnail.".

(** The RETRY LOGIC loop: [remaining] iterations are left, the next one
    has index [i].  The result is [imageBuffer]. *)
Fixpoint attempts (env : Env) (width height : option Z)
    (remaining i : nat) : M (option Bytes) :=
  match remaining with
  | O => ret None
  | S remaining' =>
      try_catch
        (data <- axios_get env i "image.pollinations.ai"
                   width height (Some 45000) ;;
         ret (Some data))
        (fun err =>
           if bool_decide (i = 2%nat) then throw err
           else attempts env width height remaining' (S i))
  end.

(** The [try] block of [generateThumbnail] once [userId] is known to
    be truthy. *)
Definition pipeline (env : Env) (req : Request.t) (userId : string)
  : M Response.t :=
  let b := Request.body req in
  let title := Body.title b in
  let user_prompt := Body.prompt b in
  let cleanStyle := clean (Body.style b) "Bold & Graphic" in
  let cleanAspect := clean (Body.aspect_ratio b) "16:9" in
  let cleanColor := clean (Body.color_scheme b) "vibrant" in
  doc <- Thumbnail_create env userId
           (or_default title EmptyString)
           (or_default user_prompt EmptyString)
           cleanStyle cleanAspect cleanColor
           (default true (Body.text_overlay b)) true ;;
  set_thumbnail (Some doc) ;;;
  let prompt := buildPrompt cleanStyle cleanColor cleanAspect title user_prompt in
  wh <- splitDimensions stringAspectMap cleanAspect ;;
  imageBuffer <- attempts env (fst wh) (snd wh) 3 0 ;;
  match imageBuffer with
  | None => throw {| message := "The first argument must be of type string or an instance of Buffer" |}
  | Some finalBuffer =>
      stageUploadComplete env finalBuffer None "Thumbnail Generated"
  end.

Definition generateThumbnail (env : Env) (req : Request.t) : M Response.t :=
  set_thumbnail None ;;;
  try_catch
    (match sessionUserId req with
     | Some userId =>
         if nonempty userId then pipeline env req userId
         else ret Controller.unauthenticated
     | None => ret Controller.unauthenticated
     end)
    plain500.

Definition deleteThumbnail (env : Env) (req : Request.t) : M Response.t :=
  try_catch
    (let id := Request.id req in
     let userId := sessionUserId req in
     findOneAndDelete env id userId ;;;
     ret {| Response.status := 200;
            Response.message := "Thumbnail deleted successfully";
            Response.thumbnail := None;
            Response.error := None |})
    (fun error =>
       ret {| Response.status := 500;
              Response.message := message error;
              Response.thumbnail := None;
              Response.error := None |}).

End Retry.

(** ** src/unnamed/part_001, second revision: retries, then a stock image *)

Module Picsum.

Definition stylePrompts : gmap string string :=
  list_to_map
    [ ("Bold & Graphic",
       "eye-catching thumbnail, bold typography, vibrant colors, dramatic lighting");
      ("Tech/Futuristic",
       "futuristic thumbnail, glowing UI, cyber-tech aesthetic");
      ("Minimalist", "minimalist thumbnail, clean layout, modern flat design");
      ("Photorealistic", "photorealistic thumbnail, DSLR lighting");
      ("Illustrated", "illustrated thumbnail, cartoon/vector style") ].

(** The BUILD PROMPT block of [generateThumbnail]; the color table is
    the one of the revision with fallbacks. *)
Definition buildPrompt (cleanStyle cleanColor : string)
    (title user_prompt : option string) : string :=
  let prompt :=
    "Create a "
      +:+ propertyOr (get stylePrompts cleanStyle) "bold thumbnail"
      +:+ " for " +:+ dquote +:+ interpolate title +:+ dquote in
  let prompt :=
    if truthyProperty (get Fallbacks.colorSchemeDescriptions cleanColor)
    then prompt +:+ " with "
           +:+ interpolateProperty (get Fallbacks.colorSchemeDescriptions cleanColor)
    else prompt in
  let prompt :=
    if truthy user_prompt
    then prompt +:+ ". " +:+ interpolate user_prompt
    else prompt in
  prompt +:+ ". YouTube thumbnail, high CTR".

(** The RETRY + FALLBACK loop: [remaining] iterations are left, the
    next one has index [i], [imageBuffer] is the variable of that name.
    An attempt that answers assigns it and breaks; the third failure
    requests the stock image, without timeout, and assigns that. *)
Fixpoint attempts (env : Env) (width height : option Z)
    (remaining i : nat) (imageBuffer : option Bytes) : M (option Bytes) :=
  match remaining with
  | O => ret imageBuffer
  | S remaining' =>
      outcome <-
        try_catch
          (data <- axios_get env i "pollinations.ai"
                     width height (Some 60000) ;;
           ret (inl data))
          (fun err =>
             if bool_decide (i = 2%nat) then
               fallback <- axios_get env 3 "picsum.photos" width height None ;;
               ret (inr (Some fallback))
             else ret (inr imageBuffer)) ;;
      match outcome with
      | inl data => ret (Some data)
      | inr buffer => attempts env width height remaining' (S i) buffer
      end
  end.

(** The [try] block of [generateThumbnail] once [userId] is known to
    be truthy. *)
Definition pipeline (env : Env) (req : Request.t) (userId : string)
  : M Response.t :=
  let b := Request.body req in
  let title := Body.title b in
  let user_prompt := Body.prompt b in
  let cleanStyle := clean (Body.style b) "Bold & Graphic" in
  let cleanAspect := clean (Body.aspect_ratio b) "16:9" in
  let cleanColor := clean (Body.color_scheme b) "vibrant" in
  doc <- Thumbnail_create env userId
           (or_default title EmptyString)
           (or_default user_prompt EmptyString)
           cleanStyle cleanAspect cleanColor
           (default true (Body.text_overlay b)) true ;;
  set_thumbnail (Some doc) ;;;
  let prompt := buildPrompt cleanStyle cleanColor title user_prompt in
  wh <- splitDimensions stringAspectMap cleanAspect ;;
  imageBuffer <- attempts env (fst wh) (snd wh) 3 0 None ;;
  match imageBuffer with
  | None => throw {| message := "The first argument must be of type string or an instance of Buffer" |}
  | Some finalBuffer =>
      stageUploadComplete env finalBuffer None "Thumbnail Generated"
  end.

Definition generateThumbnail (env : Env) (req : Request.t) : M Response.t :=
  set_thumbnail None ;;;
  try_catch
    (match sessionUserId req with
     | Some userId =>
         if nonempty userId then pipeline env req userId
         else ret Controller.unauthenticated
     | None => ret Controller.unauthenticated
     end)
    plain500.

End Picsum.

(** ** src/unnamed/part_002 *)

Module Legacy.

(** The object literal [thumbnailData]. *)
Module ThumbnailData.
Record t : Type := {
  userId : string;
  title : string;
  prompt_used : string;
  user_prompt : string;
  style : string;
  aspect_ratio : string;
  color_scheme : string;
  text_overlay : bool;
  isGenerating : bool
}.
End ThumbnailData.

(** [text_overlay || true] *)
Definition overlayOrTrue (text_overlay : option bool) : bool :=
  match text_overlay with
  | Some true => true
  | Some false | None => true
  end.

Definition thumbnailData (req : Request.t) (userId : string)
  : ThumbnailData.t :=
  let b := Request.body req in
  {| ThumbnailData.userId := userId;
     ThumbnailData.title := or_default (Body.title b) EmptyString;
     ThumbnailData.prompt_used := or_default (Body.prompt b) EmptyString;
     ThumbnailData.user_prompt := or_default (Body.prompt b) EmptyString;
     ThumbnailData.style := clean (Body.style b) "Bold & Graphic";
     ThumbnailData.aspect_ratio := clean (Body.aspect_ratio b) "16:9";
     ThumbnailData.color_scheme := clean (Body.color_scheme b) "vibrant";
     ThumbnailData.text_overlay := overlayOrTrue (Body.text_overlay b);
     ThumbnailData.isGenerating := true |}.

(** [Thumbnail.create(thumbnailData)]: the record of the data model has
    no [user_prompt], that field is not kept. *)
Definition createFrom (env : Env) (data : ThumbnailData.t) : M Thumbnail :=
  Thumbnail_create env
    (ThumbnailData.userId data) (ThumbnailData.title data)
    (ThumbnailData.prompt_used data) (ThumbnailData.style data)
    (ThumbnailData.aspect_ratio data) (ThumbnailData.color_scheme data)
    (ThumbnailData.text_overlay data) (ThumbnailData.isGenerating data).

(** The prompt of [generateThumbnail]; the tables are those of
    ThumbnailController.ts, and [safeColorScheme &&] is the truthiness
    of a string that is never empty. *)
Definition buildPrompt (cleanStyle cleanColor cleanAspect : string)
    (title user_prompt : option string) : string :=
  let prompt :=
    "Create a "
      +:+ propertyOr (get Controller.stylePrompts cleanStyle) "bold graphic thumbnail"
      +:+ " for: " +:+ dquote +:+ interpolate title +:+ dquote in
  let prompt :=
    if nonempty cleanColor
       && truthyProperty (get Controller.colorSchemeDescriptions cleanColor)
    then prompt +:+ " Use a "
           +:+ interpolateProperty (get Controller.colorSchemeDescriptions cleanColor)
           +:+ " color scheme."
    else prompt in
  let prompt :=
    if truthy user_prompt
    then prompt +:+ " Additional details: " +:+ interpolate user_prompt +:+ "."
    else prompt in
  prompt +:+ " Thumbnail " +:+ cleanAspect
    +:+ ", visually stunning, designed to maximize click-through rate. Bold, professional, impossible to ignore.".

(** The [try] block of [generateThumbnail] once [userId] is known to
    be truthy: one request, no retry; the record gets
    [uploadResult.url]. *)
Definition pipeline (env : Env) (req : Request.t) (userId : string)
  : M Response.t :=
  let data := thumbnailData req userId in
  doc <- createFrom env data ;;
  set_thumbnail (Some doc) ;;;
  let prompt :=
    buildPrompt (ThumbnailData.style data) (ThumbnailData.color_scheme data)
      (ThumbnailData.aspect_ratio data)
      (Body.title (Request.body req)) (Body.prompt (Request.body req)) in
  wh <- splitDimensions stringAspectMap (ThumbnailData.aspect_ratio data) ;;
  imageBuffer <- axios_get env 0 "image.pollinations.ai"
                   (fst wh) (snd wh) (Some 45000) ;;
  stageUploadComplete env imageBuffer None "Thumbnail Generated".

Definition generateThumbnail (env : Env) (req : Request.t) : M Response.t :=
  set_thumbnail None ;;;
  try_catch
    (match sessionUserId req with
     | Some userId =>
         if nonempty userId then pipeline env req userId
         else ret Controller.unauthenticated
     | None => ret Controller.unauthenticated
     end)
    plain500.

(** [const { userId } = req.session] throws when there is no session
    object. *)
Definition sessionUserId (req : Request.t) : M (option string) :=
  match Request.session req with
  | Some s => ret (Session.userId s)
  | None =>
      throw {| message := "Cannot destructure property 'userId' of 'req.session' as it is undefined." |}
  end.

Definition deleteThumbnail (env : Env) (req : Request.t) : M Response.t :=
  try_catch
    (let id := Request.id req in
     userId <- sessionUserId req ;;
     findByIdAndDelete env id userId ;;;
     ret {| Response.status := 200;
            Response.message := "Thumbnail deleted successfully";
            Response.thumbnail := None;
            Response.error := None |})
    (fun error =>
       ret {| Response.status := 500;
              Response.message := message error;
              Response.thumbnail := None;
              Response.error := None |}).

End Legacy.

(** * Specification vocabulary *)

(** The state after the handler emitted [evs] and nothing else changed. *)
Definition add_events (s : State) (evs : list Event) : State :=
  {| store := store s; files := files s;
     trace := trace s ++ evs; thumbnail := thumbnail s |}.

(** What attempt [i] on the provider [(host, timeout)] adds to the
    trace: the backoff sleep when [i > 0], then the request. *)
Definition attemptEvents (width height : option Z) (i : nat)
  (service : string * Z) : list Event :=
  (if bool_decide (0 < Z.of_nat i)
   then [Sleep (1000 * 2 ^ (Z.of_nat i - 1))] else [])
  ++ [HttpGet service.1 width height (Some service.2)].

(** The trace of attempts [i], [i+1], ... on the first [count]
    providers of [rest]. *)
Fixpoint attemptsFrom (width height : option Z) (i : nat)
  (rest : list (string * Z)) (count : nat) {struct count} : list Event :=
  match count, rest with
  | S count', service :: rest' =>
      attemptEvents width height i service
      ++ attemptsFrom width height (S i) rest' count'
  | _, _ => []
  end.

(** Provider [i] does not answer. *)
Definition failed (env : Env) (i : nat) : Prop := ∃ e, axios env i = inl e.

(** The hosts requested by a trace, in order. *)
Definition providerCalls (evs : list Event) : list string :=
  omap (λ e, match e with HttpGet host _ _ _ => Some host | _ => None end) evs.

(** The total time slept in a trace, in milliseconds. *)
Definition backoff (evs : list Event) : Z :=
  foldr Z.add 0
    (omap (λ e, match e with Sleep ms => Some ms | _ => None end) evs).

(** [sum(1000 * 2^(i-1) for i in 1..k)] *)
Definition backoffSum (k : nat) : Z :=
  foldr Z.add 0 ((λ i : nat, 1000 * 2 ^ (Z.of_nat i - 1)) <$> seq 1 k).

(** The trace of a run whose first success is provider [k]: attempts
    0, 1, ..., [k], each once, each but the first after its sleep. *)
Definition expectedAttempts (width height : option Z) (k : nat) : list Event :=
  mjoin (imap (attemptEvents width height) (take (S k) Fallbacks.services)).

Definition acquisition_event (e : Event) : bool :=
  match e with
  | Sleep _ | HttpGet _ _ _ _ => true
  | _ => false
  end.

Definition acquisition_events (evs : list Event) : Prop :=
  Forall (λ e, acquisition_event e = true) evs.

(** The response of a handler run. *)
Definition response_of (r : Result Response.t) : Response.t :=
  match r with
  | Ok resp => resp
  | Throw e =>
      {| Response.status := 0; Response.message := message e;
         Response.thumbnail := None; Response.error := None |}
  end.

(** The handler answers 401 and leaves the store, the disk and the trace
    as they were: nothing was created, nothing was requested. *)
Definition refused_without_effect
    (handler : Env → Request.t → M Response.t)
    (env : Env) (req : Request.t) (s : State) : Prop :=
  ∃ resp s',
    handler env req s = (Ok resp, s')
    ∧ Response.status resp = 401
    ∧ store s' = store s
    ∧ files s' = files s
    ∧ trace s' = trace s.

(** A record with id [id] owned by [user] is in the store. *)
Definition owned_by (s : State) (id : string) (user : option string) : Prop :=
  ∃ doc, store s !! id = Some doc ∧ user = Some (userId doc).

(** The state in which the [try] block starts: [let thumbnail;]. *)
Definition no_thumbnail (s : State) : State :=
  {| store := store s; files := files s; trace := trace s; thumbnail := None |}.

(** The events of one request: what the run added to the trace. *)
Definition events_of (s s' : State) (evs : list Event) : Prop :=
  trace s' = trace s ++ evs.

(** The property as first stated: whenever the request wrote the
    transient file, the file is gone when the request ends. *)
Definition transient_file_always_deleted
    (handler : Env → Request.t → M Response.t) : Prop :=
  ∀ env req s evs,
    events_of s (handler env req s).2 evs →
    FsWrite (tempFilepath env) ∈ evs →
    tempFilepath env ∉ files (handler env req s).2.

(** What holds of a handler instead: a 200 response leaves no transient
    file behind, and a request that wrote the file and whose upload
    threw leaves it on disk. *)
Definition transient_file_deleted_on_success_only
    (handler : Env → Request.t → M Response.t) : Prop :=
  ∀ env req s resp s' evs,
    handler env req s = (Ok resp, s') →
    events_of s s' evs →
    (Response.status resp = 200 → tempFilepath env ∉ files s')
    ∧ (FsWrite (tempFilepath env) ∈ evs →
       (∃ e, upload_result env = inl e) →
       tempFilepath env ∈ files s').

(** [isGenerating = false] with exactly one of [image_url], [error] set. *)
Definition terminal (t : Thumbnail) : bool :=
  negb (isGenerating t)
  && match image_url t, error t with
     | Some _, None | None, Some _ => true
     | Some _, Some _ | None, None => false
     end.

(** Every outbound call of the request comes after the creation of a
    record. *)
Definition created_before_outbound (evs : list Event) : Prop :=
  ∀ i e, evs !! i = Some e → outbound e = true →
    ∃ j doc, (j < i)%nat ∧ evs !! j = Some (DbCreate doc).

(** The property as first stated: a request that creates a record
    creates it before any outbound call, and the stored record ends
    terminal. *)
Definition record_always_terminal
    (handler : Env → Request.t → M Response.t) : Prop :=
  ∀ env req s evs doc,
    events_of s (handler env req s).2 evs →
    DbCreate doc ∈ evs →
    created_before_outbound evs
    ∧ ∃ final, store (handler env req s).2 !! _id doc = Some final
               ∧ terminal final = true.

(** The property as first stated, of a delete handler: when the store
    answers the query, 404 and an unchanged store if the session user
    owns no record of that id, 200 and the record gone if they do. *)
Definition delete_answers_by_owner
    (handler : Env → Request.t → M Response.t) : Prop :=
  ∀ env req s,
    delete_error env = None →
    ∃ resp s',
      handler env req s = (Ok resp, s')
      ∧ (¬ owned_by s (Request.id req) (sessionUserId req) →
         Response.status resp = 404 ∧ store s' = store s)
      ∧ (owned_by s (Request.id req) (sessionUserId req) →
         Response.status resp = 200
         ∧ store s' !! Request.id req = None).

(** [t] occurs in [s] as it is. *)
Definition embeds (s t : string) : Prop := ∃ pre post, s = pre +:+ t +:+ post.

(** ** Vocabulary of the further properties *)

(** The run of a generate handler from [s]: it answers [resp], ends in
    [s'], and added [evs] to the trace. *)
Definition answers (handler : Env → Request.t → M Response.t)
    (env : Env) (req : Request.t) (s : State)
    (resp : Response.t) (s' : State) (evs : list Event) : Prop :=
  handler env req s = (Ok resp, s') ∧ events_of s s' evs.

(** The five revisions of [generateThumbnail]. *)
Definition generate_handlers : list (Env → Request.t → M Response.t) :=
  [ Fallbacks.generateThumbnail; Controller.generateThumbnail;
    Retry.generateThumbnail; Picsum.generateThumbnail;
    Legacy.generateThumbnail ].

(** What one generate request did, whatever the collaborators
    answered. *)
Definition generate_summary (env : Env) (req : Request.t) (s s' : State)
    (resp : Response.t) (evs : list Event) : Prop :=
  (Response.status resp = 200 ∨ Response.status resp = 401
   ∨ Response.status resp = 500)
  ∧ (Response.status resp = 401 ↔ truthy (sessionUserId req) = false)
  ∧ (∀ id, id ≠ objectId env → store s' !! id = store s !! id)
  ∧ (∀ p, p ≠ tempFilepath env → p ∈ files s' ↔ p ∈ files s)
  ∧ ((∀ doc, DbCreate doc ∉ evs) →
     evs = [] ∧ store s' = store s ∧ files s' = files s
     ∧ Response.status resp ≠ 200)
  ∧ (is_Some (create_error env) ∨ is_Some (store s !! objectId env) →
     ∀ doc, DbCreate doc ∉ evs)
  ∧ (∀ final url,
       store s !! objectId env = None →
       store s' !! objectId env = Some final →
       image_url final = Some url →
       upload_result env = inr url
       ∧ ∃ folder, Upload (tempFilepath env) folder ∈ evs)
  ∧ (∀ doc, DbCreate doc ∈ evs →
       _id doc = objectId env
       ∧ sessionUserId req = Some (userId doc)
       ∧ title doc = or_default (Body.title (Request.body req)) EmptyString
       ∧ prompt_used doc = or_default (Body.prompt (Request.body req)) EmptyString
       ∧ style doc = clean (Body.style (Request.body req)) "Bold & Graphic"
       ∧ aspect_ratio doc = clean (Body.aspect_ratio (Request.body req)) "16:9"
       ∧ color_scheme doc = clean (Body.color_scheme (Request.body req)) "vibrant"
       ∧ isGenerating doc = true
       ∧ image_url doc = None
       ∧ error doc = None)
  ∧ (Response.status resp = 200 →
     ∃ created url final,
       DbCreate created ∈ evs
       ∧ upload_result env = inr url
       ∧ final = assign_isGenerating false (assign_image_url url created)
       ∧ store s' !! objectId env = Some final
       ∧ Response.thumbnail resp = Some final).

(** The record created by the run of [handler]. *)
Definition creates (handler : Env → Request.t → M Response.t)
    (env : Env) (req : Request.t) (s : State) (doc : Thumbnail) : Prop :=
  ∃ evs, events_of s (handler env req s).2 evs ∧ DbCreate doc ∈ evs.

(** [n] requests to [host], nothing in between. *)
Definition requests (host : string) (width height : option Z)
    (timeout : option Z) (n : nat) : list Event :=
  replicate n (HttpGet host width height timeout).

(** Everything after the image works: the disk, the upload service,
    which answers [url], and the store. *)
Definition staging_works (env : Env) (url : string) : Prop :=
  mkdir_error env = None
  ∧ write_error env = None
  ∧ upload_result env = inr url
  ∧ save_error env = None
  ∧ unlink_error env = None.

(** The request is authenticated as [user] and its record can be
    created. *)
Definition can_create (env : Env) (req : Request.t) (s : State)
    (user : string) : Prop :=
  sessionUserId req = Some user
  ∧ nonempty user = true
  ∧ create_error env = None
  ∧ store s !! objectId env = None.

(** The answer is 200 and carries the completed record, which is the
    stored one; the transient file is gone. *)
Definition completed (env : Env) (user url : string)
    (resp : Response.t) (s' : State) : Prop :=
  Response.status resp = 200
  ∧ (∃ final,
       Response.thumbnail resp = Some final
       ∧ store s' !! objectId env = Some final
       ∧ userId final = user
       ∧ image_url final = Some url
       ∧ isGenerating final = false
       ∧ error final = None)
  ∧ tempFilepath env ∉ files s'.

Definition delete_ok : Response.t :=
  {| Response.status := 200;
     Response.message := "Thumbnail deleted successfully";
     Response.thumbnail := None; Response.error := None |}.

Definition delete_not_found : Response.t :=
  {| Response.status := 404; Response.message := "Thumbnail not found";
     Response.thumbnail := None; Response.error := None |}.

Definition delete_failed (e : Error) : Response.t :=
  {| Response.status := 500; Response.message := message e;
     Response.thumbnail := None; Response.error := None |}.

(** The state after the store removed the document [id]. *)
Definition deleted (id : string) (s : State) : State :=
  {| store := delete id (store s); files := files s;
     trace := trace s ++ [DbDelete id]; thumbnail := thumbnail s |}.

(** Whether the filter [{ _id, userId }] of the request matches a
    stored document. *)
Definition matches (req : Request.t) (s : State) : bool :=
  match store s !! Request.id req with
  | Some doc => bool_decide (sessionUserId req = Some (userId doc))
  | None => false
  end.

(** The pairs of a generate handler and the delete handler of the same
    file. *)
Definition handler_pairs
  : list ((Env → Request.t → M Response.t) * (Env → Request.t → M Response.t)) :=
  [ (Fallbacks.generateThumbnail, Fallbacks.deleteThumbnail);
    (Retry.generateThumbnail, Retry.deleteThumbnail);
    (Picsum.generateThumbnail, Retry.deleteThumbnail);
    (Legacy.generateThumbnail, Legacy.deleteThumbnail) ].

(** The delete request of the same session for the record that [env]
    names. *)
Definition delete_request (env : Env) (req : Request.t) : Request.t :=
  {| Request.session := Request.session req; Request.body := Request.body req;
     Request.id := objectId env |}.

(** ** Inputs used as instances *)

Definition failing : Error + Bytes := inl {| message := "timeout of 25000ms exceeded" |}.

(** Providers 0 and 1 fail, provider 2 answers. *)
Definition env_third_provider : Env :=
  {| objectId := "665f1c2e9b1d"; create_error := None;
     axios := λ i, if bool_decide (i = 2%nat) then inr [Byte.x89; Byte.x50]
                   else failing;
     clock := 1700000000000; mkdir_error := None; write_error := None;
     upload_result := inr "https://res.cloudinary.com/demo/thumbnails/a.png";
     save_error := None; unlink_error := None;
     recovery_save_error := None; delete_error := None |}.

Definition empty_state : State :=
  {| store := ∅; files := ∅; trace := []; thumbnail := None |}.

Definition everything_fine_body : Body.t :=
  {| Body.title := Some "Test"; Body.prompt := Some "a cat";
     Body.style := JString "Minimalist"; Body.aspect_ratio := JString "1:1";
     Body.color_scheme := JString "pastel"; Body.text_overlay := None |}.

Definition authenticated_request : Request.t :=
  {| Request.session := Some {| Session.userId := Some "user-1" |};
     Request.body := everything_fine_body;
     Request.id := "665f1c2e9b1d" |}.

Definition anonymous_request : Request.t :=
  {| Request.session := None;
     Request.body := everything_fine_body;
     Request.id := "665f1c2e9b1d" |}.

Definition stored_record : Thumbnail :=
  {| _id := "665f1c2e9b1d"; userId := "user-1"; title := "Test";
     prompt_used := "a cat"; style := "Minimalist"; aspect_ratio := "1:1";
     color_scheme := "pastel"; text_overlay := true; isGenerating := false;
     image_url := Some "https://res.cloudinary.com/demo/thumbnails/a.png";
     error := None |}.

Definition one_record_state : State :=
  {| store := {[ "665f1c2e9b1d" := stored_record ]}; files := ∅;
     trace := []; thumbnail := None |}.

Definition other_user_request : Request.t :=
  {| Request.session := Some {| Session.userId := Some "user-2" |};
     Request.body := everything_fine_body;
     Request.id := "665f1c2e9b1d" |}.

Definition session_without_user_request : Request.t :=
  {| Request.session := Some {| Session.userId := None |};
     Request.body := everything_fine_body;
     Request.id := "665f1c2e9b1d" |}.

(** Every provider fails; the completion save would work, the save of
    the catch block does not. *)
Definition env_recovery_save_fails : Env :=
  {| objectId := "665f1c2e9b1d"; create_error := None;
     axios := λ _, failing;
     clock := 1700000000000; mkdir_error := None; write_error := None;
     upload_result := inr "https://res.cloudinary.com/demo/thumbnails/a.png";
     save_error := None; unlink_error := None;
     recovery_save_error := Some {| message := "connection closed" |};
     delete_error := None |}.

(** The record of [authenticated_request] as created. *)
Definition pending_record : Thumbnail :=
  {| _id := "665f1c2e9b1d"; userId := "user-1"; title := "Test";
     prompt_used := "a cat"; style := "Minimalist"; aspect_ratio := "1:1";
     color_scheme := "pastel"; text_overlay := true; isGenerating := true;
     image_url := None; error := None |}.

(** The first provider answers, the upload service rejects the file. *)
Definition env_upload_fails : Env :=
  {| objectId := "665f1c2e9b1d"; create_error := None;
     axios := λ _, inr [Byte.x89; Byte.x50];
     clock := 1700000000000; mkdir_error := None; write_error := None;
     upload_result := inl {| message := "Invalid cloud_name" |};
     save_error := None; unlink_error := None;
     recovery_save_error := None; delete_error := None |}.

(** The transient file cannot be removed after a successful save. *)
Definition env_unlink_fails : Env :=
  {| objectId := "665f1c2e9b1d"; create_error := None;
     axios := λ _, inr [Byte.x89; Byte.x50];
     clock := 1700000000000; mkdir_error := None; write_error := None;
     upload_result := inr "https://res.cloudinary.com/demo/thumbnails/a.png";
     save_error := None;
     unlink_error := Some {| message := "EPERM: operation not permitted" |};
     recovery_save_error := None; delete_error := None |}.

(** The store rejects the new document. *)
Definition env_create_rejected : Env :=
  {| objectId := "665f1c2e9b1d";
     create_error := Some {| message := "Thumbnail validation failed" |};
     axios := λ _, inr [Byte.x89; Byte.x50];
     clock := 1700000000000; mkdir_error := None; write_error := None;
     upload_result := inr "https://res.cloudinary.com/demo/thumbnails/a.png";
     save_error := None; unlink_error := None;
     recovery_save_error := None; delete_error := None |}.

Definition no_overlay_request : Request.t :=
  {| Request.session := Some {| Session.userId := Some "user-1" |};
     Request.body :=
       {| Body.title := Some "Test"; Body.prompt := Some "a cat";
          Body.style := JString "Minimalist";
          Body.aspect_ratio := JString "1:1";
          Body.color_scheme := JString "pastel";
          Body.text_overlay := Some false |};
     Request.id := "665f1c2e9b1d" |}.

Definition no_overlay_record : Thumbnail :=
  {| _id := "665f1c2e9b1d"; userId := "user-1"; title := "Test";
     prompt_used := "a cat"; style := "Minimalist"; aspect_ratio := "1:1";
     color_scheme := "pastel"; text_overlay := false; isGenerating := true;
     image_url := None; error := None |}.

Definition overlay_forced_record : Thumbnail :=
  {| _id := "665f1c2e9b1d"; userId := "user-1"; title := "Test";
     prompt_used := "a cat"; style := "Minimalist"; aspect_ratio := "1:1";
     color_scheme := "pastel"; text_overlay := true; isGenerating := true;
     image_url := None; error := None |}.

Definition env_second_attempt : Env :=
  {| objectId := "665f1c2e9b1d"; create_error := None;
     axios := λ i, if bool_decide (i = 1%nat) then inr [Byte.x89; Byte.x50]
                   else failing;
     clock := 1700000000000; mkdir_error := None; write_error := None;
     upload_result := inr "https://res.cloudinary.com/demo/image/a.png";
     save_error := None; unlink_error := None;
     recovery_save_error := None; delete_error := None |}.

(** The generator never answers, the stock image does. *)
Definition env_only_stock_image : Env :=
  {| objectId := "665f1c2e9b1d"; create_error := None;
     axios := λ i, if bool_decide (i = 3%nat) then inr [Byte.xff; Byte.xd8]
                   else failing;
     clock := 1700000000000; mkdir_error := None; write_error := None;
     upload_result := inr "https://res.cloudinary.com/demo/image/stock.jpg";
     save_error := None; unlink_error := None;
     recovery_save_error := None; delete_error := None |}.

(** Every provider fails with an error whose message is empty. *)
Definition env_silent_failure : Env :=
  {| objectId := "665f1c2e9b1d"; create_error := None;
     axios := λ _, inr [Byte.x89; Byte.x50];
     clock := 1700000000000; mkdir_error := None; write_error := None;
     upload_result := inl {| message := EmptyString |};
     save_error := None; unlink_error := None;
     recovery_save_error := None; delete_error := None |}.

(** The store rejects the delete query. *)
Definition env_delete_rejected : Env :=
  {| objectId := "665f1c2e9b1d"; create_error := None;
     axios := λ _, failing;
     clock := 1700000000000; mkdir_error := None; write_error := None;
     upload_result := inr "https://res.cloudinary.com/demo/thumbnails/a.png";
     save_error := None; unlink_error := None;
     recovery_save_error := None;
     delete_error := Some {| message := "connection closed" |} |}.

(** The body holds a number, white space and nothing where strings are
    expected. *)
Definition untyped_request : Request.t :=
  {| Request.session := Some {| Session.userId := Some "user-1" |};
     Request.body :=
       {| Body.title := Some "Test"; Body.prompt := None;
          Body.style := JNumber 7; Body.aspect_ratio := JString "  ";
          Body.color_scheme := JUndefined; Body.text_overlay := None |};
     Request.id := EmptyString |}.

Definition defaults_record : Thumbnail :=
  {| _id := "665f1c2e9b1d"; userId := "user-1"; title := "Test";
     prompt_used := EmptyString; style := "Bold & Graphic";
     aspect_ratio := "16:9"; color_scheme := "vibrant";
     text_overlay := true; isGenerating := true;
     image_url := None; error := None |}.

Definition inherited_aspect_request : Request.t :=
  {| Request.session := Some {| Session.userId := Some "user-1" |};
     Request.body :=
       {| Body.title := Some "Test"; Body.prompt := None;
          Body.style := JString "Minimalist";
          Body.aspect_ratio := JString " valueOf ";
          Body.color_scheme := JString "pastel";
          Body.text_overlay := None |};
     Request.id := EmptyString |}.

(** The same collaborators one millisecond later. *)
Definition env_later_clock : Env :=
  {| objectId := "665f1c2e9b1e"; create_error := None;
     axios := λ _, failing;
     clock := 1700000000001; mkdir_error := None; write_error := None;
     upload_result := inr "https://res.cloudinary.com/demo/thumbnails/a.png";
     save_error := None; unlink_error := None;
     recovery_save_error := None; delete_error := None |}.

(** U+00A0, U+3000 and U+FEFF in UTF-8. *)
Definition noBreakSpace : string :=
  String (ascii_of_nat 194) (String (ascii_of_nat 160) EmptyString).

Definition ideographicSpace : string :=
  String (ascii_of_nat 227)
    (String (ascii_of_nat 128) (String (ascii_of_nat 128) EmptyString)).

Definition byteOrderMark : string :=
  String (ascii_of_nat 239)
    (String (ascii_of_nat 187) (String (ascii_of_nat 191) EmptyString)).

(** U+200B, which is not white space. *)
Definition zeroWidthSpace : string :=
  String (ascii_of_nat 226)
    (String (ascii_of_nat 128) (String (ascii_of_nat 139) EmptyString)).

(** The aspect ratio is [valueOf] between two no-break spaces. *)
Definition padded_inherited_aspect_request : Request.t :=
  {| Request.session := Some {| Session.userId := Some "user-1" |};
     Request.body :=
       {| Body.title := Some "Test"; Body.prompt := None;
          Body.style := JString "Minimalist";
          Body.aspect_ratio :=
            JString (noBreakSpace +:+ "valueOf" +:+ noBreakSpace);
          Body.color_scheme := JString "pastel";
          Body.text_overlay := None |};
     Request.id := EmptyString |}.

(** The transient file cannot be removed after a successful save, and
    the save of the catch block does not work either. *)
Definition env_unlink_and_recovery_fail : Env :=
  {| objectId := "665f1c2e9b1d"; create_error := None;
     axios := λ _, inr [Byte.x89; Byte.x50];
     clock := 1700000000000; mkdir_error := None; write_error := None;
     upload_result := inr "https://res.cloudinary.com/demo/thumbnails/a.png";
     save_error := None;
     unlink_error := Some {| message := "EPERM: operation not permitted" |};
     recovery_save_error := Some {| message := "connection closed" |};
     delete_error := None |}.

(** * Properties *)

Lemma add_events_nil s : add_events s [] = s.
Proof. destruct s. unfold add_events. simpl. by rewrite app_nil_r. Qed.

Lemma add_events_app s evs1 evs2 :
  add_events (add_events s evs1) evs2 = add_events s (evs1 ++ evs2).
Proof. unfold add_events. simpl. by rewrite app_assoc. Qed.

(** ** Image acquisition *)

Section Acquisition.

Variable env : Env.
Variables width height : option Z.

Lemma attempt_run i host timeout s :
  ((if bool_decide (0 < Z.of_nat i)
    then sleep (1000 * 2 ^ (Z.of_nat i - 1))
    else ret tt) ;;;
   axios_get env i host width height (Some timeout)) s
  = (match axios env i with inl e => Throw e | inr data => Ok data end,
     add_events s (attemptEvents width height i (host, timeout))).
Proof.
  unfold axios_get, sleep, emit, attemptEvents, add_events.
  unfold bind, ret, throw.
  case_bool_decide; simpl; destruct (axios env i); simpl;
    rewrite <- ?app_assoc; done.
Qed.

Lemma tryServices_step n i host timeout rest s :
  Fallbacks.tryServices env width height n i ((host, timeout) :: rest) s
  = match axios env i with
    | inr data => (Ok data, add_events s (attemptEvents width height i (host, timeout)))
    | inl _ =>
        if bool_decide (Z.of_nat i = Z.of_nat n - 1)
        then (Throw {| message := "All image services failed" |},
              add_events s (attemptEvents width height i (host, timeout)))
        else Fallbacks.tryServices env width height n (S i) rest
               (add_events s (attemptEvents width height i (host, timeout)))
    end.
Proof.
  cbn [Fallbacks.tryServices]. unfold try_catch. rewrite attempt_run.
  destruct (axios env i); [|done]. by case_bool_decide.
Qed.

Lemma tryServices_succeeds rest : ∀ n i m data s,
  (m < length rest)%nat →
  (∀ j, (i ≤ j < i + m)%nat → failed env j) →
  axios env (i + m) = inr data →
  (i + length rest = n)%nat →
  Fallbacks.tryServices env width height n i rest s
  = (Ok data, add_events s (attemptsFrom width height i rest (S m))).
Proof.
  induction rest as [|[host timeout] rest IH];
    intros n i m data s Hm Hfail Hok Hn; cbn [length] in *; [lia|].
  rewrite tryServices_step. destruct m as [|m].
  - replace (i + 0)%nat with i in Hok by lia. rewrite Hok.
    cbn [attemptsFrom]. by rewrite app_nil_r.
  - destruct (Hfail i ltac:(lia)) as [e ->].
    rewrite bool_decide_false by lia.
    rewrite (IH n (S i) m data); [|lia| |by rewrite <- Hok; f_equal; lia|lia].
    + by rewrite add_events_app.
    + intros j Hj. apply Hfail. lia.
Qed.

Lemma tryServices_all_fail rest : ∀ n i s,
  rest ≠ [] →
  (∀ j, (i ≤ j < n)%nat → failed env j) →
  (i + length rest = n)%nat →
  Fallbacks.tryServices env width height n i rest s
  = (Throw {| message := "All image services failed" |},
     add_events s (attemptsFrom width height i rest (length rest))).
Proof.
  induction rest as [|[host timeout] rest IH];
    intros n i s Hne Hfail Hn; cbn [length] in *; [done|].
  rewrite tryServices_step.
  destruct (Hfail i ltac:(lia)) as [e ->].
  cbn [attemptsFrom].
  destruct (decide (rest = [])) as [->|Hrest].
  - cbn [length attemptsFrom] in *. rewrite bool_decide_true by lia.
    by rewrite app_nil_r.
  - assert (0 < length rest)%nat by (destruct rest; [done|simpl; lia]).
    rewrite bool_decide_false by lia.
    rewrite IH; [|done| |lia].
    + by rewrite add_events_app.
    + intros j Hj. apply Hfail. lia.
Qed.

End Acquisition.

(** C3. Image acquisition over the ordered provider list.  If provider
    [k] is the first to succeed, the run consists of the attempts on
    providers 0..k, once each and in order, the attempt on provider
    [i > 0] coming right after a sleep of [1000 * 2^(i-1)] ms, so that
    the backoff slept before attempt [k] is the sum of
    [1000 * 2^(i-1)] for [i] in 1..k; provider [k]'s payload is returned
    and no later provider is requested.  If every provider fails, the
    acquisition throws and returns no bytes. *)
Theorem generateImageWithFallbacks_first_success
    (env : Env) (prompt : string) (width height : option Z) (s : State) :
  (∀ k data,
     (k < length Fallbacks.services)%nat →
     (∀ j, (j < k)%nat → failed env j) →
     axios env k = inr data →
     let evs := expectedAttempts width height k in
     Fallbacks.generateImageWithFallbacks env prompt width height s
       = (Ok data, add_events s evs)
     ∧ providerCalls evs = take (S k) (Fallbacks.services.*1)
     ∧ backoff evs = backoffSum k)
  ∧ ((∀ j, (j < length Fallbacks.services)%nat → failed env j) →
     Fallbacks.generateImageWithFallbacks env prompt width height s
     = (Throw {| message := "All image services failed" |},
        add_events s (expectedAttempts width height 3))).
Proof.
  split.
  - intros k data Hk Hfail Hok evs. subst evs.
    unfold Fallbacks.generateImageWithFallbacks.
    rewrite (tryServices_succeeds env width height Fallbacks.services
               (length Fallbacks.services) 0 k data s); try done.
    + simpl in Hk.
      do 4 (destruct k as [|k]; [by repeat split|]). lia.
    + intros j Hj. apply Hfail. lia.
  - intros Hfail.
    unfold Fallbacks.generateImageWithFallbacks.
    rewrite (tryServices_all_fail env width height); [done|done| |done].
    intros j Hj. apply Hfail. lia.
Qed.

Lemma generateImageWithFallbacks_first_success_witness :
  (Fallbacks.generateImageWithFallbacks env_third_provider "Create a bold thumbnail"
     (Some 1024) (Some 576) empty_state
   = (Ok [Byte.x89; Byte.x50],
      add_events empty_state
        [ HttpGet "pollinations.ai" (Some 1024) (Some 576) (Some 25000);
          Sleep 1000;
          HttpGet "picsum.photos" (Some 1024) (Some 576) (Some 10000);
          Sleep 2000;
          HttpGet "source.unsplash.com" (Some 1024) (Some 576) (Some 15000) ])
   ∧ backoff (expectedAttempts (Some 1024) (Some 576) 2) = 3000)
  ∧ (Fallbacks.generateImageWithFallbacks env_recovery_save_fails
       "Create a bold thumbnail" (Some 1024) (Some 576) empty_state).1
    = Throw {| message := "All image services failed" |}.
Proof.
  split.
  - destruct (proj1 (generateImageWithFallbacks_first_success env_third_provider
                "Create a bold thumbnail" (Some 1024) (Some 576) empty_state)
                2%nat [Byte.x89; Byte.x50]) as (Hrun & _ & Hsleep).
    + simpl. lia.
    + intros [|[|j]] Hj; [by eexists..|lia].
    + reflexivity.
    + split; [exact Hrun|exact Hsleep].
  - rewrite (proj2 (generateImageWithFallbacks_first_success
               env_recovery_save_fails "Create a bold thumbnail"
               (Some 1024) (Some 576) empty_state)); [reflexivity|].
    intros j _. by eexists.
Defined.

(** ** Frame of the acquisition loops: they only sleep and request *)

Lemma attemptEvents_acquisition width height i service :
  acquisition_events (attemptEvents width height i service).
Proof.
  unfold acquisition_events, attemptEvents.
  case_bool_decide; repeat constructor.
Qed.

Lemma tryServices_frame env width height rest : ∀ n i s,
  ∃ r evs, Fallbacks.tryServices env width height n i rest s
           = (r, add_events s evs)
           ∧ acquisition_events evs.
Proof.
  induction rest as [|[host timeout] rest IH]; intros n i s.
  - exists (Throw {| message := "No image services available" |}), [].
    rewrite add_events_nil. split; [done|constructor].
  - rewrite tryServices_step.
    pose proof (attemptEvents_acquisition width height i (host, timeout)).
    destruct (axios env i); [|by eauto].
    case_bool_decide; [by eauto|].
    destruct (IH n (S i) (add_events s (attemptEvents width height i (host, timeout))))
      as (r & evs & -> & Hevs).
    rewrite add_events_app. eexists _, _. split; [done|].
    by apply Forall_app.
Qed.

Lemma generateImageWithFallbacks_frame env prompt width height s :
  ∃ r evs, Fallbacks.generateImageWithFallbacks env prompt width height s
           = (r, add_events s evs)
           ∧ acquisition_events evs.
Proof. apply tryServices_frame. Qed.

Lemma attempts_frame env width height remaining : ∀ attempt s,
  ∃ r evs, Controller.attempts env width height remaining attempt s
           = (r, add_events s evs)
           ∧ acquisition_events evs.
Proof.
  induction remaining as [|remaining IH]; intros attempt s.
  - exists (Ok None), []. rewrite add_events_nil. split; [done|constructor].
  - cbn [Controller.attempts]. unfold try_catch, axios_get, emit.
    unfold bind, ret, throw. destruct (axios env attempt).
    + case_bool_decide.
      * eexists _, [_]. split; [reflexivity|by repeat constructor].
      * destruct (IH (S attempt)
          (add_events s [HttpGet "image.pollinations.ai" width height (Some 45000)]))
          as (r & evs & Hrun & Hevs).
        rewrite add_events_app in Hrun. eexists _, _. split; [exact Hrun|].
        apply Forall_app. split; [by repeat constructor|done].
    + eexists _, [_]. split; [reflexivity|by repeat constructor].
Qed.

Lemma dimensions_frame aspect s :
  ∃ r, Controller.dimensions aspect s = (r, s).
Proof.
  unfold Controller.dimensions. destruct (get Controller.aspectMap aspect);
    by eexists.
Qed.

(** ** Symbolic execution of the handlers

    [exec H] runs the handler in [H : handler env req s = (r, s')] on a
    state given by its four components, splitting on what the
    collaborators answer in program order. *)

Ltac exec_reduce H :=
  cbv beta iota zeta delta
    [Fallbacks.generateThumbnail Fallbacks.tryBlock Fallbacks.pipeline
     Fallbacks.recover Fallbacks.deleteThumbnail
     Controller.generateThumbnail Controller.tryBlock Controller.pipeline
     Retry.deleteThumbnail Legacy.deleteThumbnail Legacy.sessionUserId
     Thumbnail_create save_thumbnail update_thumbnail save
     findOneAndDelete findByIdAndDelete mkdirSync writeFileSync
     unlinkSync upload may_fail set_thumbnail set_store set_files
     get_state emit try_catch bind ret throw add_events
     store files trace thumbnail fst snd] in H.

Ltac exec_split H :=
  match type of H with
  | context [match sessionUserId ?r with _ => _ end] =>
      destruct (sessionUserId r) eqn:?
  | context [match Request.session ?r with _ => _ end] =>
      destruct (Request.session r) eqn:?
  | context [if nonempty ?u then _ else _] => destruct (nonempty u) eqn:?
  | context [match delete_error ?e with _ => _ end] =>
      destruct (delete_error e) eqn:?
  | context [match create_error ?e with _ => _ end] =>
      destruct (create_error e) eqn:?
  | context [match ?st !! ?k with _ => _ end] => destruct (st !! k) eqn:?
  | context [Fallbacks.destructure ?d] => destruct (Fallbacks.destructure d) eqn:?
  | context [Fallbacks.generateImageWithFallbacks ?e ?p ?w ?h ?st] =>
      let r := fresh "r" in
      let evs := fresh "evs" in
      let Hacq := fresh "Hacq" in
      destruct (generateImageWithFallbacks_frame e p w h st)
        as (r & evs & Hacq & ?);
      rewrite Hacq in H; clear Hacq; destruct r
  | context [Controller.dimensions ?a ?st] =>
      let r := fresh "r" in
      let Hdim := fresh "Hdim" in
      destruct (dimensions_frame a st) as (r & Hdim);
      rewrite Hdim in H; clear Hdim; destruct r as [[? ?]|?]
  | context [Controller.attempts ?e ?w ?h ?n ?a ?st] =>
      let r := fresh "r" in
      let evs := fresh "evs" in
      let Hacq := fresh "Hacq" in
      destruct (attempts_frame e w h n a st) as (r & evs & Hacq & ?);
      rewrite Hacq in H; clear Hacq; destruct r as [[?|]|?]
  | context [match mkdir_error ?e with _ => _ end] =>
      destruct (mkdir_error e) eqn:?
  | context [match write_error ?e with _ => _ end] =>
      destruct (write_error e) eqn:?
  | context [match upload_result ?e with _ => _ end] =>
      destruct (upload_result e) eqn:?
  | context [match save_error ?e with _ => _ end] =>
      destruct (save_error e) eqn:?
  | context [match unlink_error ?e with _ => _ end] =>
      destruct (unlink_error e) eqn:?
  | context [bool_decide (?p ∈ {[?p]} ∪ ?fl)] =>
      rewrite (bool_decide_true (p ∈ {[p]} ∪ fl)) in H by set_solver
  | context [match recovery_save_error ?e with _ => _ end] =>
      destruct (recovery_save_error e) eqn:?
  | context [if bool_decide ?P then _ else _] => destruct (bool_decide P) eqn:?
  end.

Ltac exec H := exec_reduce H; repeat (exec_split H; exec_reduce H).

(** C10. On the success path of a generate request the completion update
    touches [image_url] and [isGenerating] only: the record persisted at
    the end is the record as created with these two fields assigned, so
    [userId], [title], [prompt_used], [style], [aspect_ratio],
    [color_scheme] and [text_overlay] keep their creation-time values.
    Both the revision with fallbacks and ThumbnailController.ts. *)
Theorem success_keeps_creation_fields (env : Env) (req : Request.t)
    (s s' : State) (resp : Response.t) :
  (Fallbacks.generateThumbnail env req s = (Ok resp, s')
   ∨ Controller.generateThumbnail env req s = (Ok resp, s')) →
  Response.status resp = 200 →
  ∃ created final url evs,
    trace s' = trace s ++ DbCreate created :: evs
    ∧ store s' !! _id created = Some final
    ∧ final = assign_isGenerating false (assign_image_url url created)
    ∧ userId final = userId created
    ∧ title final = title created
    ∧ prompt_used final = prompt_used created
    ∧ style final = style created
    ∧ aspect_ratio final = aspect_ratio created
    ∧ color_scheme final = color_scheme created
    ∧ text_overlay final = text_overlay created.
Proof.
  intros [Hrun|Hrun] Hstatus; destruct s as [st fl tr th];
    exec Hrun; simplify_eq/=.
  all: match goal with
       | H : upload_result _ = inr ?u |- _ => eexists _, _, u, _
       end.
  all: split; [rewrite <- !app_assoc; reflexivity|].
  all: split; [apply lookup_insert_eq|done].
Qed.

Lemma success_keeps_creation_fields_witness :
  let run := Fallbacks.generateThumbnail env_third_provider
               authenticated_request empty_state in
  ∃ created final url evs,
    trace run.2 = trace empty_state ++ DbCreate created :: evs
    ∧ store run.2 !! _id created = Some final
    ∧ final = assign_isGenerating false (assign_image_url url created)
    ∧ userId final = userId created
    ∧ title final = title created
    ∧ prompt_used final = prompt_used created
    ∧ style final = style created
    ∧ aspect_ratio final = aspect_ratio created
    ∧ color_scheme final = color_scheme created
    ∧ text_overlay final = text_overlay created.
Proof.
  intros run.
  apply (success_keeps_creation_fields env_third_provider
           authenticated_request empty_state run.2 (response_of run.1)).
  - left. vm_compute. reflexivity.
  - vm_compute. reflexivity.
Defined.

(** ** Authentication of generate requests *)

(** C4. A generate request whose session carries no user identity (no
    session, no [userId], or an empty one) is answered 401 before any
    side effect: no record is created in the store and no outbound call
    is made, the trace of the request is empty.  Both the revision with
    fallbacks and ThumbnailController.ts. *)
Theorem unauthenticated_generate_is_refused (env : Env) (req : Request.t)
    (s : State) :
  truthy (sessionUserId req) = false →
  refused_without_effect Fallbacks.generateThumbnail env req s
  ∧ refused_without_effect Controller.generateThumbnail env req s.
Proof.
  intros Hanon. unfold refused_without_effect, truthy in *.
  destruct s as [st fl tr th].
  split.
  - destruct (Fallbacks.generateThumbnail env req
                {| store := st; files := fl; trace := tr; thumbnail := th |})
      as [r s'] eqn:Hrun.
    exec Hrun; simplify_eq/=; by eexists _, _.
  - destruct (Controller.generateThumbnail env req
                {| store := st; files := fl; trace := tr; thumbnail := th |})
      as [r s'] eqn:Hrun.
    exec Hrun; simplify_eq/=; by eexists _, _.
Qed.

Lemma unauthenticated_generate_is_refused_witness :
  refused_without_effect Fallbacks.generateThumbnail
    env_third_provider anonymous_request empty_state
  ∧ refused_without_effect Controller.generateThumbnail
      env_third_provider anonymous_request empty_state.
Proof.
  apply (unauthenticated_generate_is_refused env_third_provider
           anonymous_request empty_state).
  reflexivity.
Defined.

(** ** Deletion *)

Lemma owned_by_dec s id user : Decision (owned_by s id user).
Proof.
  unfold owned_by. destruct (store s !! id) as [doc|] eqn:Hdoc.
  - destruct (decide (user = Some (userId doc))) as [Hu|Hu].
    + left. by exists doc.
    + right. intros (doc' & ? & ?). by simplify_eq.
  - right. intros (doc' & ? & ?). by simplify_eq.
Qed.

(** C2, as stated, fails for the handler of src/unnamed/part_001: it
    runs the query and answers 200 without looking at what the query
    found.  With the record of [user-1] in the store and a session of
    [user-2] the record stays, and the answer is 200, not 404. *)
Lemma foreign_delete_is_answered_200 :
  ¬ delete_answers_by_owner Retry.deleteThumbnail.
Proof.
  intros Hclaim.
  destruct (Hclaim env_third_provider other_user_request one_record_state
              eq_refl) as (resp & s' & Hrun & Hmiss & _).
  destruct Hmiss as [H404 _].
  - intros (doc & Hdoc & Howner). vm_compute in Hdoc.
    injection Hdoc as <-. discriminate Howner.
  - vm_compute in Hrun. injection Hrun as <- _. discriminate H404.
Qed.

(** C2, amended.  Both delete handlers look the record up by its id
    and the session user's identity together.  When the store answers
    the query: if no record with that id owned by the session user
    exists, the store is unchanged (a record of another user stays); if
    one exists, the record is removed, a later lookup of the id finds
    nothing and every other record is still there.  The handler of the
    revision with fallbacks answers 404 in the first case and 200 in
    the second; the handler of src/unnamed/part_001 answers 200 in
    both. *)
Theorem delete_scoped_by_id_and_owner (env : Env) (req : Request.t)
    (s : State) :
  delete_error env = None →
  (∃ resp s',
     Fallbacks.deleteThumbnail env req s = (Ok resp, s')
     ∧ (¬ owned_by s (Request.id req) (sessionUserId req) →
        Response.status resp = 404 ∧ store s' = store s)
     ∧ (owned_by s (Request.id req) (sessionUserId req) →
        Response.status resp = 200
        ∧ store s' !! Request.id req = None
        ∧ store s' = delete (Request.id req) (store s)))
  ∧ (∃ resp s',
       Retry.deleteThumbnail env req s = (Ok resp, s')
       ∧ Response.status resp = 200
       ∧ (¬ owned_by s (Request.id req) (sessionUserId req) →
          store s' = store s)
       ∧ (owned_by s (Request.id req) (sessionUserId req) →
          store s' !! Request.id req = None
          ∧ store s' = delete (Request.id req) (store s))).
Proof.
  intros Hquery. unfold owned_by. destruct s as [st fl tr th]. split.
  - destruct (Fallbacks.deleteThumbnail env req
                {| store := st; files := fl; trace := tr; thumbnail := th |})
      as [r s'] eqn:Hrun.
    exec Hrun; simplify_eq/=; eexists _, _; (split; [reflexivity|]); simpl.
    + case_bool_decide; [|done]. split.
      * intros Hnot. destruct Hnot. by eauto.
      * intros _. by rewrite lookup_delete_eq.
    + case_bool_decide; [done|]. split; [done|].
      intros (doc & ? & ?). by simplify_eq.
    + split; [done|]. intros (doc & ? & ?). by simplify_eq.
  - destruct (Retry.deleteThumbnail env req
                {| store := st; files := fl; trace := tr; thumbnail := th |})
      as [r s'] eqn:Hrun.
    exec Hrun; simplify_eq/=; eexists _, _; (split; [reflexivity|]); simpl;
      (split; [done|]).
    + case_bool_decide; [|done]. split.
      * intros Hnot. destruct Hnot. by eauto.
      * intros _. by rewrite lookup_delete_eq.
    + case_bool_decide; [done|]. split; [done|].
      intros (doc & ? & ?). by simplify_eq.
    + split; [done|]. intros (doc & ? & ?). by simplify_eq.
Qed.

Lemma delete_scoped_by_id_and_owner_witness :
  (∃ resp s',
     Fallbacks.deleteThumbnail env_third_provider other_user_request
       one_record_state = (Ok resp, s')
     ∧ Response.status resp = 404
     ∧ store s' = store one_record_state)
  ∧ (∃ resp s',
       Fallbacks.deleteThumbnail env_third_provider authenticated_request
         one_record_state = (Ok resp, s')
       ∧ Response.status resp = 200
       ∧ store s' !! "665f1c2e9b1d" = None)
  ∧ (∃ resp s',
       Retry.deleteThumbnail env_third_provider other_user_request
         one_record_state = (Ok resp, s')
       ∧ Response.status resp = 200
       ∧ store s' = store one_record_state)
  ∧ (∃ resp s',
       Retry.deleteThumbnail env_third_provider authenticated_request
         one_record_state = (Ok resp, s')
       ∧ Response.status resp = 200
       ∧ store s' !! "665f1c2e9b1d" = None).
Proof.
  assert (¬ owned_by one_record_state (Request.id other_user_request)
            (sessionUserId other_user_request)) as Hforeign.
  { intros (doc & Hdoc & Howner). vm_compute in Hdoc.
    injection Hdoc as <-. discriminate Howner. }
  assert (owned_by one_record_state (Request.id authenticated_request)
            (sessionUserId authenticated_request)) as Hown.
  { exists stored_record. split; reflexivity. }
  destruct (delete_scoped_by_id_and_owner env_third_provider
              other_user_request one_record_state eq_refl)
    as [(resp1 & s1 & Hrun1 & Hmiss1 & _)
        (resp3 & s3 & Hrun3 & H200 & Hmiss3 & _)].
  destruct (delete_scoped_by_id_and_owner env_third_provider
              authenticated_request one_record_state eq_refl)
    as [(resp2 & s2 & Hrun2 & _ & Hhit2)
        (resp4 & s4 & Hrun4 & H200' & _ & Hhit4)].
  split_and!.
  - exists resp1, s1. split; [exact Hrun1|]. exact (Hmiss1 Hforeign).
  - exists resp2, s2. split; [exact Hrun2|].
    destruct (Hhit2 Hown) as (Hstatus & Hgone & _). by split.
  - exists resp3, s3. split; [exact Hrun3|]. split; [exact H200|].
    exact (Hmiss3 Hforeign).
  - exists resp4, s4. split; [exact Hrun4|]. split; [exact H200'|].
    exact (proj1 (Hhit4 Hown)).
Defined.

(** The revisions of src/unnamed/part_001 do not look at the result of
    the query: the answer is 200 whether or not a record was deleted. *)
Lemma retry_delete_always_200 (env : Env) (req : Request.t) (s : State) :
  delete_error env = None →
  ∃ resp s', Retry.deleteThumbnail env req s = (Ok resp, s')
             ∧ Response.status resp = 200
             ∧ (¬ owned_by s (Request.id req) (sessionUserId req) →
                store s' = store s).
Proof.
  intros Hquery. unfold owned_by. destruct s as [st fl tr th].
  destruct (Retry.deleteThumbnail env req
              {| store := st; files := fl; trace := tr; thumbnail := th |})
    as [r s'] eqn:Hrun.
  exec Hrun; simplify_eq/=; eexists _, _; (split; [reflexivity|]); simpl;
    (split; [done|]); try done.
  case_bool_decide; [|done]. intros Hnot. destruct Hnot. by eauto.
Qed.

(** An unauthenticated delete request in the revision with fallbacks:
    the owner filter matches nothing, the answer is 404 and the store is
    unchanged. *)
Lemma unauthenticated_delete_is_404 (env : Env) (req : Request.t) (s : State) :
  delete_error env = None →
  sessionUserId req = None →
  ∃ resp s', Fallbacks.deleteThumbnail env req s = (Ok resp, s')
             ∧ Response.status resp = 404
             ∧ store s' = store s.
Proof.
  intros Hquery Hanon. destruct s as [st fl tr th].
  destruct (Fallbacks.deleteThumbnail env req
              {| store := st; files := fl; trace := tr; thumbnail := th |})
    as [r s'] eqn:Hrun.
  exec Hrun; simplify_eq/=; try (by eexists _, _).
  match goal with
  | H : bool_decide _ = true |- _ =>
      apply bool_decide_eq_true in H; by rewrite Hanon in H
  end.
Qed.

(** C5. The delete handlers at a request without user identity, on a
    store that holds one record of [user-1].  None of them refuses the
    request as unauthenticated: the revision with fallbacks answers 404
    "Thumbnail not found", the revision of part_001 answers 200, each
    leaving the record in place; the revision of part_002, whose lookup
    is by id alone, deletes the record and answers 200. *)
Theorem unauthenticated_delete_not_refused :
  (let run := Fallbacks.deleteThumbnail env_third_provider anonymous_request
                one_record_state in
   Response.status (response_of run.1) = 404
   ∧ Response.message (response_of run.1) = "Thumbnail not found"
   ∧ store run.2 !! "665f1c2e9b1d" = Some stored_record)
  ∧ (let run := Retry.deleteThumbnail env_third_provider anonymous_request
                  one_record_state in
     Response.status (response_of run.1) = 200
     ∧ store run.2 !! "665f1c2e9b1d" = Some stored_record)
  ∧ (let run := Legacy.deleteThumbnail env_third_provider
                  session_without_user_request one_record_state in
     Response.status (response_of run.1) = 200
     ∧ Response.message (response_of run.1) = "Thumbnail deleted successfully"
     ∧ store run.2 !! "665f1c2e9b1d" = None).
Proof. cbv zeta. repeat split; vm_compute; reflexivity. Qed.

(** ** The recovery write *)

(** C8. When the [try] block throws [original] after the record was
    created (the handler holds the document [doc]) and the save of the
    catch block throws as well, the save error is swallowed: the request
    completes, with status 500, the message of [original] in its [error]
    field and the partial record, marked failed, as its [thumbnail]; the
    store is as the failed pipeline left it. *)
Theorem recovery_save_error_is_swallowed (env : Env) (req : Request.t)
    (s s1 : State) (original save_failure : Error) (doc : Thumbnail) :
  Fallbacks.tryBlock env req (no_thumbnail s) = (Throw original, s1) →
  thumbnail s1 = Some doc →
  recovery_save_error env = Some save_failure →
  ∃ s2,
    Fallbacks.generateThumbnail env req s
    = (Ok {| Response.status := 500;
             Response.message := "Image generation failed but fallback used";
             Response.thumbnail :=
               Some (assign_error
                       (or_default (Some (message original)) "Generation failed")
                       (assign_isGenerating false doc));
             Response.error := Some (message original) |}, s2)
    ∧ store s2 = store s1
    ∧ files s2 = files s1
    ∧ trace s2 = trace s1.
Proof.
  intros Htry Hdoc Hsave.
  unfold Fallbacks.generateThumbnail, set_thumbnail.
  unfold bind at 1. unfold try_catch at 1.
  change {| store := store s; files := files s; trace := trace s;
            thumbnail := None |} with (no_thumbnail s).
  rewrite Htry. destruct s1 as [st1 fl1 tr1 th1]. simpl in Hdoc. subst th1.
  unfold Fallbacks.recover.
  cbv beta iota zeta delta
    [save_thumbnail update_thumbnail save may_fail set_thumbnail set_store
     get_state emit try_catch bind ret throw store files trace thumbnail].
  rewrite Hsave. eexists. split; [reflexivity|done].
Qed.

Lemma recovery_save_error_is_swallowed_witness :
  ∃ s2,
    Fallbacks.generateThumbnail env_recovery_save_fails authenticated_request
      empty_state
    = (Ok {| Response.status := 500;
             Response.message := "Image generation failed but fallback used";
             Response.thumbnail :=
               Some (assign_error "All image services failed"
                       (assign_isGenerating false pending_record));
             Response.error := Some "All image services failed" |}, s2)
    ∧ store s2 !! "665f1c2e9b1d" = Some pending_record.
Proof.
  destruct (recovery_save_error_is_swallowed env_recovery_save_fails
              authenticated_request empty_state
              (Fallbacks.tryBlock env_recovery_save_fails authenticated_request
                 (no_thumbnail empty_state)).2
              {| message := "All image services failed" |}
              {| message := "connection closed" |}
              pending_record)
    as (s2 & Hrun & Hstore & _).
  - vm_compute. reflexivity.
  - vm_compute. reflexivity.
  - reflexivity.
  - exists s2. split; [exact Hrun|]. rewrite Hstore. vm_compute. reflexivity.
Defined.

(** ** The transient file *)

Lemma acquisition_events_elem evs e :
  acquisition_events evs → e ∈ evs → acquisition_event e = true.
Proof. intros Hall He. by apply (proj1 (Forall_forall _ _) Hall). Qed.

(** C9, as stated, fails: with [env_upload_fails] the file
    [images/thumbnail-1700000000000.png] is written, the upload throws,
    control passes to the catch block and the file is still on disk when
    the 500 is sent. *)
Lemma transient_file_left_when_upload_throws :
  ¬ transient_file_always_deleted Fallbacks.generateThumbnail.
Proof.
  intros Hclaim.
  apply (Hclaim env_upload_fails authenticated_request empty_state
           (trace (Fallbacks.generateThumbnail env_upload_fails
                     authenticated_request empty_state).2)).
  - reflexivity.
  - apply (bool_decide_unpack _). vm_compute. exact I.
  - apply (bool_decide_unpack _). vm_compute. exact I.
Qed.

Lemma app_self_nil {A : Type} (l k : list A) : l = l ++ k → k = [].
Proof. intros H. apply (app_inv_head l). by rewrite app_nil_r. Qed.

(** Reads the events of the request off the final trace. *)
Ltac events_inv :=
  match goal with
  | H : events_of _ _ _ |- _ =>
      unfold events_of in H; cbn [trace] in H;
      rewrite <- ?app_assoc in H;
      first [ apply app_inv_head in H | apply app_self_nil in H ];
      subst
  end.

Ltac absurd_event :=
  repeat match goal with
  | H : _ ∈ _ ++ _ |- _ => apply elem_of_app in H; destruct H
  | H : _ ∈ _ :: _ |- _ => apply elem_of_cons in H; destruct H
  | H : _ ∈ [] |- _ => by apply elem_of_nil in H
  | H : ?e ∈ ?evs, Hacq : acquisition_events ?evs |- _ =>
      by pose proof (acquisition_events_elem evs e Hacq H)
  | H : @eq Event _ _ |- _ => discriminate H
  end.

(** C9, amended.  The transient file is deleted once the upload and the
    completion save have succeeded: after a 200 response it is not on
    disk.  When the upload call throws, the file that was written stays
    on disk.  Both the revision with fallbacks and
    ThumbnailController.ts. *)
Theorem transient_file_deleted_after_success :
  transient_file_deleted_on_success_only Fallbacks.generateThumbnail
  ∧ transient_file_deleted_on_success_only Controller.generateThumbnail.
Proof.
  split; intros env req [st fl tr th] resp s' evs Hrun Hevs;
    exec Hrun; simplify_eq/=.
  all: split;
    [intros Hstatus; simplify_eq/=;
     try (apply not_elem_of_difference; right; by apply elem_of_singleton)|].
  all: intros Hwrite [e' Hup]; simplify_eq/=.
  all: try set_solver.
  all: events_inv; absurd_event.
Qed.

Lemma transient_file_deleted_after_success_witness :
  (tempFilepath env_third_provider
     ∉ files (Fallbacks.generateThumbnail env_third_provider
                authenticated_request empty_state).2)
  ∧ (tempFilepath env_upload_fails
       ∈ files (Fallbacks.generateThumbnail env_upload_fails
                  authenticated_request empty_state).2).
Proof.
  split.
  - apply (proj1 transient_file_deleted_after_success
             env_third_provider authenticated_request empty_state
             (response_of (Fallbacks.generateThumbnail env_third_provider
                             authenticated_request empty_state).1)
             (Fallbacks.generateThumbnail env_third_provider
                authenticated_request empty_state).2
             (trace (Fallbacks.generateThumbnail env_third_provider
                       authenticated_request empty_state).2)).
    + vm_compute. reflexivity.
    + reflexivity.
    + vm_compute. reflexivity.
  - apply (proj1 transient_file_deleted_after_success
             env_upload_fails authenticated_request empty_state
             (response_of (Fallbacks.generateThumbnail env_upload_fails
                             authenticated_request empty_state).1)
             (Fallbacks.generateThumbnail env_upload_fails
                authenticated_request empty_state).2
             (trace (Fallbacks.generateThumbnail env_upload_fails
                       authenticated_request empty_state).2)).
    + vm_compute. reflexivity.
    + reflexivity.
    + apply (bool_decide_unpack _). vm_compute. exact I.
    + eexists. reflexivity.
Defined.

(** ** Terminal disposition of the record *)

(** C1, as stated, fails: with [env_recovery_save_fails] every provider
    fails, the catch block marks the document failed, its save throws
    and is swallowed, and the stored record is still the pending one:
    [isGenerating = true], neither [image_url] nor [error]. *)
Lemma record_left_pending_when_recovery_save_throws :
  ¬ record_always_terminal Fallbacks.generateThumbnail.
Proof.
  intros Hclaim.
  destruct (Hclaim env_recovery_save_fails authenticated_request empty_state
              (trace (Fallbacks.generateThumbnail env_recovery_save_fails
                        authenticated_request empty_state).2)
              pending_record) as (_ & final & Hfinal & Hterminal).
  - reflexivity.
  - apply (bool_decide_unpack _). vm_compute. exact I.
  - vm_compute in Hfinal. injection Hfinal as <-. discriminate Hterminal.
Qed.

(** ThumbnailController.ts has no recovery write at all: when the three
    attempts fail the record stays as created. *)
Lemma controller_failure_leaves_record_pending :
  let run := Controller.generateThumbnail env_recovery_save_fails
               authenticated_request empty_state in
  Response.status (response_of run.1) = 500
  ∧ store run.2 !! "665f1c2e9b1d" = Some pending_record
  ∧ terminal pending_record = false.
Proof. cbv zeta. repeat split; vm_compute; reflexivity. Qed.

(** In the revision with fallbacks a failure after the completion update
    leaves both fields set. *)
Lemma unlink_failure_sets_both_fields :
  let run := Fallbacks.generateThumbnail env_unlink_fails
               authenticated_request empty_state in
  Response.status (response_of run.1) = 500
  ∧ (image_url <$> store run.2 !! "665f1c2e9b1d")
    = Some (Some "https://res.cloudinary.com/demo/thumbnails/a.png")
  ∧ (error <$> store run.2 !! "665f1c2e9b1d")
    = Some (Some "EPERM: operation not permitted")
  ∧ (terminal <$> store run.2 !! "665f1c2e9b1d") = Some false.
Proof. cbv zeta. repeat split; vm_compute; reflexivity. Qed.

Lemma created_first created rest :
  created_before_outbound (DbCreate created :: rest).
Proof.
  intros [|i] e Hi Hout; simpl in *.
  - by simplify_eq.
  - exists 0%nat, created. split; [lia|done].
Qed.

(** C1, amended.  In the revision with fallbacks, a generate request
    that creates a record creates it before any outbound call; and when
    neither save of the record (the completion save, the save of the
    catch block) nor the deletion of the transient file throws, the
    stored record ends in exactly one terminal disposition:
    [isGenerating = false] with [image_url] set and [error] unset after a
    200, with [error] set and [image_url] unset after a 500.  When the
    save of the catch block throws, the failure of the request is not
    recorded: after the 500 the stored record has no [error]; it is
    either still generating, without [image_url], or has
    [isGenerating = false] and its [image_url], the latter only if the
    completion save does not throw and the deletion of the transient
    file does. *)
Theorem record_terminal_when_writes_succeed (env : Env) (req : Request.t)
    (s s' : State) (resp : Response.t) (evs : list Event) (doc : Thumbnail) :
  Fallbacks.generateThumbnail env req s = (Ok resp, s') →
  events_of s s' evs →
  DbCreate doc ∈ evs →
  created_before_outbound evs
  ∧ (save_error env = None →
     unlink_error env = None →
     recovery_save_error env = None →
     ∃ final,
       store s' !! _id doc = Some final
       ∧ terminal final = true
       ∧ (Response.status resp = 200 →
          is_Some (image_url final) ∧ error final = None)
       ∧ (Response.status resp = 500 →
          is_Some (error final) ∧ image_url final = None))
  ∧ (is_Some (recovery_save_error env) →
     Response.status resp = 500 →
     ∃ final,
       store s' !! _id doc = Some final
       ∧ error final = None
       ∧ (isGenerating final = true → image_url final = None)
       ∧ (isGenerating final = false →
          is_Some (image_url final)
          ∧ save_error env = None
          ∧ is_Some (unlink_error env))).
Proof.
  destruct s as [st fl tr th]. intros Hrun Hevs Hcreated.
  exec Hrun; simplify_eq/=; events_inv; absurd_event; simplify_eq.
  all: split; [apply created_first|].
  all: split;
    [ intros Hsave Hunlink Hrecovery; simplify_eq;
      (eexists; split; [apply lookup_insert_eq|]; by repeat split) | ].
  all: intros [? Hrecovery] H500; simplify_eq/=.
  all: eexists; (split; [apply lookup_insert_eq|]); simpl.
  all: split; [done|]; split; [done|]; intros; simplify_eq/=; eauto.
Qed.

Lemma record_terminal_when_writes_succeed_witness :
  (∃ final,
     store (Fallbacks.generateThumbnail env_upload_fails
              authenticated_request empty_state).2 !! "665f1c2e9b1d"
     = Some final
     ∧ terminal final = true
     ∧ is_Some (error final) ∧ image_url final = None)
  ∧ (∃ final,
       store (Fallbacks.generateThumbnail env_third_provider
                authenticated_request empty_state).2 !! "665f1c2e9b1d"
       = Some final
       ∧ terminal final = true
       ∧ is_Some (image_url final) ∧ error final = None)
  ∧ (∃ final,
       store (Fallbacks.generateThumbnail env_unlink_and_recovery_fail
                authenticated_request empty_state).2 !! "665f1c2e9b1d"
       = Some final
       ∧ error final = None
       ∧ is_Some (image_url final)).
Proof.
  split; [|split].
  - destruct (record_terminal_when_writes_succeed
                env_upload_fails authenticated_request empty_state
                (Fallbacks.generateThumbnail env_upload_fails
                   authenticated_request empty_state).2
                (response_of (Fallbacks.generateThumbnail env_upload_fails
                                authenticated_request empty_state).1)
                (trace (Fallbacks.generateThumbnail env_upload_fails
                          authenticated_request empty_state).2)
                pending_record) as (_ & Hfinal & _).
    + vm_compute. reflexivity.
    + reflexivity.
    + apply (bool_decide_unpack _). vm_compute. exact I.
    + destruct Hfinal as (final & Hstored & Hterminal & _ & H500);
        [reflexivity..|].
      exists final. split; [exact Hstored|]. split; [exact Hterminal|].
      apply H500. vm_compute. reflexivity.
  - destruct (record_terminal_when_writes_succeed
                env_third_provider authenticated_request empty_state
                (Fallbacks.generateThumbnail env_third_provider
                   authenticated_request empty_state).2
                (response_of (Fallbacks.generateThumbnail env_third_provider
                                authenticated_request empty_state).1)
                (trace (Fallbacks.generateThumbnail env_third_provider
                          authenticated_request empty_state).2)
                pending_record) as (_ & Hfinal & _).
    + vm_compute. reflexivity.
    + reflexivity.
    + apply (bool_decide_unpack _). vm_compute. exact I.
    + destruct Hfinal as (final & Hstored & Hterminal & H200 & _);
        [reflexivity..|].
      exists final. split; [exact Hstored|]. split; [exact Hterminal|].
      apply H200. vm_compute. reflexivity.
  - destruct (record_terminal_when_writes_succeed
                env_unlink_and_recovery_fail authenticated_request
                empty_state
                (Fallbacks.generateThumbnail env_unlink_and_recovery_fail
                   authenticated_request empty_state).2
                (response_of (Fallbacks.generateThumbnail
                                env_unlink_and_recovery_fail
                                authenticated_request empty_state).1)
                (trace (Fallbacks.generateThumbnail
                          env_unlink_and_recovery_fail
                          authenticated_request empty_state).2)
                pending_record) as (_ & _ & Hswallowed).
    + vm_compute. reflexivity.
    + reflexivity.
    + apply (bool_decide_unpack _). vm_compute. exact I.
    + destruct Hswallowed as (final & Hstored & Herror & _ & Hdone).
      * eexists. reflexivity.
      * vm_compute. reflexivity.
      * exists final. split; [exact Hstored|]. split; [exact Herror|].
        assert (Some final = Some stored_record) as Hrun
          by (rewrite <- Hstored; vm_compute; reflexivity).
        injection Hrun as ->. exact (proj1 (Hdone eq_refl)).
Defined.

(** ** Prompt composition and dimensions *)

Lemma nonempty_app_r (a b : string) :
  nonempty b = true → nonempty (a +:+ b) = true.
Proof. by destruct a, b. Qed.

Lemma string_app_cons (x : ascii) (a b : string) :
  String x a +:+ b = String x (a +:+ b).
Proof. reflexivity. Qed.

Lemma string_app_assoc (a b c : string) : (a +:+ b) +:+ c = a +:+ b +:+ c.
Proof.
  induction a as [|x a IH]; [done|].
  by rewrite !string_app_cons, IH.
Qed.

Lemma string_app_nil_r (a : string) : a +:+ EmptyString = a.
Proof.
  induction a as [|x a IH]; [done|]. by rewrite string_app_cons, IH.
Qed.

Lemma embeds_app_r s t post : embeds s t → embeds (s +:+ post) t.
Proof.
  intros (pre & post' & ->). exists pre, (post' +:+ post).
  by rewrite !string_app_assoc.
Qed.

Lemma embeds_app_l s t pre : embeds s t → embeds (pre +:+ s) t.
Proof.
  intros (pre' & post & ->). exists (pre +:+ pre'), post.
  by rewrite !string_app_assoc.
Qed.

(** The composed prompt is never empty. *)
Lemma buildPrompt_nonempty cleanStyle cleanColor title user_prompt :
  nonempty (Fallbacks.buildPrompt cleanStyle cleanColor title user_prompt) = true.
Proof. unfold Fallbacks.buildPrompt. by apply nonempty_app_r. Qed.

(** A title that is present is embedded as it is, between quotes. *)
Lemma buildPrompt_embeds_title cleanStyle cleanColor t user_prompt :
  nonempty t = true →
  embeds (Fallbacks.buildPrompt cleanStyle cleanColor (Some t) user_prompt)
    (dquote +:+ t +:+ dquote).
Proof.
  intros Ht. unfold Fallbacks.buildPrompt, truthy. rewrite Ht. simpl interpolate.
  apply embeds_app_r.
  assert (embeds
            (("Create a "
                +:+ propertyOr (get Fallbacks.stylePrompts cleanStyle) "bold thumbnail")
               +:+ " for " +:+ dquote +:+ t +:+ dquote)
            (dquote +:+ t +:+ dquote)) as Hbase.
  { eexists _, EmptyString.
    by rewrite string_app_nil_r, <- !string_app_assoc. }
  destruct user_prompt as [p|]; [destruct (nonempty p)|];
    destruct (truthyProperty _);
    first [ exact Hbase
          | apply embeds_app_r; exact Hbase
          | do 2 apply embeds_app_r; exact Hbase ].
Qed.

(** A key that is neither an own property nor a member of
    [Object.prototype] reads as [undefined]. *)
Lemma get_ordinary_missing {A : Type} (literal : gmap string A) (key : string) :
  literal !! key = None →
  key ∉ objectPrototypeKeys →
  get literal key = Undefined.
Proof.
  intros Hmiss Hproto. unfold get. rewrite Hmiss.
  by rewrite bool_decide_false.
Qed.

(** For such a style key the prompt opens with the default phrase. *)
Lemma buildPrompt_default_style cleanStyle cleanColor title user_prompt :
  Fallbacks.stylePrompts !! cleanStyle = None →
  cleanStyle ∉ objectPrototypeKeys →
  ∃ rest,
    Fallbacks.buildPrompt cleanStyle cleanColor title user_prompt
    = "Create a bold thumbnail" +:+ rest.
Proof.
  intros Hmiss Hproto. unfold Fallbacks.buildPrompt.
  rewrite (get_ordinary_missing _ _ Hmiss Hproto). simpl propertyOr.
  change ("Create a " +:+ "bold thumbnail") with ("Create a bold thumbnail").
  destruct (truthy title), (truthyProperty _), (truthy user_prompt);
    rewrite ?string_app_assoc; by eexists.
Qed.

(** For such a color-scheme key the color clause is left out. *)
Lemma buildPrompt_omits_color cleanStyle cleanColor title user_prompt :
  Fallbacks.colorSchemeDescriptions !! cleanColor = None →
  cleanColor ∉ objectPrototypeKeys →
  Fallbacks.buildPrompt cleanStyle cleanColor title user_prompt
  = (("Create a "
        +:+ propertyOr (get Fallbacks.stylePrompts cleanStyle) "bold thumbnail")
       +:+ (if truthy title
            then " for " +:+ dquote +:+ interpolate title +:+ dquote
            else EmptyString)
       +:+ (if truthy user_prompt then ". " +:+ interpolate user_prompt
            else EmptyString))
      +:+ ". YouTube thumbnail, high CTR, 16:9 composition".
Proof.
  intros Hmiss Hproto. unfold Fallbacks.buildPrompt.
  rewrite (get_ordinary_missing _ _ Hmiss Hproto). simpl truthyProperty.
  destruct (truthy title), (truthy user_prompt);
    by rewrite ?string_app_assoc, ?string_app_nil_r.
Qed.

(** The four entries of the table of the revision with fallbacks. *)
Lemma dimensions_table :
  Fallbacks.destructure (Fallbacks.dimensions "16:9") = (Some 1024, Some 576)
  ∧ Fallbacks.destructure (Fallbacks.dimensions "1:1") = (Some 1024, Some 1024)
  ∧ Fallbacks.destructure (Fallbacks.dimensions "9:16") = (Some 576, Some 1024)
  ∧ Fallbacks.destructure (Fallbacks.dimensions "4:3") = (Some 1024, Some 768).
Proof. repeat split; vm_compute; reflexivity. Qed.

(** An aspect-ratio key that is neither in the table nor a member of
    [Object.prototype] resolves to the 16:9 dimensions. *)
Lemma dimensions_default cleanAspect :
  Fallbacks.aspectMap !! cleanAspect = None →
  cleanAspect ∉ objectPrototypeKeys →
  Fallbacks.destructure (Fallbacks.dimensions cleanAspect)
  = (Some 1024, Some 576).
Proof.
  intros Hmiss Hproto. unfold Fallbacks.dimensions.
  by rewrite (get_ordinary_missing _ _ Hmiss Hproto).
Qed.

(** C6.  The composer at keys that name members of [Object.prototype].
    The style key [constructor] is not in the style table, yet the
    prompt does not open with the default phrase: the lookup finds the
    inherited member and the prompt carries its text.  Likewise the
    color-scheme key [toString] is not in the color table, yet a color
    clause is appended. *)
Theorem inherited_key_defeats_composer_defaults :
  clean (JString "constructor") "Bold & Graphic" = "constructor"
  ∧ Fallbacks.stylePrompts !! "constructor" = None
  ∧ Fallbacks.buildPrompt "constructor" "vibrant" (Some "Test") None
    = "Create a function Object() { [native code] } for " +:+ dquote
        +:+ "Test" +:+ dquote
        +:+ ", vibrant energetic colors. YouTube thumbnail, high CTR, 16:9 composition"
  ∧ clean (JString "toString") "vibrant" = "toString"
  ∧ Fallbacks.colorSchemeDescriptions !! "toString" = None
  ∧ Fallbacks.buildPrompt "Minimalist" "toString" (Some "Test") None
    = "Create a minimalist thumbnail, clean layout, modern flat design for "
        +:+ dquote +:+ "Test" +:+ dquote
        +:+ ", function toString() { [native code] }. YouTube thumbnail, high CTR, 16:9 composition"
  ∧ Controller.buildPrompt "constructor" "toString" "16:9" (Some "Test") None
    = "Create a function Object() { [native code] } for: " +:+ dquote
        +:+ "Test" +:+ dquote
        +:+ " Use a function toString() { [native code] } color scheme. Thumbnail 16:9, visually stunning, high CTR.".
Proof. repeat split; vm_compute; reflexivity. Qed.

(** C7.  The dimensions at an aspect-ratio key that names a member of
    [Object.prototype].  [constructor] is not in the table; in the
    revision with fallbacks the lookup finds the inherited member, the
    default is not taken and both [width] and [height] are [undefined];
    in ThumbnailController.ts the same key makes [split] throw.  The
    table of ThumbnailController.ts also lacks the entry for 4:3, which
    resolves to 1024x576 there. *)
Theorem inherited_key_defeats_default_dimensions :
  clean (JString "constructor") "16:9" = "constructor"
  ∧ Fallbacks.aspectMap !! "constructor" = None
  ∧ Fallbacks.destructure (Fallbacks.dimensions "constructor") = (None, None)
  ∧ (Controller.dimensions "constructor" empty_state).1
    = Throw {| message := "(aspectMap[cleanAspect] || " +:+ dquote
                             +:+ "1024x576" +:+ dquote
                             +:+ ").split is not a function" |}
  ∧ (Controller.dimensions "4:3" empty_state).1 = Ok (Some 1024, Some 576).
Proof. repeat split; vm_compute; reflexivity. Qed.


(** * Further properties of the controllers *)

(** ** Frames of the other loops *)

Lemma splitDimensions_frame aspectMap aspect s :
  ∃ r, splitDimensions aspectMap aspect s = (r, s).
Proof.
  unfold splitDimensions. destruct (get aspectMap aspect); by eexists.
Qed.

Lemma retry_attempts_frame env width height remaining : ∀ i s,
  ∃ r evs, Retry.attempts env width height remaining i s
           = (r, add_events s evs)
           ∧ acquisition_events evs.
Proof.
  induction remaining as [|remaining IH]; intros i s.
  - exists (Ok None), []. rewrite add_events_nil. split; [done|constructor].
  - cbn [Retry.attempts]. unfold try_catch, axios_get, emit.
    unfold bind, ret, throw. destruct (axios env i).
    + case_bool_decide.
      * eexists _, [_]. split; [reflexivity|by repeat constructor].
      * destruct (IH (S i)
          (add_events s [HttpGet "image.pollinations.ai" width height (Some 45000)]))
          as (r & evs & Hrun & Hevs).
        rewrite add_events_app in Hrun. eexists _, _. split; [exact Hrun|].
        apply Forall_app. split; [by repeat constructor|done].
    + eexists _, [_]. split; [reflexivity|by repeat constructor].
Qed.

Lemma picsum_attempts_frame env width height remaining : ∀ i buffer s,
  ∃ r evs, Picsum.attempts env width height remaining i buffer s
           = (r, add_events s evs)
           ∧ acquisition_events evs.
Proof.
  induction remaining as [|remaining IH]; intros i buffer [st fl tr th].
  - exists (Ok buffer), []. rewrite add_events_nil. split; [done|constructor].
  - cbn [Picsum.attempts]. unfold try_catch, axios_get, emit.
    unfold bind, ret, throw, add_events. simpl.
    destruct (axios env i); [case_bool_decide; [destruct (axios env 3)|]|];
      simpl.
    all: try match goal with
         | |- context [Picsum.attempts _ _ _ _ ?j ?b ?st] =>
             destruct (IH j b st) as (r & evs & -> & Hevs);
             unfold add_events; simpl
         end.
    all: eexists _, _; rewrite <- ?app_assoc;
      (split; [reflexivity|]); simpl.
    all: repeat (apply Forall_cons; split; [done|]); try done.
    all: constructor.
Qed.

(** [run H] is [exec H] for every revision. *)
Ltac run_reduce H :=
  cbv beta iota zeta delta
    [Fallbacks.generateThumbnail Fallbacks.tryBlock Fallbacks.pipeline
     Fallbacks.recover Fallbacks.deleteThumbnail
     Controller.generateThumbnail Controller.tryBlock Controller.pipeline
     Retry.generateThumbnail Retry.pipeline Retry.deleteThumbnail
     Picsum.generateThumbnail Picsum.pipeline
     Legacy.generateThumbnail Legacy.pipeline Legacy.createFrom
     Legacy.thumbnailData Legacy.deleteThumbnail Legacy.sessionUserId
     Legacy.ThumbnailData.userId Legacy.ThumbnailData.title
     Legacy.ThumbnailData.prompt_used Legacy.ThumbnailData.user_prompt
     Legacy.ThumbnailData.style Legacy.ThumbnailData.aspect_ratio
     Legacy.ThumbnailData.color_scheme Legacy.ThumbnailData.text_overlay
     Legacy.ThumbnailData.isGenerating
     stageUploadComplete plain500 axios_get
     Thumbnail_create save_thumbnail update_thumbnail save
     findOneAndDelete findByIdAndDelete mkdirSync writeFileSync
     unlinkSync upload may_fail set_thumbnail set_store set_files
     get_state emit try_catch bind ret throw add_events
     store files trace thumbnail fst snd] in H.

Ltac run_split H :=
  match type of H with
  | context [match sessionUserId ?r with _ => _ end] =>
      destruct (sessionUserId r) eqn:?
  | context [match Request.session ?r with _ => _ end] =>
      destruct (Request.session r) eqn:?
  | context [if nonempty ?u then _ else _] => destruct (nonempty u) eqn:?
  | context [match delete_error ?e with _ => _ end] =>
      destruct (delete_error e) eqn:?
  | context [match create_error ?e with _ => _ end] =>
      destruct (create_error e) eqn:?
  | context [match ?st !! ?k with _ => _ end] => destruct (st !! k) eqn:?
  | context [Fallbacks.destructure ?d] => destruct (Fallbacks.destructure d) eqn:?
  | context [Fallbacks.generateImageWithFallbacks ?e ?p ?w ?h ?st] =>
      let r := fresh "r" in
      let evs := fresh "evs" in
      let Hacq := fresh "Hacq" in
      destruct (generateImageWithFallbacks_frame e p w h st)
        as (r & evs & Hacq & ?);
      rewrite Hacq in H; clear Hacq; destruct r
  | context [Controller.dimensions ?a ?st] =>
      let r := fresh "r" in
      let Hdim := fresh "Hdim" in
      destruct (dimensions_frame a st) as (r & Hdim);
      rewrite Hdim in H; clear Hdim; destruct r as [[? ?]|?]
  | context [splitDimensions ?m ?a ?st] =>
      let r := fresh "r" in
      let Hdim := fresh "Hdim" in
      destruct (splitDimensions_frame m a st) as (r & Hdim);
      rewrite Hdim in H; clear Hdim; destruct r as [[? ?]|?]
  | context [Controller.attempts ?e ?w ?h ?n ?a ?st] =>
      let r := fresh "r" in
      let evs := fresh "evs" in
      let Hacq := fresh "Hacq" in
      destruct (attempts_frame e w h n a st) as (r & evs & Hacq & ?);
      rewrite Hacq in H; clear Hacq; destruct r as [[?|]|?]
  | context [Retry.attempts ?e ?w ?h ?n ?a ?st] =>
      let r := fresh "r" in
      let evs := fresh "evs" in
      let Hacq := fresh "Hacq" in
      destruct (retry_attempts_frame e w h n a st) as (r & evs & Hacq & ?);
      rewrite Hacq in H; clear Hacq; destruct r as [[?|]|?]
  | context [Picsum.attempts ?e ?w ?h ?n ?a ?b ?st] =>
      let r := fresh "r" in
      let evs := fresh "evs" in
      let Hacq := fresh "Hacq" in
      destruct (picsum_attempts_frame e w h n a b st) as (r & evs & Hacq & ?);
      rewrite Hacq in H; clear Hacq; destruct r as [[?|]|?]
  | context [match axios ?e ?i with _ => _ end] => destruct (axios e i) eqn:?
  | context [match mkdir_error ?e with _ => _ end] =>
      destruct (mkdir_error e) eqn:?
  | context [match write_error ?e with _ => _ end] =>
      destruct (write_error e) eqn:?
  | context [match upload_result ?e with _ => _ end] =>
      destruct (upload_result e) eqn:?
  | context [match save_error ?e with _ => _ end] =>
      destruct (save_error e) eqn:?
  | context [match unlink_error ?e with _ => _ end] =>
      destruct (unlink_error e) eqn:?
  | context [bool_decide (?p ∈ {[?p]} ∪ ?fl)] =>
      rewrite (bool_decide_true (p ∈ {[p]} ∪ fl)) in H by set_solver
  | context [match recovery_save_error ?e with _ => _ end] =>
      destruct (recovery_save_error e) eqn:?
  | context [if bool_decide ?P then _ else _] => destruct (bool_decide P) eqn:?
  end.

Ltac run H := run_reduce H; repeat (run_split H; run_reduce H).

(** ** What every generate request leaves alone *)

Ltac summary_leaf :=
  unfold generate_summary, truthy; simpl;
  repeat match goal with H : sessionUserId _ = _ |- _ => rewrite H end;
  split; [first [by left | by (right; left) | by (right; right)]|];
  split; [split; intros; first [done | congruence]|];
  split; [intros id Hid; by rewrite ?lookup_insert_ne by done|];
  split;
    [intros p Hp;
     rewrite ?elem_of_difference, ?elem_of_union, ?elem_of_singleton; tauto|];
  split;
    [intros Hnone;
     first [by repeat split
           | exfalso; eapply Hnone; apply list_elem_of_here]|];
  split;
    [intros Hrejected doc Hdoc;
     first [by apply elem_of_nil in Hdoc
           | destruct Hrejected as [[? Hrej]|[? Hrej]]; congruence]|];
  split;
    [intros final url Hfresh Hfinal Himg;
     rewrite ?lookup_insert_eq in Hfinal;
     first [congruence
           | by simplify_eq/=
           | simplify_eq/=; split; [done|];
             eexists; rewrite <- ?app_assoc;
             rewrite ?elem_of_cons, ?elem_of_app, ?elem_of_cons; eauto 20]|];
  split;
    [intros doc Hdoc; simpl in Hdoc; rewrite <- ?app_assoc in Hdoc;
     absurd_event; by simplify_eq/=|];
  intros Hstatus;
  first [discriminate Hstatus
        | eexists _, _, _; split; [apply list_elem_of_here|];
          split; [eassumption|]; split; [reflexivity|];
          split; [apply lookup_insert_eq|reflexivity]].

Ltac summarize handler :=
  let Hrun := fresh "Hrun" in
  intros env req [st fl tr th]; unfold answers, events_of;
  destruct (handler env req
              {| store := st; files := fl; trace := tr; thumbnail := th |})
    as [r s'] eqn:Hrun;
  run Hrun; simplify_eq/=; eexists _, _, _;
    (split; [split; [reflexivity|];
      rewrite <- ?app_assoc; first [reflexivity | by rewrite app_nil_r]|]);
  summary_leaf.

Lemma fallbacks_summary : ∀ env req s,
  ∃ resp s' evs, answers Fallbacks.generateThumbnail env req s resp s' evs
                 ∧ generate_summary env req s s' resp evs.
Proof. summarize Fallbacks.generateThumbnail. Qed.

Lemma controller_summary : ∀ env req s,
  ∃ resp s' evs, answers Controller.generateThumbnail env req s resp s' evs
                 ∧ generate_summary env req s s' resp evs.
Proof. summarize Controller.generateThumbnail. Qed.

Lemma retry_summary : ∀ env req s,
  ∃ resp s' evs, answers Retry.generateThumbnail env req s resp s' evs
                 ∧ generate_summary env req s s' resp evs.
Proof. summarize Retry.generateThumbnail. Qed.

Lemma picsum_summary : ∀ env req s,
  ∃ resp s' evs, answers Picsum.generateThumbnail env req s resp s' evs
                 ∧ generate_summary env req s s' resp evs.
Proof. summarize Picsum.generateThumbnail. Qed.

Lemma legacy_summary : ∀ env req s,
  ∃ resp s' evs, answers Legacy.generateThumbnail env req s resp s' evs
                 ∧ generate_summary env req s s' resp evs.
Proof. summarize Legacy.generateThumbnail. Qed.

Lemma generate_handlers_summary :
  Forall (λ handler, ∀ env req s,
            ∃ resp s' evs, answers handler env req s resp s' evs
                           ∧ generate_summary env req s s' resp evs)
    generate_handlers.
Proof.
  repeat apply Forall_cons_2; [ apply fallbacks_summary
    | apply controller_summary | apply retry_summary
    | apply picsum_summary | apply legacy_summary | apply Forall_nil_2 ].
Qed.

(** X1.  Every revision of [generateThumbnail] handles what its [try]
    block throws: whatever the store, the providers, the disk and the
    upload service answer, the handler completes with a response, of
    status 200, 401 or 500, and the status is 401 exactly when the
    session carries no user identity. *)
Theorem generate_always_answers :
  Forall (λ handler : Env → Request.t → M Response.t,
            ∀ env req s,
              ∃ resp s',
                handler env req s = (Ok resp, s')
                ∧ (Response.status resp = 200 ∨ Response.status resp = 401
                   ∨ Response.status resp = 500)
                ∧ (Response.status resp = 401
                   ↔ truthy (sessionUserId req) = false))
    generate_handlers.
Proof.
  eapply Forall_impl; [apply generate_handlers_summary|].
  intros handler Hsummary env req s.
  destruct (Hsummary env req s)
    as (resp & s' & evs & [Hrun _] & Hstatus & H401 & _).
  by exists resp, s'.
Qed.

(** X2.  A generate request touches one record and one file: every
    record whose id is not the id of the created document, and every
    file other than the transient one, is after the request as it was
    before, in every revision and on every path. *)
Theorem generate_touches_only_its_own :
  Forall (λ handler : Env → Request.t → M Response.t,
            ∀ env req s id path,
              id ≠ objectId env →
              path ≠ tempFilepath env →
              store (handler env req s).2 !! id = store s !! id
              ∧ (path ∈ files (handler env req s).2 ↔ path ∈ files s))
    generate_handlers.
Proof.
  eapply Forall_impl; [apply generate_handlers_summary|].
  intros handler Hsummary env req s id path Hid Hpath.
  destruct (Hsummary env req s)
    as (resp & s' & evs & [Hrun _] & _ & _ & Hstore & Hfiles & _).
  rewrite Hrun. simpl. split; [by apply Hstore|by apply Hfiles].
Qed.

Lemma generate_touches_only_its_own_witness :
  store (Fallbacks.generateThumbnail env_third_provider
           {| Request.session := Some {| Session.userId := Some "user-2" |};
              Request.body := everything_fine_body;
              Request.id := EmptyString |}
           {| store := {[ "77aa00000001" := stored_record ]};
              files := {[ "images/keep.png" ]};
              trace := []; thumbnail := None |}).2 !! "77aa00000001"
  = Some stored_record.
Proof.
  destruct (Forall_inv generate_touches_only_its_own env_third_provider
              {| Request.session := Some {| Session.userId := Some "user-2" |};
                 Request.body := everything_fine_body;
                 Request.id := EmptyString |}
              {| store := {[ "77aa00000001" := stored_record ]};
                 files := {[ "images/keep.png" ]};
                 trace := []; thumbnail := None |}
              "77aa00000001" "images/keep.png") as [Hstore _].
  - discriminate.
  - vm_compute. discriminate.
  - rewrite Hstore. vm_compute. reflexivity.
Defined.

(** X3.  When [Thumbnail.create] rejects, or the id it was given is
    taken, an authenticated generate request stops there: the answer is
    500, and the store, the disk and the trace are as before, so no
    provider was requested and nothing was uploaded.  Every revision. *)
Theorem rejected_create_stops_request :
  Forall (λ handler : Env → Request.t → M Response.t,
            ∀ env req s,
              truthy (sessionUserId req) = true →
              is_Some (create_error env)
              ∨ is_Some (store s !! objectId env) →
              ∃ resp s',
                handler env req s = (Ok resp, s')
                ∧ Response.status resp = 500
                ∧ store s' = store s
                ∧ files s' = files s
                ∧ trace s' = trace s)
    generate_handlers.
Proof.
  eapply Forall_impl; [apply generate_handlers_summary|].
  intros handler Hsummary env req s Hauth Hrejected.
  destruct (Hsummary env req s)
    as (resp & s' & evs & [Hrun Hevs] & Hstatus & H401 & _ & _
        & Hnone & Hcreate & _).
  destruct (Hnone (Hcreate Hrejected)) as (-> & Hstore & Hfiles & H200).
  exists resp, s'. split; [done|]. unfold events_of in Hevs.
  rewrite app_nil_r in Hevs. split; [|done].
  destruct Hstatus as [?|[H|?]]; [done| |done].
  apply H401 in H. congruence.
Qed.

Lemma rejected_create_stops_request_witness :
  ∃ resp s',
    Fallbacks.generateThumbnail env_create_rejected authenticated_request
      empty_state = (Ok resp, s')
    ∧ Response.status resp = 500
    ∧ store s' = store empty_state
    ∧ files s' = files empty_state
    ∧ trace s' = trace empty_state.
Proof.
  apply (Forall_inv rejected_create_stops_request env_create_rejected
           authenticated_request empty_state).
  - reflexivity.
  - left. by eexists.
Defined.

(** X4.  The [image_url] of a record is what the upload service
    returned: if after a generate request the record under the new id
    has [image_url = url], then the upload of the transient file was
    made and answered [url].  Every revision. *)
Theorem image_url_comes_from_upload :
  Forall (λ handler : Env → Request.t → M Response.t,
            ∀ env req s final url,
              store s !! objectId env = None →
              store (handler env req s).2 !! objectId env = Some final →
              image_url final = Some url →
              upload_result env = inr url
              ∧ ∃ evs folder,
                  events_of s (handler env req s).2 evs
                  ∧ Upload (tempFilepath env) folder ∈ evs)
    generate_handlers.
Proof.
  eapply Forall_impl; [apply generate_handlers_summary|].
  intros handler Hsummary env req s final url Hfresh Hfinal Hurl.
  destruct (Hsummary env req s)
    as (resp & s' & evs & [Hrun Hevs] & _ & _ & _ & _ & _ & _ & Hprov & _).
  rewrite Hrun in *. simpl in *.
  destruct (Hprov final url Hfresh Hfinal Hurl) as (Hup & folder & Hin).
  split; [done|]. by exists evs, folder.
Qed.

Lemma image_url_comes_from_upload_witness :
  upload_result env_third_provider
  = inr "https://res.cloudinary.com/demo/thumbnails/a.png".
Proof.
  apply (Forall_inv image_url_comes_from_upload env_third_provider
           authenticated_request empty_state
           (assign_isGenerating false
              (assign_image_url
                 "https://res.cloudinary.com/demo/thumbnails/a.png"
                 pending_record))
           "https://res.cloudinary.com/demo/thumbnails/a.png").
  - reflexivity.
  - vm_compute. reflexivity.
  - reflexivity.
Defined.

(** X5.  After a 200 the [thumbnail] of the response is the record as
    stored: the created record with [image_url] set to the URL the
    upload returned and [isGenerating] set to false.  Every revision. *)
Theorem success_response_is_stored_record :
  Forall (λ handler : Env → Request.t → M Response.t,
            ∀ env req s resp s',
              handler env req s = (Ok resp, s') →
              Response.status resp = 200 →
              ∃ created url final,
                upload_result env = inr url
                ∧ final = assign_isGenerating false (assign_image_url url created)
                ∧ _id created = objectId env
                ∧ sessionUserId req = Some (userId created)
                ∧ store s' !! objectId env = Some final
                ∧ Response.thumbnail resp = Some final)
    generate_handlers.
Proof.
  eapply Forall_impl; [apply generate_handlers_summary|].
  intros handler Hsummary env req s resp s' Hrun Hstatus.
  destruct (Hsummary env req s)
    as (resp0 & s0 & evs & [Hrun0 Hevs] & _ & _ & _ & _ & _ & _ & _
        & Hcreated & H200).
  rewrite Hrun in Hrun0. simplify_eq.
  destruct (H200 Hstatus) as (created & url & final & Hin & Hup & -> & Hst & Hth).
  destruct (Hcreated created Hin) as (Hid & Huser & _).
  by eexists created, url, _.
Qed.

Lemma success_response_is_stored_record_witness :
  ∃ created url final,
    upload_result env_third_provider = inr url
    ∧ final = assign_isGenerating false (assign_image_url url created)
    ∧ _id created = objectId env_third_provider
    ∧ sessionUserId authenticated_request = Some (userId created)
    ∧ store (Fallbacks.generateThumbnail env_third_provider
               authenticated_request empty_state).2
        !! objectId env_third_provider = Some final
    ∧ Response.thumbnail
        (response_of (Fallbacks.generateThumbnail env_third_provider
                        authenticated_request empty_state).1)
      = Some final.
Proof.
  apply (Forall_inv success_response_is_stored_record env_third_provider
           authenticated_request empty_state).
  - vm_compute. reflexivity.
  - vm_compute. reflexivity.
Defined.

(** X6.  The record a generate request creates is read off the request:
    its owner is the session user, a missing title or prompt is stored
    as the empty string, the three keys are the cleaned ones, and it
    starts pending, with neither [image_url] nor [error].  Every
    revision. *)
Theorem created_record_reflects_request :
  Forall (λ handler : Env → Request.t → M Response.t,
            ∀ env req s evs doc,
              events_of s (handler env req s).2 evs →
              DbCreate doc ∈ evs →
              _id doc = objectId env
              ∧ sessionUserId req = Some (userId doc)
              ∧ title doc = or_default (Body.title (Request.body req)) EmptyString
              ∧ prompt_used doc
                = or_default (Body.prompt (Request.body req)) EmptyString
              ∧ style doc = clean (Body.style (Request.body req)) "Bold & Graphic"
              ∧ aspect_ratio doc
                = clean (Body.aspect_ratio (Request.body req)) "16:9"
              ∧ color_scheme doc
                = clean (Body.color_scheme (Request.body req)) "vibrant"
              ∧ isGenerating doc = true
              ∧ image_url doc = None
              ∧ error doc = None)
    generate_handlers.
Proof.
  eapply Forall_impl; [apply generate_handlers_summary|].
  intros handler Hsummary env req s evs doc Hevs Hdoc.
  destruct (Hsummary env req s)
    as (resp0 & s0 & evs0 & [Hrun0 Hevs0] & _ & _ & _ & _ & _ & _ & _
        & Hcreated & _).
  rewrite Hrun0 in Hevs. simpl in Hevs. unfold events_of in *.
  rewrite Hevs0 in Hevs. apply app_inv_head in Hevs. subst evs0.
  by apply Hcreated.
Qed.

Lemma created_record_reflects_request_witness :
  _id pending_record = objectId env_third_provider
  ∧ sessionUserId authenticated_request = Some (userId pending_record)
  ∧ title pending_record = "Test"
  ∧ isGenerating pending_record = true.
Proof.
  destruct (Forall_inv created_record_reflects_request env_third_provider
              authenticated_request empty_state
              (trace (Fallbacks.generateThumbnail env_third_provider
                        authenticated_request empty_state).2)
              pending_record) as (Hid & Huser & Htitle & _ & _ & _ & _ & Hgen & _).
  - reflexivity.
  - apply (bool_decide_unpack _). vm_compute. exact I.
  - split; [exact Hid|]. split; [exact Huser|]. split; [exact Htitle|exact Hgen].
Defined.

(** X7.  The revisions of src/unnamed/part_001 and src/unnamed/part_002
    refuse a generate request without user identity as the other two
    do: 401, and the store, the disk and the trace are untouched. *)
Theorem unauthenticated_generate_is_refused_everywhere (env : Env)
    (req : Request.t) (s : State) :
  truthy (sessionUserId req) = false →
  refused_without_effect Retry.generateThumbnail env req s
  ∧ refused_without_effect Picsum.generateThumbnail env req s
  ∧ refused_without_effect Legacy.generateThumbnail env req s.
Proof.
  intros Hanon. unfold refused_without_effect, truthy in *.
  destruct s as [st fl tr th].
  split_and!.
  - destruct (Retry.generateThumbnail env req
                {| store := st; files := fl; trace := tr; thumbnail := th |})
      as [r s'] eqn:Hrun.
    run Hrun; simplify_eq/=; by eexists _, _.
  - destruct (Picsum.generateThumbnail env req
                {| store := st; files := fl; trace := tr; thumbnail := th |})
      as [r s'] eqn:Hrun.
    run Hrun; simplify_eq/=; by eexists _, _.
  - destruct (Legacy.generateThumbnail env req
                {| store := st; files := fl; trace := tr; thumbnail := th |})
      as [r s'] eqn:Hrun.
    run Hrun; simplify_eq/=; by eexists _, _.
Qed.

Lemma unauthenticated_generate_is_refused_everywhere_witness :
  refused_without_effect Retry.generateThumbnail
    env_third_provider anonymous_request empty_state
  ∧ refused_without_effect Picsum.generateThumbnail
      env_third_provider anonymous_request empty_state
  ∧ refused_without_effect Legacy.generateThumbnail
      env_third_provider anonymous_request empty_state.
Proof.
  apply (unauthenticated_generate_is_refused_everywhere env_third_provider
           anonymous_request empty_state).
  reflexivity.
Defined.

Ltac created_doc handler :=
  let Hrun := fresh "Hrun" in
  intros env req [st fl tr th] doc (evs & Hevs & Hdoc);
  destruct (handler env req
              {| store := st; files := fl; trace := tr; thumbnail := th |})
    as [r s'] eqn:Hrun;
  run Hrun; simplify_eq/=; events_inv; absurd_event; by simplify_eq/=.

(** X8.  [text_overlay ?? true]: in the revision with fallbacks, in
    ThumbnailController.ts and in both revisions of src/unnamed/part_001
    the created record keeps the [text_overlay] of the request, also
    when it is [false], and gets [true] only when the request has
    none. *)
Theorem text_overlay_of_request_is_kept :
  Forall (λ handler : Env → Request.t → M Response.t,
            ∀ env req s doc,
              creates handler env req s doc →
              text_overlay doc
              = match Body.text_overlay (Request.body req) with
                | Some b => b
                | None => true
                end)
    [ Fallbacks.generateThumbnail; Controller.generateThumbnail;
      Retry.generateThumbnail; Picsum.generateThumbnail ].
Proof.
  repeat apply Forall_cons_2; [ created_doc Fallbacks.generateThumbnail
    | created_doc Controller.generateThumbnail
    | created_doc Retry.generateThumbnail
    | created_doc Picsum.generateThumbnail | apply Forall_nil_2 ].
Qed.

Lemma text_overlay_of_request_is_kept_witness :
  creates Fallbacks.generateThumbnail env_third_provider no_overlay_request
    empty_state no_overlay_record
  ∧ text_overlay no_overlay_record = false.
Proof.
  assert (creates Fallbacks.generateThumbnail env_third_provider
            no_overlay_request empty_state no_overlay_record) as Hcreates.
  { exists (trace (Fallbacks.generateThumbnail env_third_provider
                      no_overlay_request empty_state).2).
    split; [reflexivity|].
    apply (bool_decide_unpack _). vm_compute. exact I. }
  split; [exact Hcreates|].
  exact (Forall_inv text_overlay_of_request_is_kept env_third_provider
           no_overlay_request empty_state no_overlay_record Hcreates).
Defined.

(** X9.  [text_overlay || true]: in the revision of src/unnamed/part_002
    the created record has [text_overlay = true] whatever the request
    says, a [false] of the request included. *)
Theorem legacy_text_overlay_is_always_true (env : Env) (req : Request.t)
    (s : State) (doc : Thumbnail) :
  creates Legacy.generateThumbnail env req s doc →
  text_overlay doc = true.
Proof.
  revert env req s doc.
  assert (∀ env req s doc,
            creates Legacy.generateThumbnail env req s doc →
            text_overlay doc
            = Legacy.overlayOrTrue (Body.text_overlay (Request.body req)))
    as Hoverlay by created_doc Legacy.generateThumbnail.
  intros env req s doc Hdoc. rewrite (Hoverlay env req s doc Hdoc).
  by destruct (Body.text_overlay (Request.body req)) as [[]|].
Qed.

Lemma legacy_text_overlay_is_always_true_witness :
  Body.text_overlay (Request.body no_overlay_request) = Some false
  ∧ creates Legacy.generateThumbnail env_third_provider no_overlay_request
      empty_state overlay_forced_record
  ∧ text_overlay overlay_forced_record = true.
Proof.
  assert (creates Legacy.generateThumbnail env_third_provider
            no_overlay_request empty_state overlay_forced_record) as Hcreates.
  { exists (trace (Legacy.generateThumbnail env_third_provider
                      no_overlay_request empty_state).2).
    split; [reflexivity|].
    apply (bool_decide_unpack _). vm_compute. exact I. }
  split; [reflexivity|]. split; [exact Hcreates|].
  exact (legacy_text_overlay_is_always_true env_third_provider
           no_overlay_request empty_state overlay_forced_record Hcreates).
Defined.

(** ** The retry loops *)

Ltac loop_run :=
  cbn [Controller.attempts Retry.attempts Picsum.attempts];
  unfold try_catch, axios_get, emit; unfold bind, ret, throw, add_events;
  simpl;
  repeat match goal with
         | H : axios _ _ = _ |- _ => rewrite H; simpl
         end;
  rewrite <- ?app_assoc; simpl.

(** X10.  The retry loop of ThumbnailController.ts and of the first
    revision of src/unnamed/part_001: when attempt [k < 3] is the first
    to answer, the loop made [k + 1] requests to image.pollinations.ai,
    with no sleep between them, and yields that payload; when the three
    attempts fail, three requests were made and the error thrown is the
    one of the third attempt. *)
Theorem three_attempts_then_rethrow (env : Env) (width height : option Z)
    (s : State) :
  let get := requests "image.pollinations.ai" width height (Some 45000) in
  (∀ k data,
     (k < 3)%nat →
     (∀ j, (j < k)%nat → failed env j) →
     axios env k = inr data →
     Controller.attempts env width height 3 0 s
     = (Ok (Some data), add_events s (get (S k)))
     ∧ Retry.attempts env width height 3 0 s
       = (Ok (Some data), add_events s (get (S k))))
  ∧ (∀ e0 e1 e2,
       axios env 0 = inl e0 → axios env 1 = inl e1 → axios env 2 = inl e2 →
       Controller.attempts env width height 3 0 s
       = (Throw e2, add_events s (get 3%nat))
       ∧ Retry.attempts env width height 3 0 s
         = (Throw e2, add_events s (get 3%nat))).
Proof.
  destruct s as [st fl tr th]. cbv zeta. unfold requests. split.
  - intros k data Hk Hfail Hok.
    destruct k as [|[|[|k]]]; [| | |lia].
    + split; loop_run; done.
    + destruct (Hfail 0%nat ltac:(lia)) as [e0 H0].
      split; loop_run; done.
    + destruct (Hfail 0%nat ltac:(lia)) as [e0 H0].
      destruct (Hfail 1%nat ltac:(lia)) as [e1 H1].
      split; loop_run; done.
  - intros e0 e1 e2 H0 H1 H2. split; loop_run; done.
Qed.

Lemma three_attempts_then_rethrow_witness :
  Controller.attempts env_second_attempt (Some 1024) (Some 576) 3 0 empty_state
  = (Ok (Some [Byte.x89; Byte.x50]),
     add_events empty_state
       [ HttpGet "image.pollinations.ai" (Some 1024) (Some 576) (Some 45000);
         HttpGet "image.pollinations.ai" (Some 1024) (Some 576) (Some 45000) ])
  ∧ (Retry.attempts env_recovery_save_fails (Some 1024) (Some 576) 3 0
       empty_state).1
    = Throw {| message := "timeout of 25000ms exceeded" |}.
Proof.
  split.
  - apply (proj1 (three_attempts_then_rethrow env_second_attempt
                    (Some 1024) (Some 576) empty_state) 1%nat).
    + lia.
    + intros [|j] Hj; [by eexists|lia].
    + reflexivity.
  - rewrite (proj2 (proj2 (three_attempts_then_rethrow env_recovery_save_fails
                             (Some 1024) (Some 576) empty_state)
                      {| message := "timeout of 25000ms exceeded" |}
                      {| message := "timeout of 25000ms exceeded" |}
                      {| message := "timeout of 25000ms exceeded" |}
                      eq_refl eq_refl eq_refl)).
    reflexivity.
Defined.

(** X11.  The retry loop of the second revision of
    src/unnamed/part_001: an attempt that answers ends the loop as in
    the other revisions; the first two failures are passed over; the
    third failure makes one more request, to picsum.photos and without
    timeout, whose payload becomes the image; and if that request fails
    as well, its error is the one thrown. *)
Theorem three_attempts_then_stock_image (env : Env)
    (width height : option Z) (s : State) :
  let get := requests "pollinations.ai" width height (Some 60000) in
  let stock := HttpGet "picsum.photos" width height None in
  (∀ k data,
     (k < 3)%nat →
     (∀ j, (j < k)%nat → failed env j) →
     axios env k = inr data →
     Picsum.attempts env width height 3 0 None s
     = (Ok (Some data), add_events s (get (S k))))
  ∧ (failed env 0 → failed env 1 → failed env 2 →
     ∀ data, axios env 3 = inr data →
       Picsum.attempts env width height 3 0 None s
       = (Ok (Some data), add_events s (get 3%nat ++ [stock])))
  ∧ (failed env 0 → failed env 1 → failed env 2 →
     ∀ e, axios env 3 = inl e →
       Picsum.attempts env width height 3 0 None s
       = (Throw e, add_events s (get 3%nat ++ [stock]))).
Proof.
  destruct s as [st fl tr th]. cbv zeta. unfold requests. split_and!.
  - intros k data Hk Hfail Hok.
    destruct k as [|[|[|k]]]; [| | |lia].
    + loop_run; done.
    + destruct (Hfail 0%nat ltac:(lia)) as [e0 H0]. loop_run; done.
    + destruct (Hfail 0%nat ltac:(lia)) as [e0 H0].
      destruct (Hfail 1%nat ltac:(lia)) as [e1 H1]. loop_run; done.
  - intros [e0 H0] [e1 H1] [e2 H2] data H3. loop_run; done.
  - intros [e0 H0] [e1 H1] [e2 H2] e H3. loop_run; done.
Qed.

Lemma three_attempts_then_stock_image_witness :
  Picsum.attempts env_only_stock_image (Some 1024) (Some 576) 3 0 None
    empty_state
  = (Ok (Some [Byte.xff; Byte.xd8]),
     add_events empty_state
       [ HttpGet "pollinations.ai" (Some 1024) (Some 576) (Some 60000);
         HttpGet "pollinations.ai" (Some 1024) (Some 576) (Some 60000);
         HttpGet "pollinations.ai" (Some 1024) (Some 576) (Some 60000);
         HttpGet "picsum.photos" (Some 1024) (Some 576) None ]).
Proof.
  apply (proj1 (proj2 (three_attempts_then_stock_image env_only_stock_image
                         (Some 1024) (Some 576) empty_state))).
  - by eexists.
  - by eexists.
  - by eexists.
  - reflexivity.
Defined.

(** ** Every run of the acquisition *)

(** Whatever the four providers answer, the run of
    [generateImageWithFallbacks] stops at some provider [k]: the ones
    before it failed, and either [k] answered, or [k] is the last one
    and failed as well. *)
Lemma acquisition_cases env prompt width height s :
  ∃ r k,
    (k < 4)%nat
    ∧ Fallbacks.generateImageWithFallbacks env prompt width height s
      = (r, add_events s (expectedAttempts width height k))
    ∧ (∀ j, (j < k)%nat → failed env j)
    ∧ match r with
      | Ok data => axios env k = inr data
      | Throw e =>
          k = 3%nat ∧ failed env 3
          ∧ e = {| message := "All image services failed" |}
      end.
Proof.
  unfold Fallbacks.generateImageWithFallbacks, Fallbacks.services, failed.
  simpl length.
  rewrite tryServices_step. destruct (axios env 0) as [e0|d0] eqn:H0.
  2:{ exists (Ok d0), 0%nat. rewrite ?add_events_app.
      split_and!; [lia|reflexivity|intros; lia|done]. }
  rewrite bool_decide_false by lia.
  rewrite tryServices_step. destruct (axios env 1) as [e1|d1] eqn:H1.
  2:{ exists (Ok d1), 1%nat. rewrite ?add_events_app.
      split_and!; [lia|reflexivity| |done].
      intros [|j] Hj; [by eexists|lia]. }
  rewrite bool_decide_false by lia.
  rewrite tryServices_step. destruct (axios env 2) as [e2|d2] eqn:H2.
  2:{ exists (Ok d2), 2%nat. rewrite ?add_events_app.
      split_and!; [lia|reflexivity| |done].
      intros [|[|j]] Hj; [by eexists..|lia]. }
  rewrite bool_decide_false by lia.
  rewrite tryServices_step. destruct (axios env 3) as [e3|d3] eqn:H3.
  2:{ exists (Ok d3), 3%nat. rewrite ?add_events_app.
      split_and!; [lia|reflexivity| |done].
      intros [|[|[|j]]] Hj; [by eexists..|lia]. }
  rewrite bool_decide_true by lia.
  eexists (Throw _), 3%nat. rewrite ?add_events_app.
  split_and!; [lia|reflexivity| |done|by eexists|done].
  intros [|[|[|j]]] Hj; [by eexists..|lia].
Qed.

(** X12.  Whatever the providers answer, image acquisition makes
    between one and four requests, to the providers in their listed
    order, sleeps 7000 ms at most in total, and changes neither the
    store nor the disk; it returns the payload of the first provider
    that answers, and throws, always the same error, only when the
    fourth provider has failed too. *)
Theorem acquisition_is_bounded (env : Env) (prompt : string)
    (width height : option Z) (s : State) :
  ∃ r evs,
    Fallbacks.generateImageWithFallbacks env prompt width height s
    = (r, add_events s evs)
    ∧ (1 ≤ length (providerCalls evs) ≤ 4)%nat
    ∧ providerCalls evs
      = take (length (providerCalls evs)) (Fallbacks.services.*1)
    ∧ 0 ≤ backoff evs ≤ 7000
    ∧ match r with
      | Ok data =>
          axios env (length (providerCalls evs) - 1) = inr data
          ∧ ∀ j, (j < length (providerCalls evs) - 1)%nat → failed env j
      | Throw e =>
          e = {| message := "All image services failed" |}
          ∧ ∀ j, (j < 4)%nat → failed env j
      end.
Proof.
  destruct (acquisition_cases env prompt width height s)
    as (r & k & Hk & Hrun & Hfail & Hr).
  exists r, (expectedAttempts width height k). split; [done|].
  destruct k as [|[|[|[|k]]]]; [| | | |lia].
  all: split; [simpl; lia|]; split; [done|]; split; [by vm_compute|].
  all: destruct r as [data|e]; simpl; [by split|].
  all: destruct Hr as (Hlast & Hfailed & ->); try lia.
  split; [done|]. intros j Hj.
  destruct (decide (j = 3%nat)) as [->|]; [done|apply Hfail; lia].
Qed.

(** The value of [width] and [height] for a key that does not name a
    member of [Object.prototype]. *)
Lemma splitDimensions_ordinary aspect s :
  aspect ∉ objectPrototypeKeys →
  ∃ w h, splitDimensions stringAspectMap aspect s = (Ok (Some w, Some h), s)
         ∧ (w, h) ∈ [(1024, 576); (1024, 1024); (576, 1024)].
Proof.
  intros Hproto. unfold splitDimensions, get.
  destruct (stringAspectMap !! aspect) as [v|] eqn:Hv.
  - apply elem_of_list_to_map_2 in Hv.
    repeat (apply elem_of_cons in Hv as [Hv|Hv]; [simplify_eq|]).
    4: by apply elem_of_nil in Hv.
    all: eexists _, _; split; [reflexivity|]; set_solver.
  - rewrite bool_decide_false by done.
    eexists _, _; split; [reflexivity|]; set_solver.
Qed.

(** ** When a generate request succeeds *)

Ltac acquisition_step H :=
  match type of H with
  | context [Fallbacks.generateImageWithFallbacks ?e ?p ?w ?h ?st] =>
      let r := fresh "r" in
      let k := fresh "k" in
      let Hacq := fresh "Hacq" in
      destruct (acquisition_cases e p w h st)
        as (r & k & ? & Hacq & ? & ?);
      rewrite Hacq in H; clear Hacq; destruct r
  end.

(** X13.  In the revision with fallbacks one answering provider is
    enough: when the request is authenticated, its record can be
    created, some provider among the four answers and the staging, the
    upload and the saves work, the request ends with 200 and the
    completed record, whichever providers failed before. *)
Theorem one_provider_is_enough (env : Env) (req : Request.t) (s : State)
    (user url : string) (k : nat) (data : Bytes) :
  can_create env req s user →
  (k < 4)%nat →
  axios env k = inr data →
  staging_works env url →
  ∃ resp s',
    Fallbacks.generateThumbnail env req s = (Ok resp, s')
    ∧ completed env user url resp s'
    ∧ Response.message resp = "Thumbnail generated successfully".
Proof.
  intros (Huser & Hnonempty & Hcreate & Hfresh) Hk Hdata
    (Hmkdir & Hwrite & Hupload & Hsave & Hunlink).
  destruct s as [st fl tr th]. simpl in Hfresh. unfold completed.
  destruct (Fallbacks.generateThumbnail env req
              {| store := st; files := fl; trace := tr; thumbnail := th |})
    as [r s'] eqn:Hrun.
  run_reduce Hrun;
    repeat (first [acquisition_step Hrun | run_split Hrun]; run_reduce Hrun).
  all: simplify_eq/=; try congruence.
  all: try (exfalso;
            match goal with
            | H : _ ∧ failed _ 3 ∧ _ |- _ => destruct H as (-> & [? ?] & _)
            end;
            assert (failed env k) as [? ?];
            [ destruct (decide (k = 3%nat)) as [->|]; [by eexists|];
              match goal with
              | Hfail : ∀ j, _ → failed _ j |- _ => apply Hfail
              end; lia
            | congruence ]).
  eexists _, _. split; [reflexivity|]. simpl. split; [|done].
  split; [done|]. split.
  - eexists. split; [done|]. split; [apply lookup_insert_eq|done].
  - apply not_elem_of_difference. right. by apply elem_of_singleton.
Qed.

Lemma one_provider_is_enough_witness :
  ∃ resp s',
    Fallbacks.generateThumbnail env_third_provider authenticated_request
      empty_state = (Ok resp, s')
    ∧ completed env_third_provider "user-1"
        "https://res.cloudinary.com/demo/thumbnails/a.png" resp s'
    ∧ Response.message resp = "Thumbnail generated successfully".
Proof.
  apply (one_provider_is_enough env_third_provider authenticated_request
           empty_state "user-1"
           "https://res.cloudinary.com/demo/thumbnails/a.png"
           2%nat [Byte.x89; Byte.x50]).
  - by repeat split.
  - lia.
  - reflexivity.
  - by repeat split.
Defined.

Lemma picsum_stock_run env width height data s :
  failed env 0 → failed env 1 → failed env 2 →
  axios env 3 = inr data →
  Picsum.attempts env width height 3 0 None s
  = (Ok (Some data),
     add_events s
       (requests "pollinations.ai" width height (Some 60000) 3
          ++ [HttpGet "picsum.photos" width height None])).
Proof.
  intros [e0 H0] [e1 H1] [e2 H2] H3. destruct s as [st fl tr th].
  unfold requests. loop_run. done.
Qed.

(** X14.  In the second revision of src/unnamed/part_001 a generator
    that fails three times does not fail the request: when the stock
    image is served and the staging, the upload and the saves work, the
    answer is 200 "Thumbnail Generated" with a completed record, after
    three requests to the generator and one to picsum.photos. *)
Theorem stock_image_completes_request (env : Env) (req : Request.t)
    (s : State) (user url : string) (data : Bytes) :
  can_create env req s user →
  clean (Body.aspect_ratio (Request.body req)) "16:9" ∉ objectPrototypeKeys →
  failed env 0 → failed env 1 → failed env 2 →
  axios env 3 = inr data →
  staging_works env url →
  ∃ resp s',
    Picsum.generateThumbnail env req s = (Ok resp, s')
    ∧ completed env user url resp s'
    ∧ Response.message resp = "Thumbnail Generated"
    ∧ ∃ evs, events_of s s' evs
             ∧ providerCalls evs
               = [ "pollinations.ai"; "pollinations.ai"; "pollinations.ai";
                   "picsum.photos" ].
Proof.
  intros (Huser & Hnonempty & Hcreate & Hfresh) Haspect Hf0 Hf1 Hf2 Hstock
    (Hmkdir & Hwrite & Hupload & Hsave & Hunlink).
  destruct s as [st fl tr th]. simpl in Hfresh. unfold completed, events_of.
  unfold Picsum.generateThumbnail, Picsum.pipeline.
  rewrite Huser, Hnonempty.
  cbv beta iota zeta delta
    [Thumbnail_create may_fail set_thumbnail set_store get_state emit
     try_catch bind ret throw store files trace thumbnail].
  rewrite Hcreate, Hfresh.
  match goal with
  | |- context [splitDimensions ?m ?a ?st] =>
      destruct (splitDimensions_ordinary a st Haspect) as (w & h & -> & _)
  end.
  cbv beta iota zeta delta [fst snd].
  rewrite (picsum_stock_run env (Some w) (Some h) data _ Hf0 Hf1 Hf2 Hstock).
  cbv beta iota zeta delta
    [stageUploadComplete save_thumbnail update_thumbnail save mkdirSync
     writeFileSync unlinkSync upload may_fail set_thumbnail set_store
     set_files get_state emit try_catch bind ret throw add_events requests
     store files trace thumbnail].
  rewrite Hmkdir, Hwrite, Hupload, Hsave, Hunlink.
  rewrite bool_decide_true by set_solver.
  eexists _, _. split; [reflexivity|]. simpl. split_and!; try done.
  - eexists. split; [done|]. split; [apply lookup_insert_eq|done].
  - apply not_elem_of_difference. right. by apply elem_of_singleton.
  - eexists. rewrite <- !app_assoc. split; [reflexivity|]. reflexivity.
Qed.

Lemma stock_image_completes_request_witness :
  ∃ resp s',
    Picsum.generateThumbnail env_only_stock_image authenticated_request
      empty_state = (Ok resp, s')
    ∧ completed env_only_stock_image "user-1"
        "https://res.cloudinary.com/demo/image/stock.jpg" resp s'
    ∧ Response.message resp = "Thumbnail Generated"
    ∧ ∃ evs, events_of empty_state s' evs
             ∧ providerCalls evs
               = [ "pollinations.ai"; "pollinations.ai"; "pollinations.ai";
                   "picsum.photos" ].
Proof.
  apply (stock_image_completes_request env_only_stock_image
           authenticated_request empty_state "user-1"
           "https://res.cloudinary.com/demo/image/stock.jpg"
           [Byte.xff; Byte.xd8]).
  - by repeat split.
  - vm_compute. intros Hin.
    repeat (apply elem_of_cons in Hin as [Hin|Hin]; [discriminate Hin|]).
    by apply elem_of_nil in Hin.
  - by eexists.
  - by eexists.
  - by eexists.
  - reflexivity.
  - by repeat split.
Defined.

(** ** What a failed request leaves in its record *)

Ltac failure_record handler :=
  let Hrun := fresh "Hrun" in
  intros env req [st fl tr th] final Hfresh Hfinal; simpl in Hfresh;
  destruct (handler env req
              {| store := st; files := fl; trace := tr; thumbnail := th |})
    as [r s'] eqn:Hrun;
  run Hrun; simplify_eq/=;
  rewrite ?lookup_insert_eq in Hfinal; simplify_eq/=; try congruence;
  (split; [done|]); intros; simplify_eq/=; (split; [by eexists|done]).

(** X15.  The revisions without a recovery write never record a
    failure: whatever happens to a generate request, the [error] of its
    record stays unset, and the record is still pending unless the
    completion save went through, in which case it has its
    [image_url]. *)
Theorem plain_revisions_never_record_failure :
  Forall (λ handler : Env → Request.t → M Response.t,
            ∀ env req s final,
              store s !! objectId env = None →
              store (handler env req s).2 !! objectId env = Some final →
              error final = None
              ∧ (isGenerating final = false →
                 is_Some (image_url final) ∧ save_error env = None))
    [ Controller.generateThumbnail; Retry.generateThumbnail;
      Picsum.generateThumbnail; Legacy.generateThumbnail ].
Proof.
  repeat apply Forall_cons_2; [ failure_record Controller.generateThumbnail
    | failure_record Retry.generateThumbnail
    | failure_record Picsum.generateThumbnail
    | failure_record Legacy.generateThumbnail | apply Forall_nil_2 ].
Qed.

Lemma plain_revisions_never_record_failure_witness :
  store (Controller.generateThumbnail env_recovery_save_fails
           authenticated_request empty_state).2 !! "665f1c2e9b1d"
  = Some pending_record
  ∧ error pending_record = None.
Proof.
  assert (store (Controller.generateThumbnail env_recovery_save_fails
                   authenticated_request empty_state).2
            !! objectId env_recovery_save_fails = Some pending_record)
    as Hstored by (vm_compute; reflexivity).
  split; [exact Hstored|].
  exact (proj1 (Forall_inv plain_revisions_never_record_failure
                  env_recovery_save_fails authenticated_request empty_state
                  pending_record eq_refl Hstored)).
Defined.

(** X16.  The recovery write of the revision with fallbacks, when its
    save goes through: the stored record is the document the handler
    held, marked not generating, with the message of the error as
    [error], or "Generation failed" when that message is empty, while
    the [error] field of the 500 response carries the message as it
    is. *)
Theorem failure_is_recorded (env : Env) (req : Request.t)
    (s s1 : State) (original : Error) (doc : Thumbnail) :
  Fallbacks.tryBlock env req (no_thumbnail s) = (Throw original, s1) →
  thumbnail s1 = Some doc →
  recovery_save_error env = None →
  let failed_doc :=
    assign_error
      (if nonempty (message original) then message original
       else "Generation failed")
      (assign_isGenerating false doc) in
  ∃ resp s2,
    Fallbacks.generateThumbnail env req s = (Ok resp, s2)
    ∧ Response.status resp = 500
    ∧ Response.error resp = Some (message original)
    ∧ Response.thumbnail resp = Some failed_doc
    ∧ store s2 !! _id doc = Some failed_doc
    ∧ trace s2 = trace s1 ++ [DbSave failed_doc].
Proof.
  intros Htry Hdoc Hsave. cbv zeta.
  unfold Fallbacks.generateThumbnail, set_thumbnail.
  unfold bind at 1. unfold try_catch at 1.
  change {| store := store s; files := files s; trace := trace s;
            thumbnail := None |} with (no_thumbnail s).
  rewrite Htry. destruct s1 as [st1 fl1 tr1 th1]. simpl in Hdoc. subst th1.
  unfold Fallbacks.recover.
  cbv beta iota zeta delta
    [save_thumbnail update_thumbnail save may_fail set_thumbnail set_store
     get_state emit try_catch bind ret throw store files trace thumbnail
     or_default].
  rewrite Hsave. eexists _, _. split; [reflexivity|]. simpl.
  split_and!; try done. apply lookup_insert_eq.
Qed.

Lemma failure_is_recorded_witness :
  ∃ resp s2,
    Fallbacks.generateThumbnail env_silent_failure authenticated_request
      empty_state = (Ok resp, s2)
    ∧ Response.error resp = Some EmptyString
    ∧ (error <$> store s2 !! "665f1c2e9b1d") = Some (Some "Generation failed").
Proof.
  destruct (failure_is_recorded env_silent_failure authenticated_request
              empty_state
              (Fallbacks.tryBlock env_silent_failure authenticated_request
                 (no_thumbnail empty_state)).2
              {| message := EmptyString |} pending_record)
    as (resp & s2 & Hrun & _ & Herror & _ & Hstored & _).
  - vm_compute. reflexivity.
  - vm_compute. reflexivity.
  - reflexivity.
  - exists resp, s2. split; [exact Hrun|]. split; [exact Herror|].
    change (_id pending_record) with "665f1c2e9b1d" in Hstored.
    rewrite Hstored. reflexivity.
Defined.

(** ** The delete handlers *)

Ltac delete_unfold :=
  unfold Fallbacks.deleteThumbnail, Retry.deleteThumbnail,
    Legacy.deleteThumbnail, Legacy.sessionUserId, findOneAndDelete,
    findByIdAndDelete, matches, deleted;
  cbv beta iota zeta delta
    [may_fail set_store get_state emit try_catch bind ret throw
     store files trace thumbnail].

Lemma scoped_delete_run (env : Env) (req : Request.t) (s : State) :
  delete_error env = None →
  Fallbacks.deleteThumbnail env req s
  = (Ok (if matches req s then delete_ok else delete_not_found),
     if matches req s then deleted (Request.id req) s else s)
  ∧ Retry.deleteThumbnail env req s
    = (Ok delete_ok, if matches req s then deleted (Request.id req) s else s).
Proof.
  intros Hquery. destruct s as [st fl tr th]. delete_unfold. rewrite Hquery.
  destruct (st !! Request.id req) as [doc|]; [|done].
  by case_bool_decide.
Qed.

Lemma unscoped_delete_run (env : Env) (req : Request.t) (s : State)
    (session : Session.t) :
  delete_error env = None →
  Request.session req = Some session →
  Legacy.deleteThumbnail env req s
  = (Ok delete_ok,
     if bool_decide (is_Some (store s !! Request.id req))
     then deleted (Request.id req) s else s).
Proof.
  intros Hquery Hsession. destruct s as [st fl tr th]. delete_unfold.
  rewrite Hsession, Hquery.
  destruct (st !! Request.id req) as [doc|] eqn:Hdoc.
  - rewrite bool_decide_eq_true_2 by eauto. done.
  - rewrite bool_decide_eq_false_2; [done|]. by intros [? ?].
Qed.

Lemma rejected_delete_run (env : Env) (req : Request.t) (s : State)
    (e : Error) :
  delete_error env = Some e →
  Fallbacks.deleteThumbnail env req s = (Ok (delete_failed e), s)
  ∧ Retry.deleteThumbnail env req s = (Ok (delete_failed e), s)
  ∧ (is_Some (Request.session req) →
     Legacy.deleteThumbnail env req s = (Ok (delete_failed e), s)).
Proof.
  intros Hquery. destruct s as [st fl tr th]. delete_unfold. rewrite Hquery.
  split_and!; try done. intros [session ->]. done.
Qed.

Lemma no_session_delete_run (env : Env) (req : Request.t) (s : State) :
  Request.session req = None →
  ∃ resp, Legacy.deleteThumbnail env req s = (Ok resp, s)
          ∧ Response.status resp = 500.
Proof.
  intros Hsession. destruct s as [st fl tr th]. delete_unfold.
  rewrite Hsession. by eexists.
Qed.

(** X17.  When the store rejects the delete query, every delete handler
    answers 500 with the message of the error and leaves the state as
    it was (for the revision of part_002: on a request with a session
    object). *)
Theorem delete_query_failure_is_reported (env : Env) (req : Request.t)
    (s : State) (e : Error) :
  delete_error env = Some e →
  is_Some (Request.session req) →
  Forall (λ handler : Env → Request.t → M Response.t,
            ∃ resp, handler env req s = (Ok resp, s)
                    ∧ Response.status resp = 500
                    ∧ Response.message resp = message e)
    [ Fallbacks.deleteThumbnail; Retry.deleteThumbnail;
      Legacy.deleteThumbnail ].
Proof.
  intros Hquery Hsession.
  destruct (rejected_delete_run env req s e Hquery)
    as (Hfallbacks & Hretry & Hlegacy).
  repeat apply Forall_cons_2; [ | | |apply Forall_nil_2];
    exists (delete_failed e); (split; [|done]); auto.
Qed.

Lemma delete_query_failure_is_reported_witness :
  ∃ resp, Legacy.deleteThumbnail env_delete_rejected authenticated_request
            one_record_state = (Ok resp, one_record_state)
          ∧ Response.status resp = 500
          ∧ Response.message resp = "connection closed".
Proof.
  pose proof (delete_query_failure_is_reported env_delete_rejected
                authenticated_request one_record_state
                {| message := "connection closed" |} eq_refl
                (ex_intro _ _ eq_refl)) as Hall.
  exact (Forall_inv (Forall_inv_tail (Forall_inv_tail Hall))).
Defined.

(** X18.  The delete handlers that filter by id and owner remove
    nothing else: a record that is in the store before the request and
    not after it has the id of the request and belongs to the user of
    the session.  (The handler of part_001 says so without looking at
    what the query found.) *)
Theorem scoped_delete_removes_only_owned_record :
  Forall (λ handler : Env → Request.t → M Response.t,
            ∀ env req s id doc,
              store s !! id = Some doc →
              store (handler env req s).2 !! id = None →
              id = Request.id req
              ∧ sessionUserId req = Some (userId doc))
    [ Fallbacks.deleteThumbnail; Retry.deleteThumbnail ].
Proof.
  assert (∀ (req : Request.t) (s : State) id doc,
            store s !! id = Some doc →
            store (if matches req s then deleted (Request.id req) s else s)
              !! id = None →
            id = Request.id req ∧ sessionUserId req = Some (userId doc))
    as Hscoped.
  { intros req s id doc Hbefore. unfold matches.
    destruct (store s !! Request.id req) as [found|] eqn:Hfound;
      [case_bool_decide|]; simpl; intros Hafter; try congruence.
    destruct (decide (id = Request.id req)) as [->|Hother].
    - split; [done|congruence].
    - rewrite lookup_delete_ne in Hafter by done. congruence. }
  repeat apply Forall_cons_2; [ | |apply Forall_nil_2];
    intros env req s id doc Hbefore;
    (destruct (delete_error env) as [e|] eqn:Hquery;
     [ destruct (rejected_delete_run env req s e Hquery) as (Hf & Hr & _);
       rewrite ?Hf, ?Hr; simpl; congruence
     | destruct (scoped_delete_run env req s Hquery) as [Hf Hr];
       rewrite ?Hf, ?Hr; simpl; by apply Hscoped ]).
Qed.

Lemma scoped_delete_removes_only_owned_record_witness :
  sessionUserId authenticated_request = Some (userId stored_record).
Proof.
  refine (proj2 (Forall_inv (Forall_inv_tail
            scoped_delete_removes_only_owned_record)
            env_third_provider authenticated_request one_record_state
            "665f1c2e9b1d" stored_record _ _)).
  - vm_compute. reflexivity.
  - vm_compute. reflexivity.
Defined.

(** X19.  Deleting is idempotent in every revision: a second run of the
    same delete request leaves the store as the first run left it. *)
Theorem delete_is_idempotent :
  Forall (λ handler : Env → Request.t → M Response.t,
            ∀ env req s,
              store (handler env req (handler env req s).2).2
              = store (handler env req s).2)
    [ Fallbacks.deleteThumbnail; Retry.deleteThumbnail;
      Legacy.deleteThumbnail ].
Proof.
  assert (∀ req s, matches req (deleted (Request.id req) s) = false)
    as Hgone.
  { intros req s. unfold matches, deleted. simpl.
    by rewrite lookup_delete_eq. }
  repeat apply Forall_cons_2; [ | | |apply Forall_nil_2]; intros env req s.
  - destruct (delete_error env) as [e|] eqn:Hquery.
    + by rewrite !(proj1 (rejected_delete_run env req _ e Hquery)).
    + rewrite (proj1 (scoped_delete_run env req s Hquery)). simpl.
      rewrite (proj1 (scoped_delete_run env req _ Hquery)). simpl.
      destruct (matches req s) eqn:Hmatch; [by rewrite Hgone|].
      by rewrite Hmatch.
  - destruct (delete_error env) as [e|] eqn:Hquery.
    + by rewrite !(proj1 (proj2 (rejected_delete_run env req _ e Hquery))).
    + rewrite (proj2 (scoped_delete_run env req s Hquery)). simpl.
      rewrite (proj2 (scoped_delete_run env req _ Hquery)). simpl.
      destruct (matches req s) eqn:Hmatch; [by rewrite Hgone|].
      by rewrite Hmatch.
  - destruct (Request.session req) as [session|] eqn:Hsession.
    + destruct (delete_error env) as [e|] eqn:Hquery.
      * by rewrite !(proj2 (proj2 (rejected_delete_run env req _ e Hquery))
                       (ex_intro _ session Hsession)).
      * rewrite (unscoped_delete_run env req s session Hquery Hsession).
        simpl.
        rewrite (unscoped_delete_run env req _ session Hquery Hsession).
        simpl.
        destruct (decide (is_Some (store s !! Request.id req)))
          as [Hfirst|Hfirst].
        -- rewrite (bool_decide_eq_true_2 _ Hfirst). unfold deleted. simpl.
           rewrite bool_decide_eq_false_2; [done|].
           rewrite lookup_delete_eq. by intros [? ?].
        -- rewrite (bool_decide_eq_false_2 _ Hfirst).
           by rewrite (bool_decide_eq_false_2 _ Hfirst).
    + destruct (no_session_delete_run env req s Hsession) as (r & Hrun & _).
      by rewrite Hrun; simpl; rewrite Hrun.
Qed.

(** X20.  In the revision with fallbacks a delete that answered 200
    cannot be repeated: the same request then gets 404 "Thumbnail not
    found" and changes nothing. *)
Theorem second_delete_is_404 (env : Env) (req : Request.t) (s : State) :
  delete_error env = None →
  Response.status (response_of (Fallbacks.deleteThumbnail env req s).1) = 200 →
  let s1 := (Fallbacks.deleteThumbnail env req s).2 in
  ∃ resp, Fallbacks.deleteThumbnail env req s1 = (Ok resp, s1)
          ∧ Response.status resp = 404
          ∧ Response.message resp = "Thumbnail not found".
Proof.
  intros Hquery. rewrite (proj1 (scoped_delete_run env req s Hquery)).
  simpl. destruct (matches req s) eqn:Hmatch; [|done]. intros _.
  rewrite (proj1 (scoped_delete_run env req _ Hquery)).
  assert (matches req (deleted (Request.id req) s) = false) as ->.
  { unfold matches, deleted. simpl. by rewrite lookup_delete_eq. }
  by exists delete_not_found.
Qed.

Lemma second_delete_is_404_witness :
  ∃ resp,
    Fallbacks.deleteThumbnail env_third_provider authenticated_request
      (Fallbacks.deleteThumbnail env_third_provider authenticated_request
         one_record_state).2
    = (Ok resp,
       (Fallbacks.deleteThumbnail env_third_provider authenticated_request
          one_record_state).2)
    ∧ Response.status resp = 404
    ∧ Response.message resp = "Thumbnail not found".
Proof.
  apply (second_delete_is_404 env_third_provider authenticated_request
           one_record_state).
  - reflexivity.
  - vm_compute. reflexivity.
Defined.

(** X21.  The delete handler of part_002 does not look at the owner:
    on a request with a session object, whatever its user, and a store
    that answers, the response is 200 and the record of the requested
    id is gone, every other record being left as it was. *)
Theorem legacy_delete_ignores_owner (env : Env) (req : Request.t)
    (s : State) (session : Session.t) :
  Request.session req = Some session →
  delete_error env = None →
  ∃ resp s', Legacy.deleteThumbnail env req s = (Ok resp, s')
             ∧ Response.status resp = 200
             ∧ store s' = delete (Request.id req) (store s).
Proof.
  intros Hsession Hquery.
  rewrite (unscoped_delete_run env req s session Hquery Hsession).
  eexists _, _. split; [reflexivity|]. split; [done|].
  case_bool_decide as Hfound; [done|].
  symmetry. apply delete_id.
  destruct (store s !! Request.id req) eqn:Hdoc; [|done].
  destruct Hfound. by eexists.
Qed.

Lemma legacy_delete_ignores_owner_witness :
  ∃ resp s', Legacy.deleteThumbnail env_third_provider other_user_request
               one_record_state = (Ok resp, s')
             ∧ Response.status resp = 200
             ∧ store s' = delete "665f1c2e9b1d" (store one_record_state).
Proof.
  exact (legacy_delete_ignores_owner env_third_provider other_user_request
           one_record_state {| Session.userId := Some "user-2" |}
           eq_refl eq_refl).
Defined.

(** X22.  In part_002 the two handlers treat a request without a
    session object differently: [generateThumbnail] refuses it with
    401, [deleteThumbnail] destructures [req.session] itself, throws,
    and answers 500; neither changes the store, the disk or the
    trace. *)
Theorem legacy_missing_session (env : Env) (req : Request.t) (s : State) :
  Request.session req = None →
  refused_without_effect Legacy.generateThumbnail env req s
  ∧ (∃ resp, Legacy.deleteThumbnail env req s = (Ok resp, s)
             ∧ Response.status resp = 500).
Proof.
  intros Hsession. split; [|by apply no_session_delete_run].
  destruct s as [st fl tr th].
  unfold refused_without_effect, Legacy.generateThumbnail, sessionUserId,
    try_catch, bind, set_thumbnail, ret.
  rewrite Hsession. by eexists _, _.
Qed.

Lemma legacy_missing_session_witness :
  refused_without_effect Legacy.generateThumbnail env_third_provider
    anonymous_request one_record_state
  ∧ (∃ resp, Legacy.deleteThumbnail env_third_provider anonymous_request
               one_record_state = (Ok resp, one_record_state)
             ∧ Response.status resp = 500).
Proof.
  exact (legacy_missing_session env_third_provider anonymous_request
           one_record_state eq_refl).
Defined.

Lemma created_then_deleted (env : Env) (req : Request.t) (s s1 : State)
    (resp : Response.t) (evs : list Event) :
  generate_summary env req s s1 resp evs →
  Response.status resp = 200 →
  matches (delete_request env req) s1 = true
  ∧ is_Some (store s1 !! objectId env)
  ∧ is_Some (Request.session req)
  ∧ delete (objectId env) (store s1) = store s.
Proof.
  intros (_ & _ & Hframe & _ & _ & Hfresh & _ & Hcreated & Hdone) Hok.
  destruct (Hdone Hok) as (created & url & final & Hin & _ & -> & Hstored & _).
  destruct (Hcreated created Hin) as (_ & Huser & _).
  assert (store s !! objectId env = None) as Hnew.
  { destruct (store s !! objectId env) eqn:Hold; [|done].
    destruct (Hfresh (or_intror (ex_intro _ _ eq_refl)) created Hin). }
  split_and!.
  - unfold matches, delete_request. simpl. rewrite Hstored.
    apply bool_decide_eq_true_2. unfold sessionUserId in *. simpl. exact Huser.
  - by eexists.
  - unfold sessionUserId in Huser. destruct (Request.session req); [by eexists|done].
  - apply map_eq. intros id. destruct (decide (id = objectId env)) as [->|Hid].
    + by rewrite lookup_delete_eq.
    + rewrite lookup_delete_ne by done. by apply Hframe.
Qed.

(** X23.  Generating and deleting are inverse on the store: after a
    generate request answered 200, the delete request of the same
    session for the created record answers 200 and the store is as it
    was before the generate request, in every file that has both
    handlers. *)
Theorem delete_undoes_generate :
  Forall (λ pair : (Env → Request.t → M Response.t)
                   * (Env → Request.t → M Response.t),
            ∀ env req s,
              Response.status (response_of (pair.1 env req s).1) = 200 →
              delete_error env = None →
              let run := pair.2 env (delete_request env req)
                           (pair.1 env req s).2 in
              Response.status (response_of run.1) = 200
              ∧ store run.2 = store s)
    handler_pairs.
Proof.
  assert (∀ generate : Env → Request.t → M Response.t,
            (∀ env req s,
               ∃ resp s' evs, answers generate env req s resp s' evs
                              ∧ generate_summary env req s s' resp evs) →
            ∀ env req s,
              Response.status (response_of (generate env req s).1) = 200 →
              matches (delete_request env req) (generate env req s).2 = true
              ∧ is_Some (store (generate env req s).2 !! objectId env)
              ∧ is_Some (Request.session req)
              ∧ delete (objectId env) (store (generate env req s).2) = store s)
    as Hpair.
  { intros generate Hsummary env req s.
    destruct (Hsummary env req s) as (resp & s1 & evs & [Hrun _] & Hfacts).
    rewrite Hrun. simpl. by apply created_then_deleted with evs. }
  repeat apply Forall_cons_2; [ | | | |apply Forall_nil_2];
    intros env req s Hok Hquery; cbv zeta; simpl in *.
  - destruct (Hpair _ fallbacks_summary env req s Hok)
      as (Hmatch & _ & _ & Hstore).
    rewrite (proj1 (scoped_delete_run env _ _ Hquery)), Hmatch. done.
  - destruct (Hpair _ retry_summary env req s Hok)
      as (Hmatch & _ & _ & Hstore).
    rewrite (proj2 (scoped_delete_run env _ _ Hquery)), Hmatch. done.
  - destruct (Hpair _ picsum_summary env req s Hok)
      as (Hmatch & _ & _ & Hstore).
    rewrite (proj2 (scoped_delete_run env _ _ Hquery)), Hmatch. done.
  - destruct (Hpair _ legacy_summary env req s Hok)
      as (_ & Hfound & [session Hsession] & Hstore).
    rewrite (unscoped_delete_run env (delete_request env req) _ session
               Hquery Hsession).
    simpl. rewrite bool_decide_eq_true_2 by done. done.
Qed.

Lemma delete_undoes_generate_witness :
  store (Fallbacks.deleteThumbnail env_third_provider
           (delete_request env_third_provider authenticated_request)
           (Fallbacks.generateThumbnail env_third_provider
              authenticated_request empty_state).2).2
  = store empty_state.
Proof.
  refine (proj2 (Forall_inv delete_undoes_generate env_third_provider
                   authenticated_request empty_state _ _)).
  - vm_compute. reflexivity.
  - reflexivity.
Defined.

(** ** The composed prompt in every revision *)

Lemma embeds_refl t : embeds t t.
Proof. exists EmptyString, EmptyString. by rewrite string_app_nil_r. Qed.

Ltac embed :=
  first [ apply embeds_refl
        | apply embeds_app_l; embed
        | apply embeds_app_r; embed ].

Ltac prompt_cases :=
  repeat match goal with
         | |- context [if ?c then _ else _] => destruct c
         end.

(** X24.  What the user typed as prompt reaches the generator as it
    is: in every revision a non-empty [user_prompt] occurs verbatim in
    the composed prompt, whatever the other fields are. *)
Theorem user_prompt_is_embedded (cleanStyle cleanColor cleanAspect : string)
    (title : option string) (p : string) :
  nonempty p = true →
  embeds (Fallbacks.buildPrompt cleanStyle cleanColor title (Some p)) p
  ∧ embeds (Controller.buildPrompt cleanStyle cleanColor cleanAspect title
              (Some p)) p
  ∧ embeds (Retry.buildPrompt cleanStyle cleanColor cleanAspect title
              (Some p)) p
  ∧ embeds (Picsum.buildPrompt cleanStyle cleanColor title (Some p)) p
  ∧ embeds (Legacy.buildPrompt cleanStyle cleanColor cleanAspect title
              (Some p)) p.
Proof.
  intros Hp.
  assert (truthy (Some p) = true) as Htruthy by exact Hp.
  unfold Fallbacks.buildPrompt, Controller.buildPrompt, Retry.buildPrompt,
    Picsum.buildPrompt, Legacy.buildPrompt.
  cbv zeta. rewrite !Htruthy. change (interpolate (Some p)) with p.
  split_and!; embed.
Qed.

Lemma user_prompt_is_embedded_witness :
  embeds (Fallbacks.buildPrompt "Minimalist" "pastel" (Some "Test")
            (Some "a cat")) "a cat".
Proof.
  exact (proj1 (user_prompt_is_embedded "Minimalist" "pastel" "16:9"
                  (Some "Test") "a cat" eq_refl)).
Defined.

(** X25.  Every revision but the one with fallbacks interpolates the
    title without looking at it: the prompt has the title between
    quotes, and for a request without a title it has the word
    undefined between quotes. *)
Theorem title_is_interpolated_unguarded (cleanStyle cleanColor cleanAspect : string)
    (title user_prompt : option string) :
  let quoted :=
    dquote +:+ match title with Some t => t | None => "undefined" end
      +:+ dquote in
  embeds (Controller.buildPrompt cleanStyle cleanColor cleanAspect title
            user_prompt) quoted
  ∧ embeds (Retry.buildPrompt cleanStyle cleanColor cleanAspect title
              user_prompt) quoted
  ∧ embeds (Picsum.buildPrompt cleanStyle cleanColor title user_prompt) quoted
  ∧ embeds (Legacy.buildPrompt cleanStyle cleanColor cleanAspect title
              user_prompt) quoted.
Proof.
  unfold Controller.buildPrompt, Retry.buildPrompt, Picsum.buildPrompt,
    Legacy.buildPrompt, interpolate.
  cbv zeta. split_and!; prompt_cases; embed.
Qed.

(** ** The safe values *)

(** The white space that [trim] strips is that of the language, not
    only that of the ASCII range; a code point that is not white space
    stays. *)
Lemma clean_strips_unicode_space :
  clean (JString (noBreakSpace +:+ "1:1" +:+ noBreakSpace)) "16:9" = "1:1"
  ∧ clean (JString (" " +:+ byteOrderMark +:+ ideographicSpace +:+ "9:16"
                      +:+ ideographicSpace +:+ " " +:+ byteOrderMark))
      "16:9" = "9:16"
  ∧ clean (JString (noBreakSpace +:+ " " +:+ byteOrderMark)) "16:9" = "16:9"
  ∧ clean (JString (zeroWidthSpace +:+ "1:1")) "16:9"
    = zeroWidthSpace +:+ "1:1".
Proof. repeat split; vm_compute; reflexivity. Qed.

(** An aspect ratio that names a member of [Object.prototype] once its
    no-break spaces are trimmed: the stock image is served, and the
    request fails all the same, at [split]. *)
Lemma padded_inherited_aspect_fails :
  let run := Picsum.generateThumbnail env_only_stock_image
               padded_inherited_aspect_request empty_state in
  Response.status (response_of run.1) = 500
  ∧ (aspect_ratio <$> store run.2 !! "665f1c2e9b1d") = Some "valueOf".
Proof. cbv zeta. repeat split; vm_compute; reflexivity. Qed.

Lemma clean_nonempty v d : nonempty d = true → nonempty (clean v d) = true.
Proof.
  intros Hd. destruct v as [| | | |text]; try done. simpl.
  by destruct (nonempty (trim text)) eqn:Htext.
Qed.

(** X26.  The SAFE VALUES block does what its name says in every
    revision: a record that a generate request creates has a non-empty
    [style], [aspect_ratio] and [color_scheme], whatever the body of the
    request holds in these fields. *)
Theorem created_record_has_safe_values :
  Forall (λ handler : Env → Request.t → M Response.t,
            ∀ env req s doc,
              DbCreate doc ∈ trace (handler env req s).2 →
              DbCreate doc ∉ trace s →
              nonempty (style doc) = true
              ∧ nonempty (aspect_ratio doc) = true
              ∧ nonempty (color_scheme doc) = true)
    generate_handlers.
Proof.
  eapply Forall_impl; [apply generate_handlers_summary|].
  intros handler Hsummary env req s doc.
  destruct (Hsummary env req s)
    as (resp & s' & evs & [Hrun Hevs] & _ & _ & _ & _ & _ & _ & _
        & Hcreated & _).
  rewrite Hrun. simpl. rewrite Hevs. intros Hin Hold.
  apply elem_of_app in Hin as [Hin|Hin]; [done|].
  destruct (Hcreated doc Hin) as (_ & _ & _ & _ & -> & -> & -> & _).
  split_and!; by apply clean_nonempty.
Qed.

Lemma created_record_has_safe_values_witness :
  nonempty (style defaults_record) = true
  ∧ nonempty (aspect_ratio defaults_record) = true
  ∧ nonempty (color_scheme defaults_record) = true.
Proof.
  apply (Forall_inv created_record_has_safe_values env_third_provider
           untyped_request empty_state defaults_record).
  - vm_compute. set_solver.
  - apply not_elem_of_nil.
Defined.

(** ** An aspect ratio that names a member of [Object.prototype] *)

Lemma inherited_key_not_in_table aspect :
  aspect ∈ objectPrototypeKeys →
  get stringAspectMap aspect = Inherited aspect
  ∧ get Controller.aspectMap aspect = Inherited aspect.
Proof.
  intros Hproto. unfold objectPrototypeKeys in Hproto.
  repeat (apply elem_of_cons in Hproto as [->|Hproto];
          [by vm_compute|]).
  by apply elem_of_nil in Hproto.
Qed.

Ltac inherited_aspect :=
  let Hfresh := fresh "Hfresh" in
  let Haspect := fresh "Haspect" in
  intros env req [st fl tr th] user (Huser & Hnonempty & Hcreate & Hfresh)
    Haspect; simpl in Hfresh;
  apply inherited_key_not_in_table in Haspect as [Hstring Hcontroller];
  unfold Controller.generateThumbnail, Controller.tryBlock,
    Controller.pipeline, Controller.dimensions, Retry.generateThumbnail,
    Retry.pipeline, Picsum.generateThumbnail, Picsum.pipeline,
    Legacy.generateThumbnail, Legacy.pipeline, Legacy.createFrom,
    Legacy.thumbnailData, splitDimensions;
  rewrite Huser, Hnonempty;
  cbv beta iota zeta delta
    [Legacy.ThumbnailData.userId Legacy.ThumbnailData.title
     Legacy.ThumbnailData.prompt_used Legacy.ThumbnailData.user_prompt
     Legacy.ThumbnailData.style Legacy.ThumbnailData.aspect_ratio
     Legacy.ThumbnailData.color_scheme Legacy.ThumbnailData.text_overlay
     Legacy.ThumbnailData.isGenerating
     plain500 Thumbnail_create may_fail set_thumbnail set_store get_state
     emit try_catch bind ret throw store files trace thumbnail];
  rewrite Hcreate, Hfresh, ?Hstring, ?Hcontroller;
  eexists _, _, _; split; [reflexivity|]; simpl;
  split_and!; try done; apply lookup_insert_eq.

(** X27.  In the revisions with a string table of dimensions an
    aspect ratio that names a member of [Object.prototype] fails the
    request after its record was created: the answer is 500, no
    provider was called, nothing was written to disk, and the record
    stays in the store as it was created, still generating. *)
Theorem inherited_aspect_key_fails_request :
  Forall (λ handler : Env → Request.t → M Response.t,
            ∀ env req s user,
              can_create env req s user →
              clean (Body.aspect_ratio (Request.body req)) "16:9"
                ∈ objectPrototypeKeys →
              ∃ resp s' created,
                handler env req s = (Ok resp, s')
                ∧ Response.status resp = 500
                ∧ trace s' = trace s ++ [DbCreate created]
                ∧ files s' = files s
                ∧ isGenerating created = true
                ∧ image_url created = None
                ∧ error created = None
                ∧ store s' !! objectId env = Some created)
    [ Controller.generateThumbnail; Retry.generateThumbnail;
      Picsum.generateThumbnail; Legacy.generateThumbnail ].
Proof.
  repeat apply Forall_cons_2; [ | | | |apply Forall_nil_2];
    inherited_aspect.
Qed.

Lemma inherited_aspect_key_fails_request_witness :
  ∃ resp s' created,
    Retry.generateThumbnail env_third_provider inherited_aspect_request
      empty_state = (Ok resp, s')
    ∧ Response.status resp = 500
    ∧ trace s' = trace empty_state ++ [DbCreate created]
    ∧ files s' = files empty_state
    ∧ isGenerating created = true
    ∧ image_url created = None
    ∧ error created = None
    ∧ store s' !! objectId env_third_provider = Some created.
Proof.
  apply (Forall_inv (Forall_inv_tail inherited_aspect_key_fails_request)
           env_third_provider inherited_aspect_request empty_state "user-1").
  - by repeat split.
  - vm_compute. set_solver.
Defined.

(** ** The transient file *)

Lemma string_length_app (a b : string) :
  String.length (a +:+ b) = (String.length a + String.length b)%nat.
Proof.
  induction a as [|x a IH]; [done|].
  rewrite string_app_cons. simpl. by rewrite IH.
Qed.

Lemma string_app_inv_tail (a b c : string) : a +:+ c = b +:+ c → a = b.
Proof.
  revert b. induction a as [|x a IH]; intros [|y b] Heq; try done.
  - apply (f_equal String.length) in Heq.
    rewrite !string_length_app in Heq. simpl in Heq. lia.
  - apply (f_equal String.length) in Heq.
    rewrite !string_length_app in Heq. simpl in Heq. lia.
  - rewrite !string_app_cons in Heq. injection Heq as -> Heq.
    by rewrite (IH b Heq).
Qed.

(** X28.  Different clock readings give different names to the
    transient file: two requests can share the file only when
    [Date.now()] gave them the same millisecond. *)
Theorem tempFilepath_follows_clock (env1 env2 : Env) :
  clock env1 ≠ clock env2 → tempFilepath env1 ≠ tempFilepath env2.
Proof.
  unfold tempFilepath. intros Hclock Heq. apply Hclock.
  do 2 apply (inj (String.app _)) in Heq.
  apply string_app_inv_tail in Heq. by apply (inj pretty) in Heq.
Qed.

Lemma tempFilepath_follows_clock_witness :
  tempFilepath env_third_provider ≠ tempFilepath env_later_clock.
Proof.
  apply (tempFilepath_follows_clock env_third_provider env_later_clock).
  simpl. lia.
Defined.

(** ** The order of the effects of a successful request *)

Ltac effects_in_order handler :=
  let Hrun := fresh "Hrun" in
  intros env req [st fl tr th];
  destruct (handler env req
              {| store := st; files := fl; trace := tr; thumbnail := th |})
    as [r s'] eqn:Hrun;
  run Hrun; simplify_eq/=; intros Hstatus; try discriminate Hstatus;
  match goal with
  | |- ∃ _ _ _ _,
         ((((((_ ++ [DbCreate ?d]) ++ ?evs) ++ _) ++ _) ++ [Upload _ ?f])
            ++ [DbSave ?final]) ++ _ = _ ∧ _ =>
      exists d, evs, f, final
  end;
  (split; [by rewrite <- !app_assoc|reflexivity]).

(** X29.  What a request that is answered 200 did, in order, in every
    revision: its first effect is the creation of its record, and its
    last five effects are the creation of the images directory,
    the write of the transient file, the upload of that file, the save
    of the completed record, which is the record of the response, and
    the deletion of the transient file. *)
Theorem success_effects_in_order :
  Forall (λ handler : Env → Request.t → M Response.t,
            ∀ env req s,
              Response.status (response_of (handler env req s).1) = 200 →
              ∃ created evs folder final,
                trace (handler env req s).2
                = trace s
                    ++ DbCreate created :: evs
                    ++ [ FsMkdir "images"; FsWrite (tempFilepath env);
                         Upload (tempFilepath env) folder; DbSave final;
                         FsUnlink (tempFilepath env) ]
                ∧ Response.thumbnail (response_of (handler env req s).1)
                  = Some final)
    generate_handlers.
Proof.
  repeat apply Forall_cons_2;
    [ effects_in_order Fallbacks.generateThumbnail
    | effects_in_order Controller.generateThumbnail
    | effects_in_order Retry.generateThumbnail
    | effects_in_order Picsum.generateThumbnail
    | effects_in_order Legacy.generateThumbnail
    | apply Forall_nil_2 ].
Qed.

Lemma success_effects_in_order_witness :
  ∃ created evs folder final,
    trace (Fallbacks.generateThumbnail env_third_provider
             authenticated_request empty_state).2
    = trace empty_state
        ++ DbCreate created :: evs
        ++ [ FsMkdir "images"; FsWrite (tempFilepath env_third_provider);
             Upload (tempFilepath env_third_provider) folder; DbSave final;
             FsUnlink (tempFilepath env_third_provider) ]
    ∧ Response.thumbnail
        (response_of (Fallbacks.generateThumbnail env_third_provider
                        authenticated_request empty_state).1)
      = Some final.
Proof.
  apply (Forall_inv success_effects_in_order env_third_provider
           authenticated_request empty_state).
  vm_compute. reflexivity.
Defined.
